(** * PlotGallery: a gallery of example scripts driving numerical libraries

    The repository holds eight flat Python scripts.  Each one builds its
    inputs, calls into an external library (cvxpy, pycalculix, meep, numpy and
    scipy, PyQt5, sfepy) and, for most of them, plots the result.

    Two views of the sources are embedded here.

    - The _value view_ translates the arithmetic the scripts themselves
      write: [base_vectors] and [B_field] of [compute_field.py] and the twist
      angle [phi] of [polarization_grating.py].  Python floats are read as
      exact reals; a float that is a NaN or an infinity (the result of a
      division by zero) is the value [None] of [option R].

    - The _effect view_ translates the scripts as programs over the calls
      they make into the libraries, in evaluation order.  A library call
      returns a value or raises; what it does is not code of the repository
      and is supplied by a [library] oracle. *)

From Stdlib Require Import Reals Lra Psatz List String Ascii ZArith Bool Lia.
From stdpp Require Import list.
Import ListNotations.

Open Scope R_scope.

(* ================================================================== *)
(** * Part I: the model *)
(* ================================================================== *)

(** ** Floats that may be undefined *)

(** A numpy float: [Some x] is the finite value [x]; [None] is NaN or an
    infinity.  Arithmetic on an undefined operand is undefined, and a
    division by zero is undefined. *)
Definition float := option R.

Definition fop1 (f : R -> R) (a : float) : float :=
  match a with Some x => Some (f x) | None => None end.

Definition fop2 (f : R -> R -> R) (a b : float) : float :=
  match a, b with Some x, Some y => Some (f x y) | _, _ => None end.

Definition fadd := fop2 Rplus.
Definition fmul := fop2 Rmult.
Definition fneg := fop1 Ropp.

Definition fdiv (a b : float) : float :=
  match a, b with
  | Some x, Some y => if Req_dec_T y 0 then None else Some (x / y)
  | _, _ => None
  end.

(** A library function on floats applied to a possibly undefined argument. *)
Definition fapp (f : R -> float) (a : float) : float :=
  match a with Some x => f x | None => None end.

(** [a[mask] = v] for one element of the array [a]. *)
Definition mask_set (mask : bool) (v : R) (a : float) : float :=
  if mask then Some v else a.

(** [u == v] on floats that are defined. *)
Definition Reqb (u v : R) : bool := if Req_dec_T u v then true else false.

(* ------------------------------------------------------------------ *)
(** ** maya_gallery/compute_field.py: the value view *)
(* ------------------------------------------------------------------ *)

Module compute_field.

(** A row of three floats, [np.r_[a, b, c]]. *)
Record vec3 : Type := V3 { c0 : R; c1 : R; c2 : R }.

(** [np.square(v).sum(axis=-1)] *)
Definition square_sum (v : vec3) : R :=
  c0 v * c0 v + c1 v * c1 v + c2 v * c2 v.

(** [v / s], elementwise. *)
Definition vdiv (v : vec3) (s : R) : vec3 :=
  V3 (c0 v / s) (c1 v / s) (c2 v / s).

(** [np.cross(a, b)] *)
Definition cross (a b : vec3) : vec3 :=
  V3 (c1 a * c2 b - c2 a * c1 b)
     (c2 a * c0 b - c0 a * c2 b)
     (c0 a * c1 b - c1 a * c0 b).

Definition dot (a b : vec3) : R :=
  c0 a * c0 b + c1 a * c1 b + c2 a * c2 b.

Definition vsub (a b : vec3) : vec3 :=
  V3 (c0 a - c0 b) (c1 a - c1 b) (c2 a - c2 b).

(** [base_vectors(n)], lines 16-31. *)
Definition base_vectors (n : vec3) : vec3 * vec3 * vec3 :=
  (* normalize n *)
  let n := vdiv n (sqrt (square_sum n)) in
  (* choose two vectors perpendicular to n *)
  let l :=
    if Reqb (Rabs (c0 n)) 1
    then V3 (c2 n) 0 (- c0 n)
    else V3 0 (c2 n) (- c1 n) in
  let l := vdiv l (sqrt (square_sum l)) in
  let m := cross n l in
  (n, l, m).

(** The zero vector, which has no direction. *)
Definition is_zero (v : vec3) : Prop := c0 v = 0 /\ c1 v = 0 /\ c2 v = 0.

(** The vector perpendicular to [n] that lines 24-27 pick, before line 29
    normalizes it. *)
Definition perp (n : vec3) : vec3 :=
  if Reqb (Rabs (c0 n)) 1 then V3 (c2 n) 0 (- c0 n) else V3 0 (c2 n) (- c1 n).

(** A 3x3 matrix by rows, [np.vstack((r0, r1, r2))]. *)
Definition mat3 : Type := (vec3 * vec3 * vec3)%type.

(** [np.dot(v, M)] for a row [v]: the combination of the rows of [M]. *)
Definition row_dot (v : vec3) (M : mat3) : vec3 :=
  let '(r0, r1, r2) := M in
  V3 (c0 v * c0 r0 + c1 v * c0 r1 + c2 v * c0 r2)
     (c0 v * c1 r0 + c1 v * c1 r1 + c2 v * c1 r2)
     (c0 v * c2 r0 + c1 v * c2 r1 + c2 v * c2 r2).

(** A row of three floats that may be undefined. *)
Definition fvec3 : Type := (float * float * float)%type.

Definition fsum3 (a b c : float) : float := fadd (fadd a b) c.


(** [np.dot(B, M)] for a row [B] of possibly undefined floats. *)
Definition frow_dot (B : fvec3) (M : mat3) : fvec3 :=
  let '(b0, b1, b2) := B in
  let '(r0, r1, r2) := M in
  let col (p : vec3 -> R) :=
    fsum3 (fmul b0 (Some (p r0))) (fmul b1 (Some (p r1))) (fmul b2 (Some (p r2))) in
  (col c0, col c1, col c2).

Section B_field.

(** [scipy.linalg.inv] and the complete elliptic integrals of
    [scipy.special], which the repository does not define. *)
Variable linalg_inv : mat3 -> mat3.
Variable ellipe ellipk : R -> float.

(** The loop radius [R]. *)
Variable R_ : R.

(** Lines 72-79, at one point [(x, y, z)] of the coil frame. *)
Definition rho (x y : R) : R := sqrt (x ^ 2 + y ^ 2).

Definition theta (x y : R) : float :=
  let theta := fop1 atan (fdiv (Some x) (Some y)) in
  (* theta[y == 0] = np.pi / 2 *)
  mask_set (Reqb y 0) (PI / 2) theta.

Definition modulus (x y z : R) : float :=
  fdiv (Some (4 * R_ * rho x y)) (Some ((R_ + rho x y) ^ 2 + z ^ 2)).

Definition E (x y z : R) : float := fapp ellipe (modulus x y z).
Definition K (x y z : R) : float := fapp ellipk (modulus x y z).

Definition dist (x y z : R) : R := (R_ - rho x y) ^ 2 + z ^ 2.

(** Lines 80-92. *)
Definition Bz (x y z : R) : float :=
  let Bz :=
    fmul (fdiv (Some 1) (Some (sqrt ((R_ + rho x y) ^ 2 + z ^ 2))))
         (fadd (K x y z)
               (fdiv (fmul (E x y z) (Some (R_ ^ 2 - rho x y ^ 2 - z ^ 2)))
                     (Some (dist x y z)))) in
  (* Bz[dist == 0] = 0 *)
  mask_set (Reqb (dist x y z) 0) 0 Bz.

Definition Brho (x y z : R) : float :=
  let Brho :=
    fmul (fdiv (Some z) (Some (rho x y * sqrt ((R_ + rho x y) ^ 2 + z ^ 2))))
         (fadd (fneg (K x y z))
               (fdiv (fmul (E x y z) (Some (R_ ^ 2 + rho x y ^ 2 + z ^ 2)))
                     (Some (dist x y z)))) in
  (* Brho[dist == 0] = 0 *)
  let Brho := mask_set (Reqb (dist x y z) 0) 0 Brho in
  (* Brho[rho == 0] = 0 *)
  mask_set (Reqb (rho x y) 0) 0 Brho.

(** Line 94: one row of [np.c_[cos(theta) * Brho, sin(theta) * Brho, Bz]]. *)
Definition B_coil (x y z : R) : fvec3 :=
  (fmul (fop1 cos (theta x y)) (Brho x y z),
   fmul (fop1 sin (theta x y)) (Brho x y z),
   Bz x y z).

(** Lines 56-64: the point [r] in the coil frame. *)
Definition trans (n : vec3) : mat3 :=
  let '(n, l, m) := base_vectors n in (l, m, n).

Definition coil_frame (n r0 r : vec3) : vec3 :=
  row_dot (vsub r r0) (linalg_inv (trans n)).

(** [B_field(r, n, r0, R)]: numpy evaluates lines 63-97 on every row of [r]. *)
Definition B_field_row (n r0 r : vec3) : fvec3 :=
  let p := coil_frame n r0 r in
  frow_dot (B_coil (c0 p) (c1 p) (c2 p)) (trans n).

Definition B_field (r : list vec3) (n r0 : vec3) : list fvec3 :=
  map (B_field_row n r0) r.

End B_field.

End compute_field.

(* ------------------------------------------------------------------ *)
(** ** meep_gallery/polarization_grating.py: the value view *)
(* ------------------------------------------------------------------ *)

Module polarization_grating.


Definition dpml : R := 1.0.     (* PML thickness *)
Definition dsub : R := 1.0.     (* substrate thickness *)
Definition dpad : R := 1.0.     (* padding thickness *)

Section pol_grating.

(** The arguments [d], [ph], [gp] of [pol_grating]. *)
Variables d ph gp : R.

Definition sx : R := dpml + dsub + d + d + dpad + dpml.





End pol_grating.

End polarization_grating.

(* ------------------------------------------------------------------ *)
(** ** The effect view: scripts as programs over library calls *)
(* ------------------------------------------------------------------ *)

Open Scope string_scope.
Open Scope list_scope.

(** What a script hands to a library or reads back from it.  Arrays, frames,
    figures and the like stay inside the library and read as [VNone]. *)
Inductive value : Type :=
| VNone
| VBool (b : bool)
| VInt (n : Z)
| VReal (x : R)
| VStr (s : string)
| VStrs (l : list string).

(** One event is recorded for every statement that evaluates library code (a
    call, an operator or an attribute of a library object), in execution
    order, under the line of the statement and the callee it is about; a call
    whose result the script itself inspects is an event of its own.
    Statements that only bind Python numbers, strings, lists or dicts are not
    events.  The arguments recorded are the names, flags and swept parameters
    of the script. *)
Record call : Type := Call { line : nat; callee : string; args : list value }.

(** A Python exception, by the name of its class. *)
Definition exn : Type := string.

Inductive result : Type :=
| Returned (v : value)
| Raises (e : exn).

Record event : Type := Event { ev_call : call; ev_result : result }.

(** The events of a run so far, oldest first. *)
Definition history : Type := list event.

(** The libraries and the world behind them: what a call does after a given
    history.  Nothing of it is code of the repository. *)
Definition library : Type := history -> call -> result.

(** A script: it returns, calls a library and goes on with the result, or
    leaves through [sys.exit].  There is no handler: no source file contains
    a [try] statement. *)
Inductive Script (A : Type) : Type :=
| Ret (a : A)
| Ext (c : call) (k : value -> Script A)
| SysExit (status : value).

Arguments Ret {A} a.
Arguments Ext {A} c k.
Arguments SysExit {A} status.

Fixpoint bind {A B : Type} (m : Script A) (f : A -> Script B) : Script B :=
  match m with
  | Ret a => f a
  | Ext c k => Ext c (fun v => bind (k v) f)
  | SysExit st => SysExit st
  end.

Declare Scope script_scope.
Delimit Scope script_scope with script.
Bind Scope script_scope with Script.
Notation "x <- m ;; k" := (bind m (fun x => k))
  (at level 100, m at next level, right associativity) : script_scope.
Notation "m ;; k" := (bind m (fun _ => k))
  (at level 100, right associativity) : script_scope.
Open Scope script_scope.

(** How a run ends. *)
Inductive outcome (A : Type) : Type :=
| Done (a : A)
| Raised (e : exn)
| Exited (status : value).

Arguments Done {A} a.
Arguments Raised {A} e.
Arguments Exited {A} status.

Fixpoint run {A : Type} (lib : library) (m : Script A) (h : history)
  : outcome A * history :=
  match m with
  | Ret a => (Done a, h)
  | Ext c k =>
      match lib h c with
      | Returned v => run lib (k v) (h ++ [Event c (Returned v)])
      | Raises e => (Raised e, h ++ [Event c (Raises e)])
      end
  | SysExit st => (Exited st, h)
  end.

(** A run of a fresh interpreter. *)
Definition outcome_of {A : Type} (lib : library) (m : Script A) : outcome A :=
  fst (run lib m []).

Definition trace_of {A : Type} (lib : library) (m : Script A) : history :=
  snd (run lib m []).

(** A statement at a line of the source. *)
Definition call_at (l : nat) (f : string) (a : list value) : Script value :=
  Ext (Call l f a) Ret.

Definition stmt (l : nat) (f : string) (a : list value) : Script unit :=
  Ext (Call l f a) (fun _ => Ret tt).

Definition import (l : nat) (module : string) : Script unit :=
  stmt l "import" [VStr module].

(** Reading a result as a float: what is no number is a NaN. *)
Definition as_float (v : value) : float :=
  match v with
  | VReal x => Some x
  | VInt n => Some (IZR n)
  | _ => None
  end.

Definition of_float (a : float) : value :=
  match a with Some x => VReal x | None => VNone end.

(** Python's truth value of a result. *)
Definition truthy (v : value) : bool :=
  match v with
  | VNone => false
  | VBool b => b
  | VInt n => negb (n =? 0)%Z
  | VReal x => negb (Reqb x 0)
  | VStr s => negb (s =? "")%string
  | VStrs l => match l with [] => false | _ => true end
  end.

(** [for x in xs: body]. *)
Fixpoint for_each {A : Type} (xs : list A) (body : A -> Script unit) : Script unit :=
  match xs with
  | [] => Ret tt
  | x :: xs => body x ;; for_each xs body
  end.

(** [for idx, x in enumerate(xs): body], threading what the body updates. *)
Fixpoint for_enumerate {A St : Type} (idx : nat) (xs : list A)
    (body : nat -> A -> St -> Script St) (s : St) : Script St :=
  match xs with
  | [] => Ret s
  | x :: xs => s' <- body idx x s ;; for_enumerate (S idx) xs body s'
  end.

(** [range(n)]. *)
Definition range (n : nat) : list nat := seq 0 n.

(** The process a script runs in: [sys.platform] and [sys.argv]. *)
Record process : Type := Process { platform : string; argv : list string }.

(** [s.startswith(prefix)]. *)
Definition startswith (s prefix : string) : bool := String.prefix prefix s.

(** [x in l] for a list of strings. *)
Definition contains (l : list string) (x : string) : bool :=
  existsb (String.eqb x) l.

(** Documented behaviour of two numpy functions the sweeps rely on; numpy is
    not code of the repository. *)

(** [np.linspace(start, stop, num)]: [arange(0, num) * step + start] with
    [step = (stop - start) / (num - 1)], the last sample set to [stop]. *)
Definition np_linspace (start stop : float) (num : nat) : list float :=
  let step := fdiv (fadd stop (fneg start)) (Some (INR (num - 1))) in
  let y := map (fun i => fadd (fmul (Some (INR i)) step) start) (seq 0 num) in
  if (1 <? num)%nat then <[(num - 1)%nat := stop]> y else y.

(** [np.zeros(n)]. *)
Definition np_zeros (n : nat) : list float := replicate n (Some 0%R).

(** *** Shapes of runs and scripts *)

(** The call of an event returned. *)
Definition returned (ev : event) : Prop :=
  match ev_result ev with Returned _ => True | Raises _ => False end.

(** A script that never leaves through [sys.exit]. *)
Inductive exit_free {A : Type} : Script A -> Prop :=
| exit_free_Ret (a : A) : exit_free (Ret a)
| exit_free_Ext (c : call) (k : value -> Script A) :
    (forall v, exit_free (k v)) -> exit_free (Ext c k).

(** A script that cannot return without a call that satisfies [P]. *)
Inductive must_call (P : call -> bool) {A : Type} : Script A -> Prop :=
| must_call_here (c : call) (k : value -> Script A) :
    P c = true -> must_call P (Ext c k)
| must_call_later (c : call) (k : value -> Script A) :
    (forall v, must_call P (k v)) -> must_call P (Ext c k)
| must_call_exit (st : value) : must_call P (SysExit st).

(** A script that makes no call that satisfies [P]. *)
Inductive never_calls (P : call -> bool) {A : Type} : Script A -> Prop :=
| never_calls_Ret (a : A) : never_calls P (Ret a)
| never_calls_Ext (c : call) (k : value -> Script A) :
    P c = false -> (forall v, never_calls P (k v)) -> never_calls P (Ext c k)
| never_calls_exit (st : value) : never_calls P (SysExit st).

(* ------------------------------------------------------------------ *)
(** ** Beys_Gallery/pyfin_alt_risk.py *)
(* ------------------------------------------------------------------ *)

Module pyfin_alt_risk.

(** The message of line 30. *)
Definition unsupported_os : string :=
  "このPythonコードが対応していないOSを使用しています．".

Definition meiryo : string := "C:\Windows\Fonts\meiryo.ttc".
Definition hiragino : string := "/System/Library/Fonts/ヒラギノ角ゴシック W4.ttc".
Definition takao : string := "/usr/share/fonts/truetype/takao-gothic/TakaoPGothic.ttf".

(** Lines 23-31: the font path by operating system. *)
Definition FontPath (p : process) : Script string :=
  if startswith (platform p) "win" then Ret meiryo
  else if startswith (platform p) "darwin" then Ret hiragino
  else if startswith (platform p) "linux" then Ret takao
  else (stmt 30 "print" [VStr unsupported_os] ;; SysExit VNone).

(** Lines 7-22. *)
Definition imports : Script unit :=
  stmt 7 "get_ipython().run_line_magic" [VStr "matplotlib"; VStr "inline"] ;;
  import 9 "numpy" ;;
  import 11 "numpy.linalg" ;;
  import 13 "scipy.optimize" ;;
  import 15 "cvxpy" ;;
  import 17 "pandas" ;;
  import 19 "matplotlib.pyplot" ;;
  import 21 "matplotlib.font_manager" ;;
  import 22 "sys".

(** Lines 7-32. *)
Definition In_1 (p : process) : Script unit :=
  imports ;;
  FontPath <- FontPath p ;;
  stmt 32 "FontProperties" [VStr FontPath].

(** Lines 39-42: the asset returns. *)
Definition In_2 : Script unit :=
  stmt 39 "pd.read_csv" [VStr "asset_return_data.csv"] ;;
  stmt 40 "R.shape" [] ;;
  stmt 41 "R.shape" [] ;;
  stmt 42 "R.mean" [].

(** Lines 49-58: the mean-absolute-deviation problem. *)
Definition In_3 : Script unit :=
  stmt 49 "(R - Mu).values" [] ;;
  stmt 50 "cvx.Variable" [] ;;
  stmt 51 "cvx.Variable" [] ;;
  stmt 52 "cvx.Parameter" [] ;;
  stmt 53 "cvx.norm" [] ;;
  stmt 54 "cvx.Problem" [].

(** Lines 65-69: the mean-absolute-deviation frontier.  [V_Risk] has the
    shape of [V_Target], so the store of line 69 is always in range. *)
Definition In_4 : Script (list float * list float) :=
  lo <- call_at 65 "Mu.min" [] ;;
  hi <- call_at 65 "Mu.max" [] ;;
  stmt 65 "np.linspace" [lo; hi; VInt 250] ;;
  let V_Target := np_linspace (as_float lo) (as_float hi) 250 in
  stmt 66 "np.zeros" [] ;;
  let V_Risk := np_zeros (length V_Target) in
  V_Risk <- for_enumerate 0 V_Target (fun idx Target_Return V_Risk =>
    stmt 67 "Target_Return.value" [of_float Target_Return] ;;
    stmt 68 "Opt_Portfolio.solve" [VStr "ECOS"] ;;
    risk <- call_at 69 "Risk_AD.value" [] ;;
    Ret (<[idx := as_float risk]> V_Risk)) V_Risk ;;
  Ret (V_Target, V_Risk).

(** Lines 76-83. *)
Definition In_5 : Script unit :=
  stmt 76 "plt.figure" [VInt 1] ;;
  stmt 77 "plt.plot" [] ;;
  stmt 78 "plt.plot" [] ;;
  stmt 79 "plt.legend" [] ;;
  stmt 81 "plt.xlabel" [] ;;
  stmt 82 "plt.ylabel" [] ;;
  stmt 83 "plt.show" [].

(** Lines 90-100: the lower-semivariance problem. *)
Definition In_6 : Script unit :=
  stmt 90 "np.sqrt" [] ;;
  stmt 91 "cvx.Variable" [] ;;
  stmt 92 "cvx.Variable" [] ;;
  stmt 93 "cvx.Parameter" [] ;;
  stmt 94 "cvx.sum_squares" [] ;;
  stmt 95 "cvx.Problem" [].

(** Lines 107-111. *)
Definition In_7 : Script (list float * list float) :=
  lo <- call_at 107 "Mu.min" [] ;;
  hi <- call_at 107 "Mu.max" [] ;;
  stmt 107 "np.linspace" [lo; hi; VInt 250] ;;
  let V_Target := np_linspace (as_float lo) (as_float hi) 250 in
  stmt 108 "np.zeros" [] ;;
  let V_Risk := np_zeros (length V_Target) in
  V_Risk <- for_enumerate 0 V_Target (fun idx Target_Return V_Risk =>
    stmt 109 "Target_Return.value" [of_float Target_Return] ;;
    stmt 110 "Opt_Portfolio.solve" [VStr "ECOS"] ;;
    risk <- call_at 111 "np.sqrt" [] ;;
    Ret (<[idx := as_float risk]> V_Risk)) V_Risk ;;
  Ret (V_Target, V_Risk).

(** Lines 118-125. *)
Definition In_8 : Script unit :=
  stmt 118 "plt.figure" [VInt 2] ;;
  stmt 119 "plt.plot" [] ;;
  stmt 120 "plt.plot" [] ;;
  stmt 121 "plt.legend" [] ;;
  stmt 123 "plt.xlabel" [] ;;
  stmt 124 "plt.ylabel" [] ;;
  stmt 125 "plt.show" [].

(** Lines 132-144: the expected-shortfall problem. *)
Definition In_9 : Script unit :=
  stmt 132 "R.values" [] ;;
  stmt 133 "cvx.Variable" [] ;;
  stmt 134 "cvx.Variable" [] ;;
  stmt 135 "cvx.Variable" [] ;;
  stmt 136 "cvx.Parameter" [] ;;
  stmt 137 "cvx.Parameter" [] ;;
  stmt 138 "cvx.sum" [] ;;
  stmt 139 "cvx.Problem" [].

Definition V_Alpha : list R := [0.05; 0.10; 0.25; 0.50]%R.

(** [M[i, j] = v]. *)
Definition set2 (i j : nat) (v : float) (M : list (list float)) : list (list float) :=
  match M !! i with
  | Some row => <[i := <[j := v]> row]> M
  | None => M
  end.

(** Lines 151-158. *)
Definition In_10 : Script (list float * list (list float)) :=
  stmt 151 "np.array" [] ;;
  lo <- call_at 152 "Mu.min" [] ;;
  hi <- call_at 152 "Mu.max" [] ;;
  stmt 152 "np.linspace" [lo; hi; VInt 250] ;;
  let V_Target := np_linspace (as_float lo) (as_float hi) 250 in
  stmt 153 "np.zeros" [] ;;
  let V_Risk := replicate (length V_Target) (np_zeros (length V_Alpha)) in
  V_Risk <- for_enumerate 0 V_Alpha (fun idx_col Alpha V_Risk =>
    stmt 154 "Alpha.value" [VReal Alpha] ;;
    stmt 155 "Alpha.value" [VReal Alpha] ;;
    for_enumerate 0 V_Target (fun idx_row Target_Return V_Risk =>
      stmt 156 "Target_Return.value" [of_float Target_Return] ;;
      stmt 157 "Opt_Portfolio.solve" [VStr "ECOS"] ;;
      risk <- call_at 158 "Risk_ES.value" [] ;;
      Ret (set2 idx_row idx_col (as_float risk) V_Risk)) V_Risk) V_Risk ;;
  Ret (V_Target, V_Risk).

(** Lines 165-180. *)
Definition In_11 : Script unit :=
  stmt 165 "plt.figure" [VInt 3] ;;
  stmt 166 "plt.plot" [] ;;
  stmt 167 "plt.plot" [] ;;
  stmt 168 "plt.legend" [] ;;
  stmt 170 "plt.xlabel" [] ;;
  stmt 171 "plt.ylabel" [] ;;
  stmt 172 "plt.figure" [VInt 4] ;;
  for_each V_Alpha (fun Alpha =>
    stmt 174 "Alpha.value" [VReal Alpha] ;;
    stmt 175 "plt.plot" []) ;;
  stmt 176 "plt.legend" [] ;;
  stmt 178 "plt.xlabel" [] ;;
  stmt 179 "plt.ylabel" [] ;;
  stmt 180 "plt.show" [].

(** Lines 187-203: risk parity. *)
Definition In_12 : Script unit :=
  stmt 187 "np.array" [] ;;
  stmt 188 "np.array" [] ;;
  stmt 189 "np.array" [] ;;
  stmt 194 "np.diag" [] ;;
  stmt 195 "np.ones" [] ;;
  stmt 196 "lin.inv" [] ;;
  stmt 197 "np.tile" [] ;;
  stmt 198 "inv_Sigma @ iota" [] ;;
  stmt 199 "inv_Sigma @ Stdev" [] ;;
  stmt 201 "opt.root" [] ;;
  stmt 202 "np.set_printoptions" [] ;;
  stmt 203 "print" [].

(** Lines 39-203: the computation, plots and printed summary. *)
Definition computation : Script unit :=
  In_2 ;;
  In_3 ;;
  _ <- In_4 ;;
  In_5 ;;
  In_6 ;;
  _ <- In_7 ;;
  In_8 ;;
  In_9 ;;
  _ <- In_10 ;;
  In_11 ;;
  In_12.

(** The platforms lines 23-28 know. *)
Definition supported (p : process) : bool :=
  startswith (platform p) "win" || startswith (platform p) "darwin"
  || startswith (platform p) "linux".

(** A call made by a statement below line 30. *)
Definition after_line_30 (c : call) : bool := (30 <? line c)%nat.

(** The events of one pass of the loop of lines 67-69 for the target [t]:
    the parameter is set, the solver runs, the risk is read. *)
Definition sweep_step (t : float) (a : value * value * value) : list event :=
  let '(set, solved, risk) := a in
  [ Event (Call 67 "Target_Return.value" [of_float t]) (Returned set);
    Event (Call 68 "Opt_Portfolio.solve" [VStr "ECOS"]) (Returned solved);
    Event (Call 69 "Risk_AD.value" []) (Returned risk) ].

Fixpoint sweep_events (V_Target : list float) (answers : list (value * value * value))
  : list event :=
  match V_Target, answers with
  | t :: V_Target, a :: answers => sweep_step t a ++ sweep_events V_Target answers
  | _, _ => []
  end.

Definition is_solve (ev : event) : bool :=
  (callee (ev_call ev) =? "Opt_Portfolio.solve")%string.

(** The script, cell by cell. *)
Definition script (p : process) : Script unit :=
  In_1 p ;;
  computation.

End pyfin_alt_risk.

(* ------------------------------------------------------------------ *)
(** ** ccx_gallery/multihole.py *)
(* ------------------------------------------------------------------ *)

Module multihole.

Definition model_name : string := "multihole".

(** Lines 11-13: whether or not to show gui plots. *)
Definition show_gui (argv : list string) : bool :=
  let show_gui := true in
  if contains argv "-nogui" then false else show_gui.

(** Lines 15-17: the element shape. *)
Definition eshape (argv : list string) : string :=
  let eshape := "quad" in
  if contains argv "-tri" then "tri" else eshape.

(** Lines 2-75, for given values of the two flags. *)
Definition body (show_gui : bool) (eshape : string) : Script unit :=
  import 2 "sys" ;;
  import 4 "pycalculix" ;;
  stmt 7 "pyc.FeaModel" [VStr model_name] ;;
  stmt 8 "model.set_units" [VStr "m"] ;;
  stmt 24 "pyc.Part" [] ;;
  stmt 25 "part.goto" [] ;;
  stmt 26 "part.draw_line_rad" [] ;;
  stmt 27 "part.draw_line_ax" [] ;;
  stmt 28 "part.draw_line_rad" [] ;;
  stmt 29 "part.draw_line_ax" [] ;;
  (* Square Holes *)
  stmt 46 "part.goto" [] ;;
  stmt 47 "part.draw_line_rad" [] ;;
  stmt 48 "part.draw_line_ax" [] ;;
  stmt 49 "part.draw_line_rad" [] ;;
  stmt 50 "part.draw_line_ax" [] ;;
  stmt 52 "part.goto" [] ;;
  stmt 53 "part.draw_line_rad" [] ;;
  stmt 54 "part.draw_line_ax" [] ;;
  stmt 55 "part.draw_line_rad" [] ;;
  stmt 56 "part.draw_line_ax" [] ;;
  stmt 59 "model.plot_geometry"
    [VStr (model_name ++ "_prechunk_areas"); VBool show_gui] ;;
  stmt 61 "model.plot_geometry"
    [VStr (model_name ++ "_prechunk_lines"); VBool show_gui] ;;
  stmt 63 "model.plot_geometry"
    [VStr (model_name ++ "_prechunk_points"); VBool show_gui] ;;
  stmt 66 "part.chunk" [] ;;
  stmt 67 "model.plot_geometry"
    [VStr (model_name ++ "_chunked_areas"); VBool show_gui] ;;
  stmt 70 "model.set_eshape" [VStr eshape; VInt 2] ;;
  stmt 71 "model.set_etype" [VStr "plstrain"] ;;
  stmt 72 "model.mesh" [VStr "gmsh"] ;;
  stmt 73 "model.plot_elements" [VBool show_gui] ;;
  stmt 75 "model.view.print_summary" [].

Definition script (p : process) : Script unit :=
  body (show_gui (argv p)) (eshape (argv p)).

End multihole.

(* ------------------------------------------------------------------ *)
(** ** maya_gallery/compute_field.py: the effect view *)
(* ------------------------------------------------------------------ *)

Module compute_field_script.

(** [base_vectors(n)], lines 20-31.  Which branch of line 24 runs depends on
    the array the library holds. *)
Definition base_vectors : Script unit :=
  stmt 20 "np.sqrt" [] ;;
  unit_x <- call_at 24 "abs(n[0]) == 1" [] ;;
  (if truthy unit_x then stmt 25 "np.r_" [] else stmt 27 "np.r_" []) ;;
  stmt 29 "np.sqrt" [] ;;
  stmt 30 "np.cross" [].

(** [B_field(r, n, r0, R)], lines 56-98. *)
Definition B_field : Script unit :=
  base_vectors ;;
  stmt 59 "np.vstack" [] ;;
  stmt 61 "linalg.inv" [] ;;
  stmt 63 "r - r0" [] ;;
  stmt 64 "np.dot" [] ;;
  stmt 69 "r[:, 0]" [] ;;
  stmt 70 "r[:, 1]" [] ;;
  stmt 71 "r[:, 2]" [] ;;
  stmt 72 "np.sqrt" [] ;;
  stmt 73 "np.arctan" [] ;;
  stmt 75 "theta[y == 0]" [] ;;
  stmt 77 "special.ellipe" [] ;;
  stmt 78 "special.ellipk" [] ;;
  stmt 79 "(R - rho)**2 + z**2" [] ;;
  stmt 80 "np.sqrt" [] ;;
  stmt 84 "np.sqrt" [] ;;
  stmt 90 "Brho[dist == 0]" [] ;;
  stmt 91 "Brho[rho == 0]" [] ;;
  stmt 92 "Bz[dist == 0]" [] ;;
  stmt 94 "np.c_" [] ;;
  stmt 97 "np.dot" [].

(** The two coils of lines 118-127, the second the mirror image of the
    first: the rows that [zip(n, r0, R)] yields. *)
Definition coils : list nat := [0; 1]%nat.

Definition script (p : process) : Script unit :=
  import 9 "numpy" ;;
  import 10 "scipy" ;;
  stmt 103 "np.mgrid" [] ;;
  stmt 106 "np.round" [] ;;
  stmt 107 "np.round" [] ;;
  stmt 108 "np.round" [] ;;
  stmt 111 "np.c_" [] ;;
  stmt 118 "np.r_" [] ;;
  stmt 120 "np.r_" [] ;;
  stmt 125 "np.vstack" [] ;;
  stmt 126 "np.r_" [] ;;
  stmt 127 "np.vstack" [] ;;
  stmt 132 "np.zeros_like" [] ;;
  stmt 134 "zip(n, r0, R)" [] ;;
  for_each coils (fun _ =>
    stmt 135 "np.array" [] ;;
    stmt 136 "np.array" [] ;;
    stmt 137 "np.array" [] ;;
    B_field ;;
    stmt 138 "B +=" []).

End compute_field_script.

(* ------------------------------------------------------------------ *)
(** ** qt_gallery/qt_3d_windows.py *)
(* ------------------------------------------------------------------ *)

Module qt_3d_windows.

(** [contained3dWindow.__init__], lines 15-24. *)
Definition contained3dWindow : Script unit :=
  stmt 15 "super().__init__" [] ;;
  stmt 16 "QVBoxLayout" [] ;;
  stmt 17 "Qt3DWindow" [] ;;
  stmt 18 "QWidget.createWindowContainer" [] ;;
  stmt 19 "lay.addWidget" [] ;;
  stmt 20 "QEntity" [] ;;
  stmt 21 "self.view.camera" [] ;;
  stmt 22 "QFirstPersonCameraController" [] ;;
  stmt 23 "camController.setCamera" [] ;;
  stmt 24 "self.view.setRootEntity" [].

(** [Ui_MainWindow.retranslateUi], lines 64-67. *)
Definition retranslateUi : Script unit :=
  stmt 64 "QtCore.QCoreApplication.translate" [] ;;
  stmt 65 "MainWindow.setWindowTitle" [VStr "MainWindow"] ;;
  stmt 66 "self.menuFile.setTitle" [VStr "File"] ;;
  stmt 67 "self.menuEdit.setTitle" [VStr "Edit"].

(** [Ui_MainWindow.setupUi], lines 30-61. *)
Definition setupUi : Script unit :=
  stmt 30 "MainWindow.setObjectName" [VStr "MainWindow"] ;;
  stmt 31 "MainWindow.resize" [VInt 1416; VInt 1041] ;;
  stmt 32 "QtWidgets.QWidget" [] ;;
  stmt 33 "self.centralwidget.setObjectName" [VStr "centralwidget"] ;;
  stmt 34 "QtWidgets.QWidget" [] ;;
  stmt 35 "self.verticalLayoutWidget.setGeometry" [] ;;
  stmt 37 "self.verticalLayoutWidget.setObjectName" [VStr "verticalLayoutWidget"] ;;
  stmt 38 "QtWidgets.QVBoxLayout" [] ;;
  stmt 39 "self.verticalLayout.setContentsMargins" [] ;;
  stmt 40 "self.verticalLayout.setObjectName" [VStr "verticalLayout"] ;;
  stmt 41 "MainWindow.setCentralWidget" [] ;;
  stmt 42 "QtWidgets.QMenuBar" [] ;;
  stmt 43 "self.menubar.setGeometry" [] ;;
  stmt 44 "self.menubar.setObjectName" [VStr "menubar"] ;;
  stmt 45 "QtWidgets.QMenu" [] ;;
  stmt 46 "self.menuFile.setObjectName" [VStr "menuFile"] ;;
  stmt 47 "QtWidgets.QMenu" [] ;;
  stmt 48 "self.menuEdit.setObjectName" [VStr "menuEdit"] ;;
  stmt 49 "MainWindow.setMenuBar" [] ;;
  stmt 50 "QtWidgets.QStatusBar" [] ;;
  stmt 51 "self.statusbar.setObjectName" [VStr "statusbar"] ;;
  stmt 52 "MainWindow.setStatusBar" [] ;;
  stmt 53 "self.menubar.addAction" [] ;;
  stmt 54 "self.menubar.addAction" [] ;;
  retranslateUi ;;
  stmt 57 "QtCore.QMetaObject.connectSlotsByName" [] ;;
  contained3dWindow ;;
  stmt 61 "self.verticalLayout.addWidget" [].

(** Lines 1-13: the imports and the class statement over [QWidget]. *)
Definition imports : Script unit :=
  import 1 "PyQt5" ;;
  import 3 "PyQt5.QtWidgets" ;;
  import 4 "PyQt5.QtWidgets" ;;
  import 5 "PyQt5.Qt3DCore" ;;
  import 6 "PyQt5.Qt3DExtras" ;;
  import 7 "PyQt5.Qt3DExtras" ;;
  import 10 "sys" ;;
  stmt 13 "class contained3dWindow(QWidget)" [].

(** Lines 73-78: what follows the construction of the application. *)
Definition main_window : Script unit :=
  stmt 73 "QtWidgets.QMainWindow" [] ;;
  setupUi ;;
  stmt 77 "MainWindow.show" [] ;;
  status <- call_at 78 "app.exec_" [] ;;
  SysExit status.

(** The file run as a script, so that [__name__ == "__main__"] holds. *)
Definition script (p : process) : Script unit :=
  imports ;;
  import 71 "sys" ;;
  stmt 72 "QtWidgets.QApplication" [VStrs (argv p)] ;;
  main_window.

End qt_3d_windows.

(* ------------------------------------------------------------------ *)
(** ** sfepy_gallery/diffusion/poisson_periodic_boundary_condition.py *)
(* ------------------------------------------------------------------ *)

Module poisson_periodic_boundary_condition.

(** A problem description: after its imports the file only binds names to
    numbers, strings and dicts, and defines [cylinder_material_func], which
    it never calls; line 96 reads two functions of the imported module. *)
Definition script (p : process) : Script unit :=
  import 26 "__future__" ;;
  import 27 "sfepy" ;;
  import 28 "numpy" ;;
  import 29 "sfepy.discrete.fem.periodic" ;;
  stmt 96 "per.match_y_plane" [].

End poisson_periodic_boundary_condition.

(* ------------------------------------------------------------------ *)
(** ** meep_gallery/polarization_grating.py: the effect view *)
(* ------------------------------------------------------------------ *)

Module polarization_grating_script.

(** [pol_grating(d, ph, gp, nmode)], lines 42-104.  The material function
    [lc_mat], and [phi] under it, run inside [mp.Simulation] and [sim.run]
    when meep evaluates the material of the second block. *)
Definition pol_grating (d ph gp : R) (nmode : nat) : Script unit :=
  stmt 45 "mp.Vector3" [VReal (polarization_grating.sx d); VReal gp] ;;
  stmt 64 "mp.Block" [] ;;
  stmt 68 "mp.Vector3" [] ;;
  stmt 69 "mp.Source" [] ;;
  stmt 72 "mp.Simulation" [] ;;
  stmt 79 "mp.Vector3" [] ;;
  stmt 80 "sim.add_flux" [] ;;
  stmt 82 "sim.run" [VInt 100] ;;
  stmt 84 "mp.get_fluxes" [] ;;
  stmt 85 "sim.get_flux_data" [] ;;
  stmt 87 "sim.reset_meep" [] ;;
  stmt 89 "mp.Simulation" [] ;;
  stmt 96 "sim.add_flux" [] ;;
  stmt 98 "sim.run" [VInt 300] ;;
  stmt 100 "sim.get_eigenmode_coefficients" [VInt (Z.of_nat nmode)] ;;
  stmt 101 "sim.get_eigenmode_coefficients" [VInt (Z.of_nat nmode)] ;;
  stmt 102 "math.acos" [] ;;
  stmt 104 "res1.alpha[:,0,0]" [].

Definition ph_uniaxial : R := 0.     (* chiral layer twist angle for uniaxial grating *)
Definition ph_twisted : R := 70.     (* chiral layer twist angle for bilayer grating *)
Definition gp : R := 6.5.            (* grating period *)
Definition nmode : nat := 5.         (* number of mode coefficients to compute *)

(** [math.radians]. *)
Definition radians (deg : R) : R := (deg * PI / 180)%R.

(** [dd = np.arange(0.2, 3.5, 0.2)]: the 17 thicknesses 0.2, 0.4, ..., 3.4. *)
Definition dd : list R := map (fun k => (0.2 + INR k * 0.2)%R) (seq 0 17).

(** Lines 19-36. *)
Definition In_1 : Script unit :=
  import 19 "meep" ;;
  import 20 "math" ;;
  import 21 "numpy" ;;
  import 22 "matplotlib.pyplot" ;;
  stmt 30 "mp.Vector3" [] ;;
  stmt 32 "mp.PML" [] ;;
  stmt 36 "mp.Matrix" [].

(** Lines 116-141. *)
Definition In_2 : Script unit :=
  stmt 116 "np.arange" [] ;;
  stmt 118 "np.zeros" [] ;;
  stmt 119 "np.zeros" [] ;;
  stmt 120 "np.zeros" [] ;;
  stmt 122 "np.zeros" [] ;;
  stmt 123 "np.zeros" [] ;;
  stmt 124 "np.zeros" [] ;;
  stmt 126 "len(dd)" [] ;;
  for_each dd (fun dd_k =>
    stmt 127 "dd[k]" [] ;;
    pol_grating (0.5 * dd_k) (radians ph_uniaxial) gp nmode ;;
    stmt 128 "abs(coeffs1)**2" [] ;;
    for_each (range nmode) (fun m => stmt 130 "print" []) ;;
    stmt 131 "m0_uniaxial[k]" [] ;;
    stmt 132 "m1_uniaxial[k]" [] ;;
    stmt 133 "ang_uniaxial[k]" [] ;;
    stmt 135 "dd[k]" [] ;;
    pol_grating dd_k (radians ph_twisted) gp nmode ;;
    stmt 136 "abs(coeffs1)**2" [] ;;
    for_each (range nmode) (fun m => stmt 138 "print" []) ;;
    stmt 139 "m0_twisted[k]" [] ;;
    stmt 140 "m1_twisted[k]" [] ;;
    stmt 141 "ang_twisted[k]" []).

(** Lines 149-156. *)
Definition In_3 : Script unit :=
  stmt 149 "math.cos" [] ;;
  stmt 150 "m0_uniaxial+2*m1_uniaxial" [] ;;
  stmt 151 "m0_uniaxial/tran" [] ;;
  stmt 152 "(2*m1_uniaxial/tran)/cos_angles" [] ;;
  stmt 154 "delta_n*dd/wvl" [] ;;
  stmt 155 "math.cos" [] ;;
  stmt 156 "math.sin" [].

(** Lines 162-191. *)
Definition In_4 : Script unit :=
  stmt 162 "plt.figure" [] ;;
  stmt 163 "plt.subplot" [] ;;
  stmt 164 "plt.plot" [] ;;
  stmt 165 "plt.plot" [] ;;
  stmt 166 "plt.plot" [] ;;
  stmt 167 "plt.plot" [] ;;
  stmt 168 "plt.axis" [] ;;
  stmt 169 "plt.xticks" [] ;;
  stmt 170 "plt.xlabel" [] ;;
  stmt 171 "plt.ylabel" [] ;;
  stmt 172 "plt.legend" [] ;;
  stmt 173 "plt.title" [] ;;
  stmt 175 "math.cos" [] ;;
  stmt 176 "m0_twisted+2*m1_twisted" [] ;;
  stmt 177 "m0_twisted/tran" [] ;;
  stmt 178 "(2*m1_twisted/tran)/cos_angles" [] ;;
  stmt 180 "plt.subplot" [] ;;
  stmt 181 "plt.plot" [] ;;
  stmt 182 "plt.plot" [] ;;
  stmt 183 "plt.axis" [] ;;
  stmt 184 "plt.xticks" [] ;;
  stmt 185 "plt.xlabel" [] ;;
  stmt 186 "plt.ylabel" [] ;;
  stmt 187 "plt.legend" [] ;;
  stmt 188 "plt.title" [] ;;
  stmt 190 "plt.tight_layout" [] ;;
  stmt 191 "plt.show" [].

Definition script (p : process) : Script unit :=
  In_1 ;; In_2 ;; In_3 ;; In_4.

End polarization_grating_script.

(* ------------------------------------------------------------------ *)
(** ** meep_gallery/solve-cw.py *)
(* ------------------------------------------------------------------ *)

Module solve_cw.

Definition num_tols : nat := 5.

(** Lines 15-62. *)
Definition geometry_plot : Script unit :=
  import 15 "meep" ;;
  import 16 "numpy" ;;
  import 17 "numpy" ;;
  import 18 "matplotlib.pyplot" ;;
  stmt 31 "mp.Vector3" [] ;;
  stmt 33 "mp.PML" [] ;;
  stmt 35 "mp.Volume" [] ;;
  stmt 37 "mp.Cylinder" [] ;;
  stmt 42 "mp.Source" [] ;;
  stmt 50 "mp.Mirror" [] ;;
  stmt 53 "mp.Simulation" [] ;;
  stmt 60 "plt.figure" [] ;;
  stmt 61 "sim.plot2D" [] ;;
  stmt 62 "plt.show" [].

(** Lines 74-81. *)
Definition tolerances : Script unit :=
  stmt 75 "np.power" [] ;;
  stmt 76 "np.zeros" [] ;;
  for_each (range num_tols) (fun i =>
    stmt 79 "sim.init_sim" [] ;;
    stmt 80 "sim.solve_cw" [] ;;
    stmt 81 "sim.get_array" []).

(** Lines 93-101. *)
Definition convergence : Script unit :=
  stmt 93 "np.zeros" [] ;;
  for_each (range (num_tols - 1)) (fun i => stmt 95 "LA.norm" []) ;;
  stmt 97 "plt.figure" [] ;;
  stmt 98 "plt.loglog" [] ;;
  stmt 99 "plt.xlabel" [] ;;
  stmt 100 "plt.ylabel" [] ;;
  stmt 101 "plt.show" [].

(** Lines 107-119. *)
Definition cw_fields : Script unit :=
  stmt 107 "sim.get_array" [] ;;
  stmt 108 "np.real" [] ;;
  stmt 110 "plt.figure" [] ;;
  stmt 111 "plt.imshow" [] ;;
  stmt 112 "plt.imshow" [] ;;
  stmt 113 "plt.axis" [] ;;
  stmt 114 "plt.show" [] ;;
  decreasing <- call_at 116 "np.all" [] ;;
  if truthy decreasing
  then stmt 117 "print"
    [VStr "PASSED solve_cw test: error in the fields is decreasing with increasing resolution"]
  else stmt 119 "print"
    [VStr "FAILED solve_cw test: error in the fields is NOT decreasing with increasing resolution"].

(** Lines 125-145. *)
Definition pulse_run : Script unit :=
  stmt 125 "sim.reset_meep" [] ;;
  stmt 128 "mp.Source" [] ;;
  stmt 136 "mp.Simulation" [] ;;
  stmt 143 "sim.add_dft_fields" [] ;;
  stmt 145 "sim.run" [VInt 100].

(** Lines 151-158. *)
Definition dft_fields : Script unit :=
  stmt 151 "sim.get_array" [] ;;
  stmt 152 "np.real" [] ;;
  stmt 154 "plt.figure" [] ;;
  stmt 155 "plt.imshow" [] ;;
  stmt 156 "plt.imshow" [] ;;
  stmt 157 "plt.axis" [] ;;
  stmt 158 "plt.show" [].

Definition script (p : process) : Script unit :=
  geometry_plot ;; tolerances ;; convergence ;; cw_fields ;; pulse_run ;; dft_fields.

End solve_cw.

(* ------------------------------------------------------------------ *)
(** ** meep_gallery/cylinder_cross_section.py *)
(* ------------------------------------------------------------------ *)

Module cylinder_cross_section.

(** Lines 19-75: the normalization run. *)
Definition normalization : Script unit :=
  import 19 "meep" ;;
  import 20 "numpy" ;;
  import 21 "matplotlib.pyplot" ;;
  stmt 26 "np.pi" [] ;;
  stmt 27 "np.pi" [] ;;
  stmt 41 "mp.PML" [] ;;
  stmt 45 "mp.Vector3" [] ;;
  stmt 47 "mp.Source" [] ;;
  stmt 57 "mp.Simulation" [] ;;
  stmt 64 "sim.add_flux" [] ;;
  stmt 65 "sim.add_flux" [] ;;
  stmt 66 "sim.add_flux" [] ;;
  stmt 68 "sim.run" [VInt 10] ;;
  stmt 70 "mp.get_flux_freqs" [] ;;
  stmt 71 "sim.get_flux_data" [] ;;
  stmt 72 "sim.get_flux_data" [] ;;
  stmt 73 "sim.get_flux_data" [] ;;
  stmt 75 "mp.get_fluxes" [].

(** Lines 77-108: the run with the cylinder. *)
Definition scattering : Script unit :=
  stmt 77 "sim.reset_meep" [] ;;
  stmt 80 "mp.Block" [] ;;
  stmt 84 "mp.Simulation" [] ;;
  stmt 92 "sim.add_flux" [] ;;
  stmt 93 "sim.add_flux" [] ;;
  stmt 94 "sim.add_flux" [] ;;
  stmt 96 "sim.load_minus_flux_data" [] ;;
  stmt 97 "sim.load_minus_flux_data" [] ;;
  stmt 98 "sim.load_minus_flux_data" [] ;;
  stmt 100 "sim.run" [VInt 100] ;;
  stmt 102 "mp.get_fluxes" [] ;;
  stmt 103 "mp.get_fluxes" [] ;;
  stmt 104 "mp.get_fluxes" [] ;;
  stmt 106 "np.asarray" [] ;;
  stmt 107 "np.asarray" [] ;;
  stmt 108 "np.divide" [].

(** Lines 110-117. *)
Definition plot : Script unit :=
  stmt 110 "plt.figure" [] ;;
  stmt 111 "plt.loglog" [] ;;
  stmt 112 "plt.grid" [] ;;
  stmt 113 "plt.xlabel" [] ;;
  stmt 114 "plt.ylabel" [] ;;
  stmt 115 "plt.title" [] ;;
  stmt 116 "plt.tight_layout" [] ;;
  stmt 117 "plt.show" [].

Definition script (p : process) : Script unit :=
  normalization ;; scattering ;; plot.

End cylinder_cross_section.

(* ------------------------------------------------------------------ *)
(** ** The repository *)
(* ------------------------------------------------------------------ *)

(** The eight source files, by path. *)
Definition repository : list (string * (process -> Script unit)) :=
  [ ("Beys_Gallery/pyfin_alt_risk.py", pyfin_alt_risk.script);
    ("ccx_gallery/multihole.py", multihole.script);
    ("maya_gallery/compute_field.py", compute_field_script.script);
    ("meep_gallery/cylinder_cross_section.py", cylinder_cross_section.script);
    ("meep_gallery/polarization_grating.py", polarization_grating_script.script);
    ("meep_gallery/solve-cw.py", solve_cw.script);
    ("qt_gallery/qt_3d_windows.py", qt_3d_windows.script);
    ("sfepy_gallery/diffusion/poisson_periodic_boundary_condition.py",
     poisson_periodic_boundary_condition.script) ].

(** The calls that draw on a figure: matplotlib's [plot], [loglog] and
    [imshow], meep's [plot2D] and pycalculix's [plot_geometry] and
    [plot_elements]. *)
Definition plot_api : list string :=
  [ "plt.plot"; "plt.loglog"; "plt.imshow"; "sim.plot2D";
    "model.plot_geometry"; "model.plot_elements" ].

Definition is_plot (c : call) : bool := contains plot_api (callee c).

(** A plot is rendered by a plotting call that returns. *)
Definition plotted (ev : event) : bool :=
  match ev_result ev with
  | Returned _ => is_plot (ev_call ev)
  | Raises _ => false
  end.

Definition figures_plotted (h : history) : nat := length (List.filter plotted h).

(** A library in which every call returns [None]. *)
Definition quiet : library := fun _ _ => Returned VNone.

(** The scripts that make a plotting call. *)
Definition plotting_scripts : list string :=
  [ "Beys_Gallery/pyfin_alt_risk.py";
    "ccx_gallery/multihole.py";
    "meep_gallery/cylinder_cross_section.py";
    "meep_gallery/polarization_grating.py";
    "meep_gallery/solve-cw.py" ].

(** A process on Linux, started without flags. *)
Definition linux : process := Process "linux" ["script.py"].

(** A process on a platform that lines 23-28 of [pyfin_alt_risk.py] do not
    know. *)
Definition freebsd : process := Process "freebsd13" ["pyfin_alt_risk.py"].



(** A library with asset returns between 1 and 2 percent whose solver
    reports the risk 3. *)
Definition returns_1_to_2 : library :=
  fun _ c =>
    if (callee c =? "Mu.min")%string then Returned (VReal 1)
    else if (callee c =? "Mu.max")%string then Returned (VReal 2)
    else if (callee c =? "Risk_AD.value")%string then Returned (VReal 3)
    else Returned VNone.

(** The module names of the eight source files. *)
Definition script_modules : list string :=
  [ "pyfin_alt_risk"; "multihole"; "compute_field"; "cylinder_cross_section";
    "polarization_grating"; "solve-cw"; "qt_3d_windows";
    "poisson_periodic_boundary_condition" ].

(** The modules of the standard library that start threads, processes or
    coroutines. *)
Definition concurrency_modules : list string :=
  [ "threading"; "_thread"; "multiprocessing"; "concurrent.futures";
    "asyncio"; "subprocess" ].

(** An [import] of one of the modules [mods]. *)
Definition imports_from (mods : list string) (c : call) : bool :=
  (callee c =? "import")%string &&
  match args c with
  | [VStr module] => contains mods module
  | _ => true
  end.

Definition imports_a_script : call -> bool := imports_from script_modules.
Definition imports_concurrency : call -> bool := imports_from concurrency_modules.

(** An [import] of a script of the repository or of a concurrency module. *)
Definition unwanted : call -> bool :=
  imports_from (script_modules ++ concurrency_modules).

(* ================================================================== *)
(** * Part I, continued: more of the sources *)
(* ================================================================== *)

(** Further value views: the matrices of the coil frame and the mirror
    image of a field for [compute_field.py]; the layout of the cell and the
    efficiencies for [polarization_grating.py]; the closed-form weights and
    the risk-parity system of [pyfin_alt_risk.py]; the band and the cell of
    [cylinder_cross_section.py]; the material function of
    [poisson_periodic_boundary_condition.py]; the drawing of [multihole.py].
    For the effect view: predicates that count the calls of a script and
    that order them, and the traces of the frontier loops. *)

(* ------------------------------------------------------------------ *)
(** ** compute_field.py: matrices of the coil frame *)
(* ------------------------------------------------------------------ *)

Module coil_frame.
Import compute_field.

Definition identity3 : mat3 := (V3 1 0 0, V3 0 1 0, V3 0 0 1).

(** The transpose of a matrix given by rows. *)
Definition transpose (M : mat3) : mat3 :=
  let '(r0, r1, r2) := M in
  (V3 (c0 r0) (c0 r1) (c0 r2),
   V3 (c1 r0) (c1 r1) (c1 r2),
   V3 (c2 r0) (c2 r1) (c2 r2)).

(** [np.dot(A, B)] for two matrices: every row of [A] times [B]. *)
Definition mat_mul (A B : mat3) : mat3 :=
  let '(a0, a1, a2) := A in (row_dot a0 B, row_dot a1 B, row_dot a2 B).


(** The mirror image in the plane of the loop of a field given in the coil
    frame: the field is an axial vector, so its components in the plane
    change sign and the component along the axis does not. *)
Definition mirror (b : fvec3) : fvec3 :=
  let '(bx, by_, bz) := b in (fneg bx, fneg by_, bz).

(** Line 138, [B += ...], on one row. *)
Definition fvadd (a b : fvec3) : fvec3 :=
  let '(a0, a1, a2) := a in
  let '(b0, b1, b2) := b in
  (fadd a0 b0, fadd a1 b1, fadd a2 b2).

(** Line 120: the normal of the two coils. *)
Definition n_coils : vec3 := V3 0 0 1.

End coil_frame.

(* ------------------------------------------------------------------ *)
(** ** polarization_grating.py: the layout of [pol_grating] along x *)
(* ------------------------------------------------------------------ *)

Module pol_grating_layout.
Import polarization_grating.

Section layout.

(** The thickness [d] of one chiral layer. *)
Variable d : R.








End layout.


End pol_grating_layout.

(* ------------------------------------------------------------------ *)
(** ** Counting the calls of a script *)
(* ------------------------------------------------------------------ *)

(** The number of events of a history whose call satisfies [P]. *)
Definition count_calls (P : call -> bool) (evs : list event) : nat :=
  length (List.filter (fun ev => P (ev_call ev)) evs).

(** A script all of whose runs to the end make [n] calls that satisfy [P]. *)
Inductive calls_exactly (P : call -> bool) {A : Type} : nat -> Script A -> Prop :=
| calls_exactly_Ret (a : A) : calls_exactly P 0 (Ret a)
| calls_exactly_hit (c : call) (k : value -> Script A) (n : nat) :
    P c = true -> (forall v, calls_exactly P n (k v)) ->
    calls_exactly P (S n) (Ext c k)
| calls_exactly_miss (c : call) (k : value -> Script A) (n : nat) :
    P c = false -> (forall v, calls_exactly P n (k v)) ->
    calls_exactly P n (Ext c k)
| calls_exactly_exit (st : value) (n : nat) : calls_exactly P n (SysExit st).

(* ------------------------------------------------------------------ *)
(** ** pyfin_alt_risk.py: the frontier loops *)
(* ------------------------------------------------------------------ *)

Module pyfin_sweeps.
Import pyfin_alt_risk.

(** A call of the solver, of [plt.show], of [plt.figure]. *)
Definition solves (c : call) : bool := (callee c =? "Opt_Portfolio.solve")%string.
Definition shows (c : call) : bool := (callee c =? "plt.show")%string.
Definition opens_figure (c : call) : bool := (callee c =? "plt.figure")%string.

(** [M[i, j]]. *)
Definition get2 (M : list (list float)) (i j : nat) : option float :=
  match M !! i with
  | Some row => row !! j
  | None => None
  end.

(** The values [vs] stored one after the other from the index [idx] on. *)
Fixpoint stores {St : Type} (store : nat -> float -> St -> St)
    (idx : nat) (vs : list float) (s : St) : St :=
  match vs with
  | [] => s
  | v :: vs => stores store (S idx) vs (store idx v s)
  end.

(** The events of one pass of a frontier loop that starts at the line [l]
    and reads its risk through [risk]: the parameter is set, the solver
    runs, the risk is read. *)
Definition pass (l : nat) (risk : string) (t : float) (a : value * value * value)
  : list event :=
  let '(set, solved, r) := a in
  [ Event (Call l "Target_Return.value" [of_float t]) (Returned set);
    Event (Call (l + 1) "Opt_Portfolio.solve" [VStr "ECOS"]) (Returned solved);
    Event (Call (l + 2) risk []) (Returned r) ].

Fixpoint passes (l : nat) (risk : string) (V_Target : list float)
    (answers : list (value * value * value)) : list event :=
  match V_Target, answers with
  | t :: V_Target, a :: answers => pass l risk t a ++ passes l risk V_Target answers
  | _, _ => []
  end.

(** The risk a pass read. *)
Definition risk_of (a : value * value * value) : float := as_float (snd a).

(** The events of the loops of lines 154-158: for each [Alpha], its two
    stores into [Alpha.value] and then one pass per target. *)
Fixpoint es_blocks (alphas : list R) (V_Target : list float)
    (blocks : list (value * value * list (value * value * value))) : list event :=
  match alphas, blocks with
  | Alpha :: alphas, (first, second, answers) :: blocks =>
      [ Event (Call 154 "Alpha.value" [VReal Alpha]) (Returned first);
        Event (Call 155 "Alpha.value" [VReal Alpha]) (Returned second) ]
      ++ passes 156 "Risk_ES.value" V_Target answers
      ++ es_blocks alphas V_Target blocks
  | _, _ => []
  end.

End pyfin_sweeps.

(* ------------------------------------------------------------------ *)
(** ** pyfin_alt_risk.py: the value view of the weights of lines 187-201 *)
(* ------------------------------------------------------------------ *)

Module risk_parity.

(** [u @ v] for two vectors. *)
Fixpoint dot (u v : list R) : R :=
  match u, v with
  | x :: u, y :: v => x * y + dot u v
  | _, _ => 0
  end.



(** [M[:, j]] and the number of columns of [M]. *)
Definition col (j : nat) (M : list (list R)) : list R :=
  map (fun row => nth j row 0) M.



(** [v / c] for a vector and a scalar, and the sum of an array of floats. *)
Definition vdiv (v : list R) (c : R) : list float :=
  map (fun x => fdiv (Some x) (Some c)) v.


(** Lines 187-188. *)
Definition Mu : list R := [1.0; 3.0; 1.5; 6.0; 4.5].

(** Line 195: [np.ones(Mu.shape)]. *)
Definition iota : list R := replicate (length Mu) 1.0.

(** Line 197: [np.tile(1.0/Mu.shape[0], Mu.shape[0])]. *)
Definition Weight_1N : list R := replicate (length Mu) (1.0 / INR (length Mu)).

Section weights.

(** What [lin.inv(Sigma)] returned at line 196. *)
Variable inv_Sigma : list (list R).



End weights.


(** Line 201: the starting point [np.hstack((Weight_1N, 0.0))]. *)
Definition x0 : list R := Weight_1N ++ [0.0].


End risk_parity.

(* ------------------------------------------------------------------ *)
(** ** The meep scripts: simulations and the verdict of solve-cw.py *)
(* ------------------------------------------------------------------ *)

(** A call of the function [f]. *)
Definition called (f : string) (c : call) : bool := (callee c =? f)%string.

Module solve_cw_verdict.

(** Lines 116-119: the line the script prints for what [np.all] returned. *)
Definition verdict (decreasing : value) : call :=
  if truthy decreasing
  then Call 117 "print"
    [VStr "PASSED solve_cw test: error in the fields is decreasing with increasing resolution"]
  else Call 119 "print"
    [VStr "FAILED solve_cw test: error in the fields is NOT decreasing with increasing resolution"].

End solve_cw_verdict.

(* ------------------------------------------------------------------ *)
(** ** cylinder_cross_section.py: the value view of lines 23-66 *)
(* ------------------------------------------------------------------ *)

Module cylinder_geometry.

Section cylinder.

(** Lines 23-24: the radius and the height of the cylinder, 0.7 and 2.3 in
    the script. *)
Variable r h : R.

Definition wvl_max : R := 2 * PI * r / 2.


Definition dpml : R := 0.5 * wvl_max.




End cylinder.


End cylinder_geometry.

(* ------------------------------------------------------------------ *)
(** ** poisson_periodic_boundary_condition.py: the material function *)
(* ------------------------------------------------------------------ *)

Module poisson_material.

(** Lines 35-39. *)
Definition n_step : nat := 11.
Definition power_per_volume : R := 100.   (* Heating power per volume of the cylinder *)
Definition capacity_cylinder : R := 1.    (* Heat capacity of cylinder *)
Definition conductivity_cylinder : R := 1. (* Heat conductivity of cylinder *)

(** The dict of lines 61-62; an array of the shape [(n, 1, 1)] is the list
    of its [n] entries. *)
Record material : Type := Material {
  power : list R;
  capacity : list R;
  conductivity : list R
}.

(** [nm.empty(shape)] filled by [fill(v)], and [nm.ones(shape) * c]. *)
Definition filled (n : nat) (v : R) : list R := replicate n v.
Definition ones_times (n : nat) (c : R) : list R := map (fun x => x * c) (replicate n 1).

(** [cylinder_material_func(ts, coors, problem, mode)], lines 42-62, for
    the step [ts.step] and the number [coors.shape[0]] of points.  With a
    mode other than ['qp'] the function falls off its end and returns
    [None]. *)
Definition cylinder_material_func (step : Z) (coors_shape_0 : nat)
    (mode : option string) : option material :=
  match mode with
  | Some mode =>
      if (mode =? "qp")%string then
        let power :=
          if (step <? 5)%Z
          (* The power is turned on in the first 5 steps only. *)
          then filled coors_shape_0 power_per_volume
          else filled coors_shape_0 0 in
        let conductivity := ones_times coors_shape_0 conductivity_cylinder in
        let capacity := ones_times coors_shape_0 capacity_cylinder in
        Some (Material power capacity conductivity)
      else None
  | None => None
  end.

(** Whether the cylinder is heated at a step, at a point of it. *)
Definition heated (step : Z) : bool :=
  match cylinder_material_func step 1 (Some "qp") with
  | Some m => match power m with [p] => negb (Reqb p 0) | _ => false end
  | None => false
  end.

(** The steps [0, 1, ..., n - 1] of a run of [n] steps. *)
Definition steps (n : nat) : list Z := map Z.of_nat (seq 0 n).

End poisson_material.

(* ------------------------------------------------------------------ *)
(** ** multihole.py: the value view of the drawing, lines 19-56 *)
(* ------------------------------------------------------------------ *)

Module multihole_drawing.

(** A point by its radial and axial coordinates. *)
Definition point : Type := (R * R)%type.

(** The calls on the part that move its cursor. *)
Inductive pen : Type :=
| goto (x y : R) (holemode : bool)
| draw_line_rad (dx_rad : R)
| draw_line_ax (dy_ax : R).

(** Lines 19-20 and 44-45. *)
Definition width : R := 5.
Definition length_ : R := 8.
Definition hole_width : R := 1.
Definition hole_length : R := 1.

(** Lines 25-29 and 46-56. *)
Definition drawing : list pen :=
  [ goto 0 0 false;
    draw_line_rad length_;
    draw_line_ax width;
    draw_line_rad (- length_);
    draw_line_ax (- width);
    (* Square Holes *)
    goto 1 1 true;
    draw_line_rad hole_length;
    draw_line_ax hole_width;
    draw_line_rad (- hole_length);
    draw_line_ax (- hole_width);
    goto 1.5 3 true;
    draw_line_rad hole_length;
    draw_line_ax hole_width;
    draw_line_rad (- hole_length);
    draw_line_ax (- hole_width) ].

(** A loop of lines: where [goto] started it and the ends of its lines. *)
Record loop : Type := Loop { hole : bool; start : point; path : list point }.

(** The cursor of pycalculix: [goto] moves it and starts a loop,
    [draw_line_rad] and [draw_line_ax] draw a line from it by a relative
    radial or axial distance and leave it at the end of the line.  The
    loops are kept latest first. *)
Definition line_to (p : point) (loops : list loop) : list loop :=
  match loops with
  | l :: loops => Loop (hole l) (start l) (path l ++ [p]) :: loops
  | [] => []
  end.

Definition move (st : point * list loop) (c : pen) : point * list loop :=
  let '((x, y), loops) := st in
  match c with
  | goto x y holemode => ((x, y), Loop holemode (x, y) [] :: loops)
  | draw_line_rad dx_rad => ((x + dx_rad, y), line_to (x + dx_rad, y) loops)
  | draw_line_ax dy_ax => ((x, y + dy_ax), line_to (x, y + dy_ax) loops)
  end.

Definition draw (cs : list pen) : list loop :=
  rev (snd (fold_left move cs ((0, 0), []))).

(** A loop whose last line ends where the loop started. *)
Definition closed (l : loop) : Prop := List.last (path l) (start l) = start l /\ path l <> [].

(** A point inside the rectangle from [(x0, y0)] to [(x1, y1)], the border
    included, and strictly inside it. *)
Definition within (x0 x1 y0 y1 : R) (p : point) : Prop :=
  x0 <= fst p <= x1 /\ y0 <= snd p <= y1.

Definition inside (x0 x1 y0 y1 : R) (p : point) : Prop :=
  x0 < fst p < x1 /\ y0 < snd p < y1.

End multihole_drawing.

(* ------------------------------------------------------------------ *)
(** ** The order of calls *)
(* ------------------------------------------------------------------ *)

(** A script that makes no call that satisfies [P] before it has made a
    call that satisfies [Q]. *)
Inductive preceded_by (Q P : call -> bool) {A : Type} : Script A -> Prop :=
| preceded_by_Ret (a : A) : preceded_by Q P (Ret a)
| preceded_by_guard (c : call) (k : value -> Script A) :
    Q c = true -> P c = false -> preceded_by Q P (Ext c k)
| preceded_by_Ext (c : call) (k : value -> Script A) :
    P c = false -> (forall v, preceded_by Q P (k v)) -> preceded_by Q P (Ext c k)
| preceded_by_exit (st : value) : preceded_by Q P (SysExit st).

(** A history in which every call that satisfies [P] comes after a call
    that satisfies [Q] and returned. *)
Definition ordered (Q P : call -> bool) (evs : list event) : Prop :=
  forall pre ev post,
    evs = pre ++ ev :: post -> P (ev_call ev) = true ->
    Exists (fun e => Q (ev_call e) = true /\ returned e) pre.

Module qt_order.

(** The constructors of widgets and windows that [qt_3d_windows.py] calls;
    [super().__init__] is the one of [QWidget] under [contained3dWindow]. *)
Definition widgets : list string :=
  [ "QtWidgets.QMainWindow"; "QtWidgets.QWidget"; "QtWidgets.QMenuBar";
    "QtWidgets.QMenu"; "QtWidgets.QStatusBar"; "super().__init__";
    "Qt3DWindow"; "QWidget.createWindowContainer" ].

Definition makes_widget (c : call) : bool := contains widgets (callee c).

(** Line 61: the 3D window is added to the layout of the main window. *)
Definition adds_3d_window (c : call) : bool :=
  (line c =? 61)%nat && (callee c =? "self.verticalLayout.addWidget")%string.

End qt_order.

(* ------------------------------------------------------------------ *)
(** ** polarization_grating.py: the efficiencies of lines 149-156 *)
(* ------------------------------------------------------------------ *)

Module grating_efficiency.
Import polarization_grating_script.

(** Lines 35 and 38. *)
Definition delta_n : R := 0.159.
Definition wvl : R := 0.54.             (* center wavelength *)

Section efficiency.

(** One entry of [m0_uniaxial], [m1_uniaxial] and [ang_uniaxial], or of
    their twisted counterparts in lines 175-178. *)
Variable m0 m1 ang : R.


End efficiency.

(** Lines 154-156, at one thickness [d] of [dd]. *)
Definition phase (d : R) : R := delta_n * d / wvl.

End grating_efficiency.
(* ================================================================== *)
(** * Part II: properties *)
(* ================================================================== *)

(** ** Lists *)

Lemma lookup_map {A B : Type} (f : A -> B) (l : list A) (i : nat) :
  map f l !! i = option_map f (l !! i).
Proof.
  revert i. induction l as [|x l IH]; intros [|i]; cbn; auto.
Qed.

(* ------------------------------------------------------------------ *)
(** ** compute_field.py: the base of the coil frame *)
(* ------------------------------------------------------------------ *)

Module compute_field_facts.
Import compute_field.

Lemma square_sum_dot v : square_sum v = dot v v.
Proof. reflexivity. Qed.

Lemma square_sum_pos v : ~ is_zero v -> 0 < square_sum v.
Proof.
  intros Hv. unfold square_sum.
  destruct (Req_dec_T (c0 v) 0) as [H0|H0];
    [destruct (Req_dec_T (c1 v) 0) as [H1|H1];
      [destruct (Req_dec_T (c2 v) 0) as [H2|H2]|]|].
  - exfalso. apply Hv. repeat split; assumption.
  - nra.
  - nra.
  - nra.
Qed.

(** Dividing a vector by its length gives a unit vector. *)
Lemma normalize_unit v :
  0 < square_sum v -> square_sum (vdiv v (sqrt (square_sum v))) = 1.
Proof.
  intros Hpos.
  pose proof (sqrt_lt_R0 _ Hpos) as Hs.
  pose proof (sqrt_sqrt (square_sum v) (Rlt_le _ _ Hpos)) as Hss.
  set (s := sqrt (square_sum v)) in *.
  unfold vdiv, square_sum at 1. cbn [c0 c1 c2].
  replace (c0 v / s * (c0 v / s) + c1 v / s * (c1 v / s) + c2 v / s * (c2 v / s))
    with (square_sum v / (s * s)) by (unfold square_sum; field; lra).
  rewrite Hss. field. lra.
Qed.

Lemma dot_vdiv_r u v s : dot u (vdiv v s) = dot u v / s.
Proof. unfold dot, vdiv; cbn [c0 c1 c2]. unfold Rdiv. ring. Qed.


(** The cross product is orthogonal to both factors, and Lagrange's identity
    gives its length. *)
Lemma dot_cross_l u v : dot u (cross u v) = 0.
Proof. unfold dot, cross; cbn [c0 c1 c2]; ring. Qed.

Lemma dot_cross_r u v : dot v (cross u v) = 0.
Proof. unfold dot, cross; cbn [c0 c1 c2]; ring. Qed.

Lemma lagrange u v :
  dot (cross u v) (cross u v) = dot u u * dot v v - dot u v * dot u v.
Proof. unfold dot, cross; cbn [c0 c1 c2]; ring. Qed.

Lemma perp_orthogonal n : dot n (perp n) = 0.
Proof.
  unfold perp. destruct (Reqb (Rabs (c0 n)) 1); unfold dot; cbn [c0 c1 c2]; ring.
Qed.

Lemma Rabs_1_sqr a : Rabs a = 1 <-> a * a = 1.
Proof.
  unfold Rabs. destruct (Rcase_abs a); split; intros; nra.
Qed.

Lemma perp_nonzero n : square_sum n = 1 -> 0 < square_sum (perp n).
Proof.
  intros Hn. unfold perp, Reqb.
  destruct (Req_dec_T (Rabs (c0 n)) 1) as [H1|H1].
  - apply Rabs_1_sqr in H1. unfold square_sum in *; cbn [c0 c1 c2] in *. nra.
  - assert (c0 n * c0 n <> 1) by (intros H; apply H1, Rabs_1_sqr, H).
    unfold square_sum in *; cbn [c0 c1 c2] in *. nra.
Qed.

Lemma base_vectors_unfold n :
  base_vectors n =
  let n' := vdiv n (sqrt (square_sum n)) in
  let l := vdiv (perp n') (sqrt (square_sum (perp n'))) in
  (n', l, cross n' l).
Proof. reflexivity. Qed.



End compute_field_facts.

(* ------------------------------------------------------------------ *)
(** ** compute_field.py: the guards of [B_field] *)
(* ------------------------------------------------------------------ *)

Module B_field_facts.
Import compute_field.

Section guards.

Variable linalg_inv : mat3 -> mat3.
Variable ellipe ellipk : R -> float.
Variable R_ : R.


Lemma Reqb_false u v : u <> v -> Reqb u v = false.
Proof. intros H. unfold Reqb. destruct (Req_dec_T u v); congruence. Qed.


Lemma rho_zero x y : rho x y = 0 -> x = 0 /\ y = 0.
Proof.
  unfold rho. intros H. apply sqrt_eq_0 in H; nra.
Qed.








End guards.



End B_field_facts.

(* ------------------------------------------------------------------ *)
(** ** polarization_grating.py: the twist angle at the interface *)
(* ------------------------------------------------------------------ *)

Module polarization_grating_facts.
Import polarization_grating.



End polarization_grating_facts.

(* ------------------------------------------------------------------ *)
(** ** Runs of scripts *)
(* ------------------------------------------------------------------ *)

Section run_facts.

Variable lib : library.

Lemma run_bind {A B : Type} (m : Script A) (f : A -> Script B) (h : history) :
  run lib (bind m f) h =
  match run lib m h with
  | (Done a, h1) => run lib (f a) h1
  | (Raised e, h1) => (Raised e, h1)
  | (Exited st, h1) => (Exited st, h1)
  end.
Proof.
  revert h. induction m as [a|c k IH|st]; intros h; cbn.
  - reflexivity.
  - destruct (lib h c); [apply IH | reflexivity].
  - reflexivity.
Qed.

(** A run only appends to the history, and what it appends up to its last
    event are calls that returned. *)
Lemma run_outcome {A : Type} (m : Script A) (h : history) o h' :
  run lib m h = (o, h') ->
  match o with
  | Raised e =>
      exists evs c, h' = (h ++ evs) ++ [Event c (Raises e)] /\
                    Forall returned evs /\ lib (h ++ evs) c = Raises e
  | _ => exists evs, h' = h ++ evs /\ Forall returned evs
  end.
Proof.
  revert h. induction m as [a|c k IH|st]; intros h; cbn.
  - intros [= <- <-]. exists []. rewrite app_nil_r. split; [reflexivity | constructor].
  - destruct (lib h c) as [v|e] eqn:Hc.
    + intros Hrun. specialize (IH v _ Hrun).
      destruct o as [a|e|st].
      * destruct IH as (evs & -> & Hev). exists (Event c (Returned v) :: evs).
        rewrite <- app_assoc. split; [reflexivity | constructor; [exact I | exact Hev]].
      * destruct IH as (evs & c' & -> & Hev & Hc').
        exists (Event c (Returned v) :: evs), c'.
        rewrite <- !app_assoc in *. cbn [app] in *.
        repeat split; [constructor; [exact I | exact Hev] | exact Hc'].
      * destruct IH as (evs & -> & Hev). exists (Event c (Returned v) :: evs).
        rewrite <- app_assoc. split; [reflexivity | constructor; [exact I | exact Hev]].
    + intros [= <- <-]. exists [], c. rewrite app_nil_r.
      repeat split; [constructor | exact Hc].
  - intros [= <- <-]. exists []. rewrite app_nil_r. split; [reflexivity | constructor].
Qed.

Lemma run_extends {A : Type} (m : Script A) (h : history) o h' :
  run lib m h = (o, h') -> exists evs, h' = h ++ evs.
Proof.
  intros Hrun. apply run_outcome in Hrun. destruct o.
  - destruct Hrun as (evs & -> & _). eauto.
  - destruct Hrun as (evs & c & -> & _). rewrite <- app_assoc. eauto.
  - destruct Hrun as (evs & -> & _). eauto.
Qed.




Lemma exit_free_run {A : Type} (m : Script A) (h : history) o h' :
  exit_free m -> run lib m h = (o, h') -> forall st, o <> Exited st.
Proof.
  intros Hm. revert h. induction Hm as [a|c k _ IH]; intros h; cbn.
  - intros [= <- <-] st. discriminate.
  - destruct (lib h c) as [v|e].
    + apply IH.
    + intros [= <- <-] st. discriminate.
Qed.

(** A script that never exits runs to its end when no call raises. *)
Lemma exit_free_completes {A : Type} (m : Script A) (h : history) :
  exit_free m ->
  (forall h c, exists v, lib h c = Returned v) ->
  exists a h', run lib m h = (Done a, h').
Proof.
  intros Hm Hlib. revert h. induction Hm as [a|c k _ IH]; intros h; cbn.
  - eauto.
  - destruct (Hlib h c) as [v ->]. apply IH.
Qed.

Lemma must_call_run (P : call -> bool) {A : Type} (m : Script A) (h : history) a h' :
  must_call P m -> run lib m h = (Done a, h') ->
  exists evs, h' = h ++ evs /\
    Exists (fun ev => P (ev_call ev) = true /\ returned ev) evs.
Proof.
  intros Hm. revert h. induction Hm as [c k Hc|c k _ IH|st]; intros h; cbn.
  - destruct (lib h c) as [v|e]; [|discriminate].
    intros Hrun. destruct (run_extends _ _ _ _ Hrun) as [evs ->].
    exists (Event c (Returned v) :: evs). rewrite <- app_assoc.
    split; [reflexivity|]. constructor. split; [exact Hc | exact I].
  - destruct (lib h c) as [v|e]; [|discriminate].
    intros Hrun. destruct (IH v _ Hrun) as (evs & -> & Hex).
    exists (Event c (Returned v) :: evs). rewrite <- app_assoc.
    split; [reflexivity|]. apply Exists_cons_tl, Hex.
  - discriminate.
Qed.

Lemma never_calls_run (P : call -> bool) {A : Type} (m : Script A) (h : history) o h' :
  never_calls P m -> run lib m h = (o, h') ->
  exists evs, h' = h ++ evs /\ Forall (fun ev => P (ev_call ev) = false) evs.
Proof.
  intros Hm. revert h. induction Hm as [a|c k Hc _ IH|st]; intros h; cbn.
  - intros [= <- <-]. exists []. rewrite app_nil_r. split; [reflexivity | constructor].
  - destruct (lib h c) as [v|e].
    + intros Hrun. destruct (IH v _ Hrun) as (evs & -> & Hev).
      exists (Event c (Returned v) :: evs). rewrite <- app_assoc.
      split; [reflexivity | constructor; assumption].
    + intros [= <- <-]. exists [Event c (Raises e)].
      split; [reflexivity | constructor; [assumption | constructor]].
  - intros [= <- <-]. exists []. rewrite app_nil_r. split; [reflexivity | constructor].
Qed.

End run_facts.

Lemma run_eta {A : Type} (lib : library) (m : Script A) :
  run lib m [] = (outcome_of lib m, trace_of lib m).
Proof. unfold outcome_of, trace_of. destruct (run lib m []); reflexivity. Qed.

(* ------------------------------------------------------------------ *)
(** ** Shapes of scripts under sequencing and loops *)
(* ------------------------------------------------------------------ *)

Section shape_facts.

Context {A B : Type}.

Lemma exit_free_bind (m : Script A) (f : A -> Script B) :
  exit_free m -> (forall a, exit_free (f a)) -> exit_free (bind m f).
Proof.
  intros Hm Hf. induction Hm as [a|c k _ IH]; cbn.
  - apply Hf.
  - constructor. exact IH.
Qed.

Lemma must_call_bind_l (P : call -> bool) (m : Script A) (f : A -> Script B) :
  must_call P m -> must_call P (bind m f).
Proof.
  intros Hm. induction Hm as [c k Hc|c k _ IH|st]; cbn.
  - apply must_call_here, Hc.
  - apply must_call_later, IH.
  - apply must_call_exit.
Qed.

Lemma must_call_bind_r (P : call -> bool) (m : Script A) (f : A -> Script B) :
  (forall a, must_call P (f a)) -> must_call P (bind m f).
Proof.
  intros Hf. induction m as [a|c k IH|st]; cbn.
  - apply Hf.
  - apply must_call_later, IH.
  - apply must_call_exit.
Qed.

Lemma never_calls_bind (P : call -> bool) (m : Script A) (f : A -> Script B) :
  never_calls P m -> (forall a, never_calls P (f a)) -> never_calls P (bind m f).
Proof.
  intros Hm Hf. induction Hm as [a|c k Hc _ IH|st]; cbn.
  - apply Hf.
  - constructor; [exact Hc | exact IH].
  - constructor.
Qed.

End shape_facts.

Lemma exit_free_for_each {A : Type} (xs : list A) (body : A -> Script unit) :
  (forall x, exit_free (body x)) -> exit_free (for_each xs body).
Proof.
  intros Hb. induction xs as [|x xs IH]; cbn.
  - constructor.
  - apply exit_free_bind; [apply Hb | intros _; exact IH].
Qed.

Lemma exit_free_for_enumerate {A St : Type} (xs : list A)
    (body : nat -> A -> St -> Script St) (idx : nat) (s : St) :
  (forall i x s, exit_free (body i x s)) -> exit_free (for_enumerate idx xs body s).
Proof.
  intros Hb. revert idx s. induction xs as [|x xs IH]; intros idx s; cbn.
  - constructor.
  - apply exit_free_bind; [apply Hb | intros s'; apply IH].
Qed.

Lemma never_calls_for_each (P : call -> bool) {A : Type} (xs : list A)
    (body : A -> Script unit) :
  (forall x, never_calls P (body x)) -> never_calls P (for_each xs body).
Proof.
  intros Hb. induction xs as [|x xs IH]; cbn.
  - constructor.
  - apply never_calls_bind; [apply Hb | intros _; exact IH].
Qed.

Lemma never_calls_for_enumerate (P : call -> bool) {A St : Type} (xs : list A)
    (body : nat -> A -> St -> Script St) (idx : nat) (s : St) :
  (forall i x s, never_calls P (body i x s)) ->
  never_calls P (for_enumerate idx xs body s).
Proof.
  intros Hb. revert idx s. induction xs as [|x xs IH]; intros idx s; cbn.
  - constructor.
  - apply never_calls_bind; [apply Hb | intros s'; apply IH].
Qed.

Lemma exit_free_stmt l f a : exit_free (stmt l f a).
Proof. constructor. intros _. constructor. Qed.

Lemma exit_free_call_at l f a : exit_free (call_at l f a).
Proof. constructor. intros v. constructor. Qed.

Lemma never_calls_stmt (P : call -> bool) l f a :
  P (Call l f a) = false -> never_calls P (stmt l f a).
Proof. intros H. constructor; [exact H | intros _; constructor]. Qed.

Lemma never_calls_call_at (P : call -> bool) l f a :
  P (Call l f a) = false -> never_calls P (call_at l f a).
Proof. intros H. constructor; [exact H | intros v; constructor]. Qed.

Lemma must_call_stmt (P : call -> bool) l f a :
  P (Call l f a) = true -> must_call P (stmt l f a).
Proof. apply must_call_here. Qed.

(** Steps over the statements of a script, one rule per statement form. *)
Ltac exit_free_step :=
  lazymatch goal with
  | |- exit_free (bind _ _) => apply exit_free_bind; [|intros]
  | |- exit_free (stmt _ _ _) => apply exit_free_stmt
  | |- exit_free (import _ _) => apply exit_free_stmt
  | |- exit_free (call_at _ _ _) => apply exit_free_call_at
  | |- exit_free (Ret _) => apply exit_free_Ret
  | |- exit_free (for_each _ _) => apply exit_free_for_each; intros
  | |- exit_free (for_enumerate _ _ _ _) => apply exit_free_for_enumerate; intros
  | |- exit_free (if ?b then _ else _) => destruct b
  | |- exit_free (let _ := _ in _) => cbv zeta
  end.

Ltac never_calls_step :=
  lazymatch goal with
  | |- never_calls _ (bind _ _) => apply never_calls_bind; [|intros]
  | |- never_calls _ (stmt _ _ _) => apply never_calls_stmt; reflexivity
  | |- never_calls _ (import _ _) => apply never_calls_stmt; reflexivity
  | |- never_calls _ (call_at _ _ _) => apply never_calls_call_at; reflexivity
  | |- never_calls _ (Ret _) => apply never_calls_Ret
  | |- never_calls _ (SysExit _) => apply never_calls_exit
  | |- never_calls _ (for_each _ _) => apply never_calls_for_each; intros
  | |- never_calls _ (for_enumerate _ _ _ _) =>
      apply never_calls_for_enumerate; intros
  | |- never_calls _ (if ?b then _ else _) => destruct b
  | |- never_calls _ (let _ := _ in _) => cbv zeta
  end.

(** In a sequence: step over the first statement, or find the call in it. *)
Ltac skip := apply must_call_bind_r; intros.
Ltac here :=
  first [ apply must_call_bind_l; apply must_call_stmt; reflexivity
        | apply must_call_stmt; reflexivity ].

(* ------------------------------------------------------------------ *)
(** ** The scripts of the repository *)
(* ------------------------------------------------------------------ *)

Module script_facts.

Lemma pyfin_In_4_exit_free : exit_free pyfin_alt_risk.In_4.
Proof. unfold pyfin_alt_risk.In_4. repeat exit_free_step. Qed.

Lemma pyfin_computation_exit_free : exit_free pyfin_alt_risk.computation.
Proof.
  unfold pyfin_alt_risk.computation, pyfin_alt_risk.In_2, pyfin_alt_risk.In_3,
    pyfin_alt_risk.In_4, pyfin_alt_risk.In_5, pyfin_alt_risk.In_6,
    pyfin_alt_risk.In_7, pyfin_alt_risk.In_8, pyfin_alt_risk.In_9,
    pyfin_alt_risk.In_10, pyfin_alt_risk.In_11, pyfin_alt_risk.In_12.
  repeat exit_free_step.
Qed.

Lemma pyfin_imports_exit_free : exit_free pyfin_alt_risk.imports.
Proof. unfold pyfin_alt_risk.imports. repeat exit_free_step. Qed.

Lemma multihole_exit_free p : exit_free (multihole.script p).
Proof. unfold multihole.script, multihole.body. repeat exit_free_step. Qed.

Lemma compute_field_exit_free p : exit_free (compute_field_script.script p).
Proof.
  unfold compute_field_script.script, compute_field_script.B_field,
    compute_field_script.base_vectors.
  repeat exit_free_step.
Qed.

Lemma cylinder_exit_free p : exit_free (cylinder_cross_section.script p).
Proof.
  unfold cylinder_cross_section.script, cylinder_cross_section.normalization,
    cylinder_cross_section.scattering, cylinder_cross_section.plot.
  repeat exit_free_step.
Qed.

Lemma grating_exit_free p : exit_free (polarization_grating_script.script p).
Proof.
  unfold polarization_grating_script.script, polarization_grating_script.In_1,
    polarization_grating_script.In_2, polarization_grating_script.In_3,
    polarization_grating_script.In_4, polarization_grating_script.pol_grating.
  repeat exit_free_step.
Qed.

Lemma solve_cw_exit_free p : exit_free (solve_cw.script p).
Proof.
  unfold solve_cw.script, solve_cw.geometry_plot, solve_cw.tolerances, solve_cw.convergence,
    solve_cw.cw_fields, solve_cw.pulse_run, solve_cw.dft_fields.
  repeat exit_free_step.
Qed.

Lemma poisson_exit_free p : exit_free (poisson_periodic_boundary_condition.script p).
Proof. unfold poisson_periodic_boundary_condition.script. repeat exit_free_step. Qed.

Lemma qt_setupUi_exit_free : exit_free qt_3d_windows.setupUi.
Proof.
  unfold qt_3d_windows.setupUi, qt_3d_windows.retranslateUi,
    qt_3d_windows.contained3dWindow.
  repeat exit_free_step.
Qed.

Lemma qt_imports_exit_free : exit_free qt_3d_windows.imports.
Proof. unfold qt_3d_windows.imports. repeat exit_free_step. Qed.

End script_facts.

(* ------------------------------------------------------------------ *)
(** ** Which scripts plot *)
(* ------------------------------------------------------------------ *)

Module plot_facts.

Lemma pyfin_must_plot p : must_call is_plot (pyfin_alt_risk.script p).
Proof.
  unfold pyfin_alt_risk.script. skip.
  unfold pyfin_alt_risk.computation. do 3 skip.
  apply must_call_bind_l. unfold pyfin_alt_risk.In_5. skip. here.
Qed.

Lemma multihole_must_plot p : must_call is_plot (multihole.script p).
Proof.
  unfold multihole.script, multihole.body. do 20 skip. here.
Qed.

Lemma cylinder_must_plot p : must_call is_plot (cylinder_cross_section.script p).
Proof.
  unfold cylinder_cross_section.script. do 2 skip.
  unfold cylinder_cross_section.plot. skip. here.
Qed.

Lemma grating_must_plot p : must_call is_plot (polarization_grating_script.script p).
Proof.
  unfold polarization_grating_script.script. do 3 skip.
  unfold polarization_grating_script.In_4. do 2 skip. here.
Qed.

Lemma solve_cw_must_plot p : must_call is_plot (solve_cw.script p).
Proof.
  unfold solve_cw.script. apply must_call_bind_l.
  unfold solve_cw.geometry_plot. do 12 skip. here.
Qed.

Lemma compute_field_never_plots p :
  never_calls is_plot (compute_field_script.script p).
Proof.
  unfold compute_field_script.script, compute_field_script.B_field,
    compute_field_script.base_vectors.
  repeat never_calls_step.
Qed.

Lemma qt_never_plots p : never_calls is_plot (qt_3d_windows.script p).
Proof.
  unfold qt_3d_windows.script, qt_3d_windows.main_window, qt_3d_windows.imports,
    qt_3d_windows.setupUi, qt_3d_windows.retranslateUi,
    qt_3d_windows.contained3dWindow.
  repeat never_calls_step.
Qed.

Lemma poisson_never_plots p :
  never_calls is_plot (poisson_periodic_boundary_condition.script p).
Proof.
  unfold poisson_periodic_boundary_condition.script. repeat never_calls_step.
Qed.

Lemma figures_plotted_pos (h : history) :
  Exists (fun ev => is_plot (ev_call ev) = true /\ returned ev) h ->
  (1 <= figures_plotted h)%nat.
Proof.
  unfold figures_plotted. induction 1 as [ev h [Hp Hr]|ev h _ IH]; cbn.
  - unfold returned in Hr. unfold plotted at 1.
    destruct (ev_result ev); [|contradiction].
    rewrite Hp. cbn. lia.
  - destruct (plotted ev); cbn; lia.
Qed.

Lemma figures_plotted_zero (h : history) :
  Forall (fun ev => is_plot (ev_call ev) = false) h -> figures_plotted h = 0%nat.
Proof.
  unfold figures_plotted. induction 1 as [|ev h Hp _ IH]; cbn.
  - reflexivity.
  - unfold plotted at 1. rewrite Hp. destruct (ev_result ev); exact IH.
Qed.

End plot_facts.

Module C1.
Import plot_facts.

Lemma plots_when_done (lib : library) (m : Script unit) :
  must_call is_plot m -> outcome_of lib m = Done tt ->
  (1 <= figures_plotted (trace_of lib m))%nat.
Proof.
  intros Hm Hdone. pose proof (run_eta lib m) as Hrun. rewrite Hdone in Hrun.
  destruct (must_call_run lib is_plot m [] tt _ Hm Hrun) as (evs & -> & Hex).
  apply figures_plotted_pos. exact Hex.
Qed.

Lemma plots_nothing (lib : library) (m : Script unit) :
  never_calls is_plot m -> figures_plotted (trace_of lib m) = 0%nat.
Proof.
  intros Hm. pose proof (run_eta lib m) as Hrun.
  destruct (never_calls_run lib is_plot m [] _ _ Hm Hrun) as (evs & -> & Hall).
  apply figures_plotted_zero. exact Hall.
Qed.

(** C1, as stated, fails: run to completion with every library call
    returning, [compute_field.py] ends normally, [qt_3d_windows.py] leaves
    through [sys.exit] after the event loop, the sfepy problem description
    ends normally, and none of them has made a plotting call. *)
Lemma some_scripts_plot_nothing :
  (In ("maya_gallery/compute_field.py", compute_field_script.script) repository /\
   outcome_of quiet (compute_field_script.script linux) = Done tt /\
   figures_plotted (trace_of quiet (compute_field_script.script linux)) = 0%nat) /\
  (In ("qt_gallery/qt_3d_windows.py", qt_3d_windows.script) repository /\
   outcome_of quiet (qt_3d_windows.script linux) = Exited VNone /\
   figures_plotted (trace_of quiet (qt_3d_windows.script linux)) = 0%nat) /\
  (In ("sfepy_gallery/diffusion/poisson_periodic_boundary_condition.py",
       poisson_periodic_boundary_condition.script) repository /\
   outcome_of quiet (poisson_periodic_boundary_condition.script linux) = Done tt /\
   figures_plotted
     (trace_of quiet (poisson_periodic_boundary_condition.script linux)) = 0%nat).
Proof.
  split; [|split]; (split; [cbn; tauto | split; vm_compute; reflexivity]).
Qed.

(** C1, amended.  Five of the eight scripts render a plot when they run to
    completion: [pyfin_alt_risk.py], [multihole.py],
    [cylinder_cross_section.py], [polarization_grating.py] and [solve-cw.py]
    each make at least one plotting call that returns.  The other three,
    [compute_field.py], [qt_3d_windows.py] and the sfepy problem description,
    make no plotting call, whatever the libraries do. *)
Theorem plotting_scripts_plot
    (path : string) (s : process -> Script unit) (p : process) (lib : library) :
  In (path, s) repository ->
  (In path plotting_scripts ->
   outcome_of lib (s p) = Done tt ->
   (1 <= figures_plotted (trace_of lib (s p)))%nat) /\
  (~ In path plotting_scripts ->
   figures_plotted (trace_of lib (s p)) = 0%nat).
Proof.
  intros Hin. cbn in Hin.
  destruct Hin as [H|[H|[H|[H|[H|[H|[H|[H|[]]]]]]]]];
    injection H as <- <-; split; intros Hp.
  - apply plots_when_done, pyfin_must_plot.
  - exfalso. apply Hp. cbn. tauto.
  - apply plots_when_done, multihole_must_plot.
  - exfalso. apply Hp. cbn. tauto.
  - exfalso. cbn in Hp. intuition discriminate.
  - apply plots_nothing, compute_field_never_plots.
  - apply plots_when_done, cylinder_must_plot.
  - exfalso. apply Hp. cbn. tauto.
  - apply plots_when_done, grating_must_plot.
  - exfalso. apply Hp. cbn. tauto.
  - apply plots_when_done, solve_cw_must_plot.
  - exfalso. apply Hp. cbn. tauto.
  - exfalso. cbn in Hp. intuition discriminate.
  - apply plots_nothing, qt_never_plots.
  - exfalso. cbn in Hp. intuition discriminate.
  - apply plots_nothing, poisson_never_plots.
Qed.

(** The theorem at [cylinder_cross_section.py], every call returning. *)
Lemma plotting_scripts_plot_witness :
  (1 <= figures_plotted (trace_of quiet (cylinder_cross_section.script linux)))%nat.
Proof.
  refine (proj1 (plotting_scripts_plot "meep_gallery/cylinder_cross_section.py"
                   cylinder_cross_section.script linux quiet _) _ _).
  - cbn. tauto.
  - cbn. tauto.
  - vm_compute. reflexivity.
Defined.

End C1.

(* ------------------------------------------------------------------ *)
(** ** How the scripts of the repository can end *)
(* ------------------------------------------------------------------ *)

Module exit_facts.
Import script_facts pyfin_alt_risk.

Lemma run_bind_exit_free (lib : library) {A B : Type}
    (m : Script A) (f : A -> Script B) h st h' :
  exit_free m ->
  run lib (bind m f) h = (Exited st, h') ->
  exists a h1, run lib m h = (Done a, h1) /\ run lib (f a) h1 = (Exited st, h').
Proof.
  intros Hm. rewrite run_bind.
  destruct (run lib m h) as [[a|e|st'] h1] eqn:Hrun.
  - eauto.
  - discriminate.
  - exfalso. exact (exit_free_run lib m h _ _ Hm Hrun st' eq_refl).
Qed.

(** The three prefixes that lines 23-27 test exclude one another. *)
Lemma darwin_not_win s : startswith s "darwin" = true -> startswith s "win" = false.
Proof.
  unfold startswith. destruct s as [|a s]; cbn [String.prefix]; [discriminate|].
  destruct (ascii_dec "d"%char a) as [<-|]; [intros _ | discriminate].
  destruct (ascii_dec "w"%char "d"%char); [discriminate | reflexivity].
Qed.

Lemma linux_not_win s : startswith s "linux" = true -> startswith s "win" = false.
Proof.
  unfold startswith. destruct s as [|a s]; cbn [String.prefix]; [discriminate|].
  destruct (ascii_dec "l"%char a) as [<-|]; [intros _ | discriminate].
  destruct (ascii_dec "w"%char "l"%char); [discriminate | reflexivity].
Qed.

Lemma linux_not_darwin s : startswith s "linux" = true -> startswith s "darwin" = false.
Proof.
  unfold startswith. destruct s as [|a s]; cbn [String.prefix]; [discriminate|].
  destruct (ascii_dec "l"%char a) as [<-|]; [intros _ | discriminate].
  destruct (ascii_dec "d"%char "l"%char); [discriminate | reflexivity].
Qed.

Lemma FontPath_win p : startswith (platform p) "win" = true -> FontPath p = Ret meiryo.
Proof. intros H. unfold FontPath. rewrite H. reflexivity. Qed.

Lemma FontPath_darwin p :
  startswith (platform p) "darwin" = true -> FontPath p = Ret hiragino.
Proof.
  intros H. unfold FontPath. rewrite (darwin_not_win _ H), H. reflexivity.
Qed.

Lemma FontPath_linux p :
  startswith (platform p) "linux" = true -> FontPath p = Ret takao.
Proof.
  intros H. unfold FontPath.
  rewrite (linux_not_win _ H), (linux_not_darwin _ H), H. reflexivity.
Qed.

Lemma FontPath_unsupported p :
  supported p = false ->
  FontPath p = (stmt 30 "print" [VStr unsupported_os] ;; SysExit VNone).
Proof.
  unfold supported, FontPath. intros H.
  apply orb_false_iff in H as [H Hl]. apply orb_false_iff in H as [Hw Hd].
  rewrite Hw, Hd, Hl. reflexivity.
Qed.

Lemma FontPath_supported p :
  supported p = true -> exists font, FontPath p = Ret font.
Proof.
  unfold supported, FontPath. intros H.
  destruct (startswith (platform p) "win"); [eauto|].
  destruct (startswith (platform p) "darwin"); [eauto|].
  destruct (startswith (platform p) "linux"); [eauto | discriminate].
Qed.

(** On a supported platform the script goes on with the chosen font. *)
Lemma script_supported p font :
  FontPath p = Ret font ->
  script p = (imports ;; stmt 32 "FontProperties" [VStr font] ;; computation).
Proof.
  intros H. unfold script, In_1. rewrite H.
  unfold imports, import, stmt. cbn [bind]. reflexivity.
Qed.

(** On any other platform it is cut short after the message. *)
Lemma script_unsupported p :
  supported p = false ->
  script p = (imports ;; stmt 30 "print" [VStr unsupported_os] ;; SysExit VNone).
Proof.
  intros H. unfold script, In_1. rewrite (FontPath_unsupported p H).
  unfold imports, import, stmt. cbn [bind]. reflexivity.
Qed.

Lemma script_supported_exit_free p : supported p = true -> exit_free (script p).
Proof.
  intros H. destruct (FontPath_supported p H) as [font HF].
  rewrite (script_supported p font HF).
  apply exit_free_bind; [apply pyfin_imports_exit_free | intros _].
  apply exit_free_bind; [apply exit_free_stmt | intros _].
  apply pyfin_computation_exit_free.
Qed.

(** The run of the script on an unsupported platform. *)
Lemma cut_short_before_31 :
  never_calls after_line_30
    (imports ;; stmt 30 "print" [VStr unsupported_os] ;; SysExit (A:=unit) VNone).
Proof. unfold imports. repeat never_calls_step. Qed.

Lemma cut_short_never_returns :
  must_call (fun _ => false)
    (imports ;; stmt 30 "print" [VStr unsupported_os] ;; SysExit (A:=unit) VNone).
Proof. do 2 skip. apply must_call_exit. Qed.

Lemma run_unsupported (lib : library) p o tr :
  supported p = false ->
  run lib (script p) [] = (o, tr) ->
  Forall (fun ev => (line (ev_call ev) <= 30)%nat) tr /\
  (forall st, o = Exited st ->
     st = VNone /\
     exists pre v,
       tr = pre ++ [Event (Call 30 "print" [VStr unsupported_os]) (Returned v)]) /\
  (Forall returned tr -> o = Exited VNone).
Proof.
  intros Hp. rewrite (script_unsupported p Hp). intros Hrun.
  assert (Hexit : forall st, o = Exited st ->
     st = VNone /\
     exists pre v,
       tr = pre ++ [Event (Call 30 "print" [VStr unsupported_os]) (Returned v)]).
  { intros st ->.
    apply run_bind_exit_free in Hrun as (? & h1 & _ & Hrun);
      [|apply pyfin_imports_exit_free].
    cbn in Hrun. destruct (lib h1 _) as [v|e]; [|discriminate].
    injection Hrun as <- <-. split; [reflexivity | eauto]. }
  split; [|split].
  - destruct (never_calls_run lib _ _ _ _ _ cut_short_before_31 Hrun)
      as (evs & -> & Hall).
    cbn. eapply Forall_impl; [exact Hall|]. intros ev Hev.
    unfold after_line_30 in Hev. apply Nat.ltb_ge in Hev. exact Hev.
  - exact Hexit.
  - intros Hall. destruct o as [[]|e|st].
    + destruct (must_call_run lib _ _ _ _ _ cut_short_never_returns Hrun)
        as (evs & _ & Hex).
      apply Exists_exists in Hex as (ev & _ & Hf & _). discriminate.
    + apply run_outcome in Hrun as (evs & c & -> & _).
      apply Forall_app in Hall as [_ Hall].
      inversion Hall as [|? ? Hx _]. contradiction.
    + destruct (Hexit st eq_refl) as [-> _]. reflexivity.
Qed.

(** [sys.exit] ends a run in two places only: after the message of the font
    path selection, and at the last line of [qt_3d_windows.py], which hands
    the status of the event loop to the system. *)
Lemma repository_exits path s p (lib : library) st :
  In (path, s) repository ->
  outcome_of lib (s p) = Exited st ->
  (path = "Beys_Gallery/pyfin_alt_risk.py" /\ supported p = false /\ st = VNone /\
   exists pre v,
     trace_of lib (s p) =
     pre ++ [Event (Call 30 "print" [VStr unsupported_os]) (Returned v)]) \/
  (path = "qt_gallery/qt_3d_windows.py" /\
   exists pre,
     trace_of lib (s p) = pre ++ [Event (Call 78 "app.exec_" []) (Returned st)]).
Proof.
  intros Hin Hex. pose proof (run_eta lib (s p)) as Hrun. rewrite Hex in Hrun.
  generalize dependent (trace_of lib (s p)). intros tr Hrun.
  cbn in Hin.
  destruct Hin as [H|[H|[H|[H|[H|[H|[H|[H|[]]]]]]]]]; injection H as <- <-.
  - left. destruct (supported p) eqn:Hp.
    + exfalso.
      exact (exit_free_run lib _ _ _ _ (script_supported_exit_free p Hp) Hrun st eq_refl).
    + destruct (run_unsupported lib p _ _ Hp Hrun) as (_ & Hst & _).
      destruct (Hst st eq_refl) as (-> & pre & v & Htr).
      split; [reflexivity|]. split; [reflexivity|]. split; [reflexivity|].
      exists pre, v. exact Htr.
  - exfalso. exact (exit_free_run lib _ _ _ _ (multihole_exit_free p) Hrun st eq_refl).
  - exfalso. exact (exit_free_run lib _ _ _ _ (compute_field_exit_free p) Hrun st eq_refl).
  - exfalso. exact (exit_free_run lib _ _ _ _ (cylinder_exit_free p) Hrun st eq_refl).
  - exfalso. exact (exit_free_run lib _ _ _ _ (grating_exit_free p) Hrun st eq_refl).
  - exfalso. exact (exit_free_run lib _ _ _ _ (solve_cw_exit_free p) Hrun st eq_refl).
  - right. split; [reflexivity|].
    unfold qt_3d_windows.script in Hrun.
    apply run_bind_exit_free in Hrun as (? & h1 & _ & Hrun);
      [|apply qt_imports_exit_free].
    apply run_bind_exit_free in Hrun as (? & h2 & _ & Hrun);
      [|apply exit_free_stmt].
    apply run_bind_exit_free in Hrun as (? & h3 & _ & Hrun);
      [|apply exit_free_stmt].
    unfold qt_3d_windows.main_window in Hrun.
    apply run_bind_exit_free in Hrun as (? & h4 & _ & Hrun);
      [|apply exit_free_stmt].
    apply run_bind_exit_free in Hrun as (? & h5 & _ & Hrun);
      [|apply qt_setupUi_exit_free].
    apply run_bind_exit_free in Hrun as (? & h6 & _ & Hrun);
      [|apply exit_free_stmt].
    cbn in Hrun. destruct (lib h6 _) as [v|e]; [|discriminate].
    injection Hrun as <- <-. eauto.
  - exfalso. exact (exit_free_run lib _ _ _ _ (poisson_exit_free p) Hrun st eq_refl).
Qed.

End exit_facts.

(* ------------------------------------------------------------------ *)
(** ** pyfin_alt_risk.py: the font path by platform *)
(* ------------------------------------------------------------------ *)

Module C2.
Import exit_facts pyfin_alt_risk.

(** C2. The font-path selection of the portfolio script assigns the
    hard-coded path of the platform when [sys.platform] starts with [win],
    [darwin] or [linux], and the script goes on; for every other platform
    string it prints a message and leaves through [sys.exit] before any
    computation (every event of the run is at a line up to 30).  No other
    place of the repository ends a run of its own accord on an error: the
    only other [sys.exit] is the last line of [qt_3d_windows.py], which
    passes on the status of the event loop. *)
Theorem font_path_or_exit (p : process) (lib : library) :
  (startswith (platform p) "win" = true -> FontPath p = Ret meiryo) /\
  (startswith (platform p) "darwin" = true -> FontPath p = Ret hiragino) /\
  (startswith (platform p) "linux" = true -> FontPath p = Ret takao) /\
  (supported p = true ->
   exists font,
     FontPath p = Ret font /\
     script p = (imports ;; stmt 32 "FontProperties" [VStr font] ;; computation)) /\
  (supported p = false ->
   FontPath p = (stmt 30 "print" [VStr unsupported_os] ;; SysExit VNone) /\
   script p = (imports ;; stmt 30 "print" [VStr unsupported_os] ;; SysExit VNone) /\
   Forall (fun ev => (line (ev_call ev) <= 30)%nat) (trace_of lib (script p)) /\
   (Forall returned (trace_of lib (script p)) ->
    outcome_of lib (script p) = Exited VNone)) /\
  (forall path s st,
     In (path, s) repository ->
     outcome_of lib (s p) = Exited st ->
     (path = "Beys_Gallery/pyfin_alt_risk.py" /\ supported p = false /\ st = VNone /\
      exists pre v,
        trace_of lib (s p) =
        pre ++ [Event (Call 30 "print" [VStr unsupported_os]) (Returned v)]) \/
     (path = "qt_gallery/qt_3d_windows.py" /\
      exists pre,
        trace_of lib (s p) = pre ++ [Event (Call 78 "app.exec_" []) (Returned st)])).
Proof.
  split; [apply FontPath_win|].
  split; [apply FontPath_darwin|].
  split; [apply FontPath_linux|].
  split; [|split].
  - intros Hp. destruct (FontPath_supported p Hp) as [font HF].
    exists font. split; [exact HF | apply script_supported, HF].
  - intros Hp.
    destruct (run_unsupported lib p _ _ Hp (run_eta lib (script p)))
      as (Hlines & _ & Hexit).
    split; [apply FontPath_unsupported, Hp|].
    split; [apply script_unsupported, Hp|].
    split; [exact Hlines | exact Hexit].
  - intros path s st. apply repository_exits.
Qed.

(** The theorem on FreeBSD, every call returning: the script leaves through
    [sys.exit] right after the message. *)
Lemma font_path_or_exit_witness :
  supported freebsd = false /\
  outcome_of quiet (script freebsd) = Exited VNone.
Proof.
  split; [reflexivity|].
  destruct (font_path_or_exit freebsd quiet) as (_ & _ & _ & _ & H & _).
  destruct (H eq_refl) as (_ & _ & _ & Hexit).
  apply Hexit. vm_compute. repeat constructor.
Defined.

End C2.

(* ------------------------------------------------------------------ *)
(** ** No script catches an exception *)
(* ------------------------------------------------------------------ *)

Module C5.
Import exit_facts.



End C5.

(* ------------------------------------------------------------------ *)
(** ** multihole.py: the command-line flags *)
(* ------------------------------------------------------------------ *)

Module C3.
Import multihole.

Lemma contains_In (l : list string) (x : string) : contains l x = true <-> In x l.
Proof.
  unfold contains. rewrite existsb_exists. split.
  - intros (y & Hy & Heq). apply String.eqb_eq in Heq. subst y. exact Hy.
  - intros H. exists x. split; [exact H | apply String.eqb_refl].
Qed.

Lemma contains_not_In (l : list string) (x : string) :
  contains l x = false <-> ~ In x l.
Proof.
  rewrite <- contains_In. destruct (contains l x); split; congruence.
Qed.

(** C3. For every argument vector, [show_gui] is [False] exactly when
    ['-nogui'] occurs in [sys.argv] and [True] otherwise, and [eshape] is
    ['tri'] exactly when ['-tri'] occurs in [sys.argv] and ['quad']
    otherwise.  The flags stay inside the script: [multihole.py] depends on
    [sys.argv] through the two flags only, the six scripts that never read
    [sys.argv] are the same program for every argument vector, and
    [qt_3d_windows.py] hands all of [sys.argv] to [QApplication] and does
    nothing else with it. *)
Theorem flags_of_argv (argv0 : list string) :
  (show_gui argv0 = false <-> In "-nogui" argv0) /\
  (show_gui argv0 = true <-> ~ In "-nogui" argv0) /\
  (eshape argv0 = "tri" <-> In "-tri" argv0) /\
  (eshape argv0 = "quad" <-> ~ In "-tri" argv0) /\
  (forall p1 p2,
     show_gui (argv p1) = show_gui (argv p2) ->
     eshape (argv p1) = eshape (argv p2) ->
     multihole.script p1 = multihole.script p2) /\
  (forall path s p,
     In (path, s) repository ->
     path <> "ccx_gallery/multihole.py" ->
     path <> "qt_gallery/qt_3d_windows.py" ->
     s (Process (platform p) argv0) = s p) /\
  (exists pre post : Script unit,
     forall p,
       qt_3d_windows.script p =
       (pre ;; stmt 72 "QtWidgets.QApplication" [VStrs (argv p)] ;; post)).
Proof.
  split; [|split; [|split; [|split; [|split; [|split]]]]].
  - unfold show_gui. rewrite <- contains_In.
    destruct (contains argv0 "-nogui"); split; congruence.
  - unfold show_gui. rewrite <- contains_not_In.
    destruct (contains argv0 "-nogui"); split; congruence.
  - unfold eshape. rewrite <- contains_In.
    destruct (contains argv0 "-tri"); split; congruence.
  - unfold eshape. rewrite <- contains_not_In.
    destruct (contains argv0 "-tri"); split; congruence.
  - intros p1 p2 Hg He. unfold multihole.script. rewrite Hg, He. reflexivity.
  - intros path s p Hin Hm Hq. cbn in Hin.
    destruct Hin as [H|[H|[H|[H|[H|[H|[H|[H|[]]]]]]]]]; injection H as <- <-.
    + unfold pyfin_alt_risk.script, pyfin_alt_risk.In_1, pyfin_alt_risk.FontPath.
      cbn [platform]. reflexivity.
    + contradiction.
    + reflexivity.
    + reflexivity.
    + reflexivity.
    + reflexivity.
    + contradiction.
    + reflexivity.
  - exists (qt_3d_windows.imports ;; import 71 "sys"), qt_3d_windows.main_window.
    intros p. unfold qt_3d_windows.script, qt_3d_windows.imports, import, stmt.
    cbn [bind]. reflexivity.
Qed.

(** The theorem at the command line [multihole.py -nogui]. *)
Lemma flags_of_argv_witness :
  show_gui ["multihole.py"; "-nogui"] = false /\
  eshape ["multihole.py"; "-nogui"] = "quad".
Proof.
  destruct (flags_of_argv ["multihole.py"; "-nogui"])
    as (Hgui & _ & _ & Hquad & _).
  split.
  - apply Hgui. right. left. reflexivity.
  - apply Hquad. intros [H|[H|[]]]; discriminate.
Defined.

End C3.

(* ------------------------------------------------------------------ *)
(** ** pyfin_alt_risk.py: the mean-absolute-deviation frontier *)
(* ------------------------------------------------------------------ *)

Module C4.
Import pyfin_alt_risk.

Section sweep.

Variable lib : library.

Lemma run_stmt {A : Type} l f a (k : unit -> Script A) h :
  run lib (bind (stmt l f a) k) h =
  match lib h (Call l f a) with
  | Returned v => run lib (k tt) (h ++ [Event (Call l f a) (Returned v)])
  | Raises e => (Raised e, h ++ [Event (Call l f a) (Raises e)])
  end.
Proof. reflexivity. Qed.

Lemma run_call_at {A : Type} l f a (k : value -> Script A) h :
  run lib (bind (call_at l f a) k) h =
  match lib h (Call l f a) with
  | Returned v => run lib (k v) (h ++ [Event (Call l f a) (Returned v)])
  | Raises e => (Raised e, h ++ [Event (Call l f a) (Raises e)])
  end.
Proof. reflexivity. Qed.

(** The loop of lines 67-69 from index [idx] on: one pass per target, each
    storing the risk it read at its own index. *)
Lemma sweep_run (xs : list float) :
  forall (idx : nat) (VR : list float) (h : history) VR' h',
    (idx + length xs <= length VR)%nat ->
    run lib
      (for_enumerate idx xs (fun idx Target_Return V_Risk =>
         stmt 67 "Target_Return.value" [of_float Target_Return] ;;
         stmt 68 "Opt_Portfolio.solve" [VStr "ECOS"] ;;
         risk <- call_at 69 "Risk_AD.value" [] ;;
         Ret (<[idx := as_float risk]> V_Risk)) VR) h = (Done VR', h') ->
    exists answers : list (value * value * value),
      length answers = length xs /\
      h' = h ++ sweep_events xs answers /\
      VR' = take idx VR ++ map (fun a => as_float (snd a)) answers
                 ++ drop (idx + length xs) VR.
Proof.
  induction xs as [|t xs IH]; intros idx VR h VR' h' Hlen; cbn [for_enumerate].
  - cbn. intros [= <- <-]. exists []. cbn.
    rewrite app_nil_r, Nat.add_0_r, take_drop. repeat split; reflexivity.
  - rewrite run_bind, run_stmt.
    destruct (lib h _) as [v1|]; [|discriminate].
    rewrite run_stmt. destruct (lib _ _) as [v2|]; [|discriminate].
    rewrite run_call_at. destruct (lib _ _) as [v3|]; [|discriminate].
    cbn [run]. intros Hrun. cbn [length] in Hlen.
    apply IH in Hrun as (answers & Hla & -> & ->);
      [|rewrite length_insert; lia].
    exists ((v1, v2, v3) :: answers). cbn [length map snd sweep_events sweep_step].
    split; [congruence|]. split.
    + rewrite <- !app_assoc. reflexivity.
    + rewrite (take_S_r _ idx (as_float v3))
        by (apply list_lookup_insert_eq; lia).
      rewrite take_insert_ge by lia.
      rewrite drop_insert_lt by lia.
      rewrite <- app_assoc. cbn [app].
      replace (S idx + length xs)%nat with (idx + S (length xs))%nat by lia.
      reflexivity.
Qed.

End sweep.

Lemma np_linspace_length (start stop : float) (num : nat) :
  length (np_linspace start stop num) = num.
Proof.
  unfold np_linspace. destruct (1 <? num)%nat.
  - rewrite length_insert, length_map, length_seq. reflexivity.
  - rewrite length_map, length_seq. reflexivity.
Qed.

(** The samples of [np.linspace(a, b, 250)] are evenly spaced from [a] to
    [b]. *)
Lemma np_linspace_250 (a b : R) (idx : nat) :
  (idx < 250)%nat ->
  exists x : R,
    np_linspace (Some a) (Some b) 250 !! idx = Some (Some x) /\
    x = (a + INR idx * (b - a) / 249)%R.
Proof.
  intros Hidx. unfold np_linspace.
  change (1 <? 250)%nat with true. cbv iota.
  change (250 - 1)%nat with 249%nat.
  assert (H249 : INR 249 = 249%R) by (rewrite INR_IZR_INZ; reflexivity).
  destruct (Nat.eq_dec idx 249%nat) as [->|Hne].
  - exists b. split.
    + apply list_lookup_insert_eq. rewrite length_map, length_seq. lia.
    + rewrite H249. field.
  - rewrite list_lookup_insert_ne by congruence.
    rewrite lookup_map, lookup_seq_lt by lia. cbn [option_map Nat.add].
    unfold fadd, fmul, fneg, fop2, fop1, fdiv.
    destruct (Req_dec_T (INR 249) 0) as [H0|_]; [rewrite H249 in H0; lra|].
    eexists. split; [reflexivity|]. rewrite H249. field.
Qed.

Lemma sweep_events_solves (xs : list float) :
  forall answers : list (value * value * value),
    length answers = length xs ->
    length (List.filter is_solve (sweep_events xs answers)) = length xs.
Proof.
  induction xs as [|t xs IH]; intros [|[[v1 v2] v3] answers] Hlen;
    try discriminate; cbn [sweep_events]; [reflexivity|].
  rewrite List.filter_app, length_app, IH by (cbn [length] in Hlen; lia).
  reflexivity.
Qed.

(** C4. The mean-absolute-deviation frontier is a parameter sweep.  When the
    cell of lines 65-69 runs to its end, [V_Target] is
    [np.linspace(Mu.min(), Mu.max(), num=250)]: 250 evenly spaced values
    from [Mu.min()] to [Mu.max()].  The events of the loop are, for each
    index in order, the store of [V_Target[idx]] into [Target_Return.value],
    one call of the solver, and the read of the risk, which is stored in
    [V_Risk[idx]]: 250 solver calls in all, and [V_Risk] has the length of
    [V_Target], with one solver output per target. *)
Theorem frontier_sweep (lib : library) (h h' : history)
    (V_Target V_Risk : list float) :
  run lib In_4 h = (Done (V_Target, V_Risk), h') ->
  exists (lo hi grid zeros : value) (answers : list (value * value * value)),
    lib h (Call 65 "Mu.min" []) = Returned lo /\
    lib (h ++ [Event (Call 65 "Mu.min" []) (Returned lo)]) (Call 65 "Mu.max" [])
      = Returned hi /\
    V_Target = np_linspace (as_float lo) (as_float hi) 250 /\
    length V_Target = 250%nat /\
    (forall a b : R, as_float lo = Some a -> as_float hi = Some b ->
       V_Target !! 0%nat = Some (Some a) /\
       V_Target !! 249%nat = Some (Some b) /\
       forall idx : nat, (idx < 250)%nat ->
         exists x : R, V_Target !! idx = Some (Some x) /\
                       x = (a + INR idx * (b - a) / 249)%R) /\
    length answers = 250%nat /\
    h' = h ++ [ Event (Call 65 "Mu.min" []) (Returned lo);
                Event (Call 65 "Mu.max" []) (Returned hi);
                Event (Call 65 "np.linspace" [lo; hi; VInt 250]) (Returned grid);
                Event (Call 66 "np.zeros" []) (Returned zeros) ]
           ++ sweep_events V_Target answers /\
    length (List.filter is_solve (sweep_events V_Target answers)) = 250%nat /\
    length V_Risk = length V_Target /\
    V_Risk = map (fun a => as_float (snd a)) answers /\
    (forall idx : nat, (idx < 250)%nat ->
       exists (t : float) (a : value * value * value),
         V_Target !! idx = Some t /\ answers !! idx = Some a /\
         V_Risk !! idx = Some (as_float (snd a))).
Proof.
  intros Hrun. unfold In_4 in Hrun. rewrite run_call_at in Hrun.
  destruct (lib h (Call 65 "Mu.min" [])) as [lo|] eqn:Hlo; [|discriminate].
  rewrite run_call_at in Hrun.
  destruct (lib _ (Call 65 "Mu.max" [])) as [hi|] eqn:Hhi; [|discriminate].
  rewrite run_stmt in Hrun.
  destruct (lib _ (Call 65 "np.linspace" _)) as [grid|]; [|discriminate].
  cbv zeta in Hrun. rewrite run_stmt in Hrun.
  destruct (lib _ (Call 66 "np.zeros" _)) as [zeros|]; [|discriminate].
  rewrite run_bind in Hrun.
  set (VT := np_linspace (as_float lo) (as_float hi) 250) in *.
  destruct (run lib (for_enumerate _ _ _ _) _) as [[VR| |] h1] eqn:Hloop;
    [|discriminate..].
  cbn [run] in Hrun. injection Hrun as <- <- <-.
  pose proof (np_linspace_length (as_float lo) (as_float hi) 250) as HlenT.
  fold VT in HlenT.
  apply sweep_run in Hloop as (answers & Hla & -> & ->);
    [|unfold np_zeros; rewrite length_replicate; cbn; lia].
  assert (HVR : take 0 (np_zeros (length VT))
                  ++ map (fun a => as_float (snd a)) answers
                  ++ drop (0 + length VT) (np_zeros (length VT))
                = map (fun a => as_float (snd a)) answers).
  { cbn [take Nat.add app]. rewrite drop_ge, app_nil_r; [reflexivity|].
    unfold np_zeros. rewrite length_replicate. lia. }
  rewrite HVR.
  exists lo, hi, grid, zeros, answers.
  split; [first [exact Hlo | reflexivity]|].
  split; [first [exact Hhi | reflexivity]|].
  split; [reflexivity|]. split; [exact HlenT|]. split; [|split; [|split]].
  - intros a b Ha Hb. subst VT. rewrite Ha, Hb.
    destruct (np_linspace_250 a b 0) as (x0 & H0 & Hx0); [lia|].
    destruct (np_linspace_250 a b 249) as (x1 & H1 & Hx1); [lia|].
    split; [|split].
    + rewrite H0. do 2 f_equal. rewrite Hx0. cbn [INR]. field.
    + rewrite H1. do 2 f_equal. rewrite Hx1.
      replace (INR 249) with 249%R by (rewrite INR_IZR_INZ; reflexivity). field.
    + intros idx Hidx. apply np_linspace_250, Hidx.
  - congruence.
  - rewrite <- !app_assoc. reflexivity.
  - split; [rewrite sweep_events_solves; congruence|].
    split; [rewrite length_map; congruence|].
    split; [reflexivity|].
    intros idx Hidx.
    destruct (lookup_lt_is_Some_2 VT idx) as [t Ht]; [lia|].
    destruct (lookup_lt_is_Some_2 answers idx) as [a Ha]; [lia|].
    exists t, a. split; [exact Ht|]. split; [exact Ha|].
    rewrite lookup_map, Ha. reflexivity.
Qed.

(** The theorem for asset returns between 1 and 2 percent: the cell runs to
    its end and fills the 250 entries of [V_Risk]. *)
Lemma frontier_sweep_witness :
  exists (V_Target V_Risk : list float) (h' : history),
    run returns_1_to_2 In_4 [] = (Done (V_Target, V_Risk), h') /\
    V_Target !! 0%nat = Some (Some 1%R) /\
    V_Target !! 249%nat = Some (Some 2%R) /\
    length V_Risk = 250%nat.
Proof.
  destruct (exit_free_completes returns_1_to_2 In_4 []
              script_facts.pyfin_In_4_exit_free) as ([VT VR] & h' & Hrun).
  { intros h c. unfold returns_1_to_2.
    repeat (destruct (_ =? _)%string; [eexists; reflexivity|]).
    eexists; reflexivity. }
  exists VT, VR, h'. split; [exact Hrun|].
  destruct (frontier_sweep returns_1_to_2 [] h' VT VR Hrun)
    as (lo & hi & grid & zeros & answers & Hlo & Hhi & HVT & HlenT & Hgrid & _ &
        _ & _ & HlenR & _).
  injection Hlo as <-. injection Hhi as <-.
  destruct (Hgrid 1%R 2%R eq_refl eq_refl) as (H0 & H249 & _).
  split; [exact H0|]. split; [exact H249|]. congruence.
Defined.

End C4.

(* ------------------------------------------------------------------ *)
(** ** What the scripts import *)
(* ------------------------------------------------------------------ *)

Module import_facts.

Lemma pyfin_imports p : never_calls unwanted (pyfin_alt_risk.script p).
Proof.
  unfold pyfin_alt_risk.script, pyfin_alt_risk.In_1, pyfin_alt_risk.imports,
    pyfin_alt_risk.FontPath, pyfin_alt_risk.computation,
    pyfin_alt_risk.In_2, pyfin_alt_risk.In_3,
    pyfin_alt_risk.In_4, pyfin_alt_risk.In_5, pyfin_alt_risk.In_6,
    pyfin_alt_risk.In_7, pyfin_alt_risk.In_8, pyfin_alt_risk.In_9,
    pyfin_alt_risk.In_10, pyfin_alt_risk.In_11, pyfin_alt_risk.In_12.
  repeat never_calls_step.
Qed.

Lemma multihole_imports p : never_calls unwanted (multihole.script p).
Proof. unfold multihole.script, multihole.body. repeat never_calls_step. Qed.

Lemma compute_field_imports p :
  never_calls unwanted (compute_field_script.script p).
Proof.
  unfold compute_field_script.script, compute_field_script.B_field,
    compute_field_script.base_vectors.
  repeat never_calls_step.
Qed.

Lemma cylinder_imports p : never_calls unwanted (cylinder_cross_section.script p).
Proof.
  unfold cylinder_cross_section.script, cylinder_cross_section.normalization,
    cylinder_cross_section.scattering, cylinder_cross_section.plot.
  repeat never_calls_step.
Qed.

Lemma grating_imports p :
  never_calls unwanted (polarization_grating_script.script p).
Proof.
  unfold polarization_grating_script.script, polarization_grating_script.In_1,
    polarization_grating_script.In_2, polarization_grating_script.In_3,
    polarization_grating_script.In_4, polarization_grating_script.pol_grating.
  repeat never_calls_step.
Qed.

Lemma solve_cw_imports p : never_calls unwanted (solve_cw.script p).
Proof.
  unfold solve_cw.script, solve_cw.geometry_plot, solve_cw.tolerances,
    solve_cw.convergence, solve_cw.cw_fields, solve_cw.pulse_run,
    solve_cw.dft_fields.
  repeat never_calls_step.
Qed.

Lemma qt_imports p : never_calls unwanted (qt_3d_windows.script p).
Proof.
  unfold qt_3d_windows.script, qt_3d_windows.main_window, qt_3d_windows.imports,
    qt_3d_windows.setupUi, qt_3d_windows.retranslateUi,
    qt_3d_windows.contained3dWindow.
  repeat never_calls_step.
Qed.

Lemma poisson_imports p :
  never_calls unwanted (poisson_periodic_boundary_condition.script p).
Proof.
  unfold poisson_periodic_boundary_condition.script. repeat never_calls_step.
Qed.

Lemma repository_imports
    (path : string) (s : process -> Script unit) (p : process) (lib : library) :
  In (path, s) repository ->
  Forall (fun ev => unwanted (ev_call ev) = false) (trace_of lib (s p)).
Proof.
  intros Hin.
  assert (Hs : never_calls unwanted (s p)).
  { cbn in Hin.
    destruct Hin as [H|[H|[H|[H|[H|[H|[H|[H|[]]]]]]]]]; injection H as <- <-.
    - apply pyfin_imports.
    - apply multihole_imports.
    - apply compute_field_imports.
    - apply cylinder_imports.
    - apply grating_imports.
    - apply solve_cw_imports.
    - apply qt_imports.
    - apply poisson_imports. }
  destruct (never_calls_run lib _ _ _ _ _ Hs (run_eta lib (s p)))
    as (evs & -> & Hall).
  exact Hall.
Qed.

Lemma contains_app (l1 l2 : list string) (x : string) :
  contains (l1 ++ l2) x = contains l1 x || contains l2 x.
Proof. unfold contains. apply existsb_app. Qed.

Lemma unwanted_split (c : call) :
  unwanted c = false ->
  imports_a_script c = false /\ imports_concurrency c = false.
Proof.
  unfold unwanted, imports_a_script, imports_concurrency, imports_from.
  destruct (callee c =? "import")%string; [|split; reflexivity]. cbn [andb].
  destruct (args c) as [|[| | | |module|] [|? ?]]; try discriminate.
  rewrite contains_app. intros H. apply orb_false_iff in H. exact H.
Qed.

(** X1. No script imports a script of the repository: in every run of every
    script, no [import] names the module of one of the eight source files;
    the modules imported are the external libraries and the standard
    library. *)
Theorem no_script_imports_a_script
    (path : string) (s : process -> Script unit) (p : process) (lib : library) :
  In (path, s) repository ->
  Forall (fun ev => imports_a_script (ev_call ev) = false) (trace_of lib (s p)).
Proof.
  intros Hin. eapply Forall_impl; [exact (repository_imports path s p lib Hin)|].
  intros ev Hev. apply unwanted_split, Hev.
Qed.

(** The theorem at [solve-cw.py], every call returning. *)
Lemma no_script_imports_a_script_witness :
  Forall (fun ev => imports_a_script (ev_call ev) = false)
         (trace_of quiet (solve_cw.script linux)).
Proof.
  apply (no_script_imports_a_script "meep_gallery/solve-cw.py" solve_cw.script).
  cbn. tauto.
Defined.



End import_facts.

(* ================================================================== *)
(** * Part II, continued: properties of more of the sources *)
(* ================================================================== *)

(* ------------------------------------------------------------------ *)
(** ** compute_field.py: the coil frame is a rotation *)
(* ------------------------------------------------------------------ *)

Module coil_frame_facts.
Import compute_field compute_field_facts coil_frame.

Lemma vec3_eq (a b : vec3) :
  c0 a = c0 b -> c1 a = c1 b -> c2 a = c2 b -> a = b.
Proof. destruct a, b; cbn. intros -> -> ->. reflexivity. Qed.

(** The facts about the first two vectors of [base_vectors] from which the
    others follow. *)
Lemma base_vectors_frame (n : vec3) :
  ~ is_zero n ->
  exists n' l : vec3,
    base_vectors n = (n', l, cross n' l) /\
    n' = vdiv n (sqrt (square_sum n)) /\
    dot n' n' = 1 /\ dot l l = 1 /\ dot n' l = 0.
Proof.
  intros Hn. rewrite base_vectors_unfold. cbv zeta.
  pose proof (square_sum_pos n Hn) as Hpos.
  pose proof (normalize_unit n Hpos) as Hn'.
  set (n' := vdiv n (sqrt (square_sum n))) in *.
  pose proof (perp_nonzero n' Hn') as Hp.
  pose proof (normalize_unit (perp n') Hp) as Hl.
  set (l := vdiv (perp n') (sqrt (square_sum (perp n')))) in *.
  exists n', l. repeat split.
  - rewrite <- square_sum_dot. exact Hn'.
  - rewrite <- square_sum_dot. exact Hl.
  - unfold l. rewrite dot_vdiv_r, perp_orthogonal. unfold Rdiv. ring.
Qed.







(** The product of the components of a cross product, for all pairs of
    components at once: [(a x b)(a x b)^T] as a matrix. *)
Lemma cross_outer (a b : vec3) (p q : vec3 -> R) (d : R) :
  (p = c0 /\ q = c0 /\ d = 1) \/ (p = c1 /\ q = c1 /\ d = 1) \/
  (p = c2 /\ q = c2 /\ d = 1) \/ (p = c0 /\ q = c1 /\ d = 0) \/
  (p = c0 /\ q = c2 /\ d = 0) \/ (p = c1 /\ q = c2 /\ d = 0) ->
  p (cross a b) * q (cross a b) =
  d * (dot a a * dot b b - dot a b * dot a b)
  - p a * q a * dot b b - p b * q b * dot a a
  + dot a b * (p a * q b + q a * p b).
Proof.
  intros [H|[H|[H|[H|[H|H]]]]]; destruct H as (-> & -> & ->);
    unfold cross, dot; cbn [c0 c1 c2]; ring.
Qed.

(** The rows [(l, m, n')] of [trans] are orthonormal, and so are its
    columns. *)
Lemma trans_rows (n : vec3) :
  ~ is_zero n ->
  exists n' l m : vec3,
    trans n = (l, m, n') /\ m = cross n' l /\
    dot n' n' = 1 /\ dot l l = 1 /\ dot m m = 1 /\
    dot n' l = 0 /\ dot n' m = 0 /\ dot l m = 0.
Proof.
  intros Hn. unfold trans.
  destruct (base_vectors_frame n Hn) as (n' & l & -> & _ & Hnn & Hll & Hnl).
  exists n', l, (cross n' l). repeat split; try assumption.
  - rewrite lagrange, Hnn, Hll, Hnl. ring.
  - apply dot_cross_l.
  - apply dot_cross_r.
Qed.

Lemma trans_columns (n : vec3) (p q : vec3 -> R) (d : R) :
  ~ is_zero n ->
  (p = c0 /\ q = c0 /\ d = 1) \/ (p = c1 /\ q = c1 /\ d = 1) \/
  (p = c2 /\ q = c2 /\ d = 1) \/ (p = c0 /\ q = c1 /\ d = 0) \/
  (p = c0 /\ q = c2 /\ d = 0) \/ (p = c1 /\ q = c2 /\ d = 0) ->
  let '(l, m, n') := trans n in
  p l * q l + p m * q m + p n' * q n' = d.
Proof.
  intros Hn Hpq.
  destruct (trans_rows n Hn) as (n' & l & m & -> & -> & Hnn & Hll & _ & Hnl & _).
  rewrite (cross_outer n' l p q d Hpq), Hnn, Hll, Hnl. ring.
Qed.

(** The transpose of [trans] inverts it on both sides. *)
Lemma transpose_inverts_trans (n : vec3) :
  ~ is_zero n ->
  mat_mul (trans n) (transpose (trans n)) = identity3 /\
  mat_mul (transpose (trans n)) (trans n) = identity3.
Proof.
  intros Hn.
  pose proof (trans_columns n c0 c0 1 Hn) as H00.
  pose proof (trans_columns n c1 c1 1 Hn) as H11.
  pose proof (trans_columns n c2 c2 1 Hn) as H22.
  pose proof (trans_columns n c0 c1 0 Hn) as H01.
  pose proof (trans_columns n c0 c2 0 Hn) as H02.
  pose proof (trans_columns n c1 c2 0 Hn) as H12.
  destruct (trans_rows n Hn)
    as (n' & l & m & Htr & _ & Hnn & Hll & Hmm & Hnl & Hnm & Hlm).
  rewrite Htr in *.
  cbv beta iota in H00, H11, H22, H01, H02, H12.
  specialize (H00 ltac:(left; auto)).
  specialize (H11 ltac:(right; left; auto)).
  specialize (H22 ltac:(do 2 right; left; auto)).
  specialize (H01 ltac:(do 3 right; left; auto)).
  specialize (H02 ltac:(do 4 right; left; auto)).
  specialize (H12 ltac:(do 5 right; auto)).
  unfold dot in Hnn, Hll, Hmm, Hnl, Hnm, Hlm.
  unfold mat_mul, transpose, identity3, row_dot. cbn [c0 c1 c2]. split.
  - f_equal; [f_equal|]; apply vec3_eq; cbn [c0 c1 c2]; lra.
  - f_equal; [f_equal|]; apply vec3_eq; cbn [c0 c1 c2]; lra.
Qed.












End coil_frame_facts.

(* ------------------------------------------------------------------ *)
(** ** compute_field.py: the field that [B_field] returns *)
(* ------------------------------------------------------------------ *)

Module B_field_values.
Import compute_field compute_field_facts B_field_facts coil_frame coil_frame_facts.

Section values.

Variable ellipe ellipk : R -> float.
Variable R_ : R.





End values.





End B_field_values.

(* ------------------------------------------------------------------ *)
(** ** polarization_grating.py: the twist angle over the bilayer *)
(* ------------------------------------------------------------------ *)

Module pol_grating_facts.
Import polarization_grating pol_grating_layout.










End pol_grating_facts.

(* ------------------------------------------------------------------ *)
(** ** Counting calls under sequencing and loops *)
(* ------------------------------------------------------------------ *)

Section count_facts.

Variable P : call -> bool.

Lemma count_calls_app (l1 l2 : list event) :
  count_calls P (l1 ++ l2) = (count_calls P l1 + count_calls P l2)%nat.
Proof. unfold count_calls. rewrite List.filter_app, length_app. reflexivity. Qed.

Lemma calls_exactly_eq {A : Type} (n n' : nat) (m : Script A) :
  calls_exactly P n m -> n = n' -> calls_exactly P n' m.
Proof. intros H <-. exact H. Qed.

Lemma calls_exactly_bind {A B : Type} (m : Script A) (f : A -> Script B) (n k : nat) :
  calls_exactly P n m -> (forall a, calls_exactly P k (f a)) ->
  calls_exactly P (n + k) (bind m f).
Proof.
  intros Hm Hf. induction Hm as [a|c g n Hc _ IH|c g n Hc _ IH|st n]; cbn.
  - apply Hf.
  - apply calls_exactly_hit; assumption.
  - apply calls_exactly_miss; assumption.
  - apply calls_exactly_exit.
Qed.

Lemma calls_exactly_stmt_hit l f a :
  P (Call l f a) = true -> calls_exactly P 1 (stmt l f a).
Proof. intros H. apply calls_exactly_hit; [exact H | intros _; constructor]. Qed.

Lemma calls_exactly_stmt_miss l f a :
  P (Call l f a) = false -> calls_exactly P 0 (stmt l f a).
Proof. intros H. apply calls_exactly_miss; [exact H | intros _; constructor]. Qed.

Lemma calls_exactly_call_hit l f a :
  P (Call l f a) = true -> calls_exactly P 1 (call_at l f a).
Proof. intros H. apply calls_exactly_hit; [exact H | intros v; constructor]. Qed.

Lemma calls_exactly_call_miss l f a :
  P (Call l f a) = false -> calls_exactly P 0 (call_at l f a).
Proof. intros H. apply calls_exactly_miss; [exact H | intros v; constructor]. Qed.

Lemma calls_exactly_for_each {A : Type} (xs : list A) (body : A -> Script unit)
    (len n : nat) :
  length xs = len -> (forall x, calls_exactly P n (body x)) ->
  calls_exactly P (len * n) (for_each xs body).
Proof.
  intros <- Hb. induction xs as [|x xs IH]; cbn [for_each length Nat.mul].
  - constructor.
  - apply calls_exactly_bind; [apply Hb | intros _; exact IH].
Qed.

Lemma calls_exactly_for_enumerate {A St : Type} (xs : list A)
    (body : nat -> A -> St -> Script St) (len n : nat) :
  length xs = len -> (forall i x s, calls_exactly P n (body i x s)) ->
  forall idx s, calls_exactly P (len * n) (for_enumerate idx xs body s).
Proof.
  intros <- Hb. induction xs as [|x xs IH]; intros idx s;
    cbn [for_enumerate length Nat.mul].
  - constructor.
  - apply calls_exactly_bind; [apply Hb | intros s'; apply IH].
Qed.

(** A run to the end of a script that calls [P] exactly [n] times adds [n]
    such events to the history. *)
Lemma calls_exactly_run (lib : library) {A : Type} (m : Script A) (n : nat) :
  calls_exactly P n m ->
  forall h a h', run lib m h = (Done a, h') ->
    exists evs, h' = h ++ evs /\ count_calls P evs = n.
Proof.
  induction 1 as [a0|c k n Hc _ IH|c k n Hc _ IH|st n]; intros h a h'; cbn [run].
  - intros [= <- <-]. exists []. rewrite app_nil_r. split; reflexivity.
  - destruct (lib h c) as [v|e]; [|discriminate].
    intros Hrun. destruct (IH v _ _ _ Hrun) as (evs & -> & Hn).
    exists (Event c (Returned v) :: evs). rewrite <- app_assoc.
    split; [reflexivity|]. unfold count_calls in *. cbn [List.filter ev_call].
    rewrite Hc. cbn [length]. congruence.
  - destruct (lib h c) as [v|e]; [|discriminate].
    intros Hrun. destruct (IH v _ _ _ Hrun) as (evs & -> & Hn).
    exists (Event c (Returned v) :: evs). rewrite <- app_assoc.
    split; [reflexivity|]. unfold count_calls in *. cbn [List.filter ev_call].
    rewrite Hc. exact Hn.
  - discriminate.
Qed.

End count_facts.

Lemma linspace_length (start stop : float) (num : nat) :
  length (np_linspace start stop num) = num.
Proof.
  unfold np_linspace. destruct (1 <? num)%nat.
  - rewrite length_insert, length_map, length_seq. reflexivity.
  - rewrite length_map, length_seq. reflexivity.
Qed.

Ltac calls_step :=
  lazymatch goal with
  | |- calls_exactly _ _ (bind _ _) => eapply calls_exactly_bind; [|intros]
  | |- calls_exactly _ _ (stmt _ _ _) =>
      first [ apply calls_exactly_stmt_miss; reflexivity
            | apply calls_exactly_stmt_hit; reflexivity ]
  | |- calls_exactly _ _ (import _ _) =>
      first [ apply calls_exactly_stmt_miss; reflexivity
            | apply calls_exactly_stmt_hit; reflexivity ]
  | |- calls_exactly _ _ (call_at _ _ _) =>
      first [ apply calls_exactly_call_miss; reflexivity
            | apply calls_exactly_call_hit; reflexivity ]
  | |- calls_exactly _ _ (Ret _) => apply calls_exactly_Ret
  | |- calls_exactly _ _ (SysExit _) => apply calls_exactly_exit
  | |- calls_exactly _ _ (for_each _ _) =>
      eapply calls_exactly_for_each;
        [first [apply linspace_length | reflexivity] | intros]
  | |- calls_exactly _ _ (for_enumerate _ _ _ _) =>
      eapply calls_exactly_for_enumerate;
        [first [apply linspace_length | reflexivity] | intros]
  | |- calls_exactly _ _ (let _ := _ in _) => cbv zeta
  end.

(* ------------------------------------------------------------------ *)
(** ** pyfin_alt_risk.py: how often the script solves and plots *)
(* ------------------------------------------------------------------ *)

Module pyfin_count_facts.
Import pyfin_alt_risk pyfin_sweeps.

Ltac unfold_cells :=
  unfold script, In_1, imports, computation, In_2, In_3, In_4, In_5, In_6, In_7,
    In_8, In_9, In_10, In_11, In_12.

Lemma FontPath_calls (P : call -> bool) (p : process) :
  P (Call 30 "print" [VStr unsupported_os]) = false ->
  calls_exactly P 0 (FontPath p).
Proof.
  intros HP. unfold FontPath.
  destruct (startswith _ "win"); [constructor|].
  destruct (startswith _ "darwin"); [constructor|].
  destruct (startswith _ "linux"); [constructor|].
  apply (calls_exactly_bind P _ _ 0 0);
    [apply calls_exactly_stmt_miss, HP | intros _; apply calls_exactly_exit].
Qed.

Lemma script_solves (p : process) : calls_exactly solves 1500 (script p).
Proof.
  eapply calls_exactly_eq.
  - unfold_cells.
    repeat first [ apply FontPath_calls; reflexivity | calls_step ].
  - reflexivity.
Qed.

Lemma script_shows (p : process) : calls_exactly shows 3 (script p).
Proof.
  eapply calls_exactly_eq.
  - unfold_cells.
    repeat first [ apply FontPath_calls; reflexivity | calls_step ].
  - reflexivity.
Qed.

Lemma script_opens_figures (p : process) : calls_exactly opens_figure 4 (script p).
Proof.
  eapply calls_exactly_eq.
  - unfold_cells.
    repeat first [ apply FontPath_calls; reflexivity | calls_step ].
  - reflexivity.
Qed.

(** X12. A run of [pyfin_alt_risk.py] that reaches the end of the script has
    called the solver exactly 1500 times, 250 times for each of the first
    two frontiers and 4 x 250 times for the expected-shortfall frontier,
    whatever the calls returned; it has opened four figures and called
    [plt.show] three times. *)
Theorem script_call_counts (lib : library) (p : process) (tr : history) :
  run lib (script p) [] = (Done tt, tr) ->
  count_calls solves tr = 1500%nat /\
  count_calls opens_figure tr = 4%nat /\
  count_calls shows tr = 3%nat.
Proof.
  intros Hrun. split; [|split].
  - destruct (calls_exactly_run solves lib _ _ (script_solves p) _ _ _ Hrun)
      as (evs & -> & Hn). exact Hn.
  - destruct (calls_exactly_run opens_figure lib _ _ (script_opens_figures p) _ _ _ Hrun)
      as (evs & -> & Hn). exact Hn.
  - destruct (calls_exactly_run shows lib _ _ (script_shows p) _ _ _ Hrun)
      as (evs & -> & Hn). exact Hn.
Qed.

(** The theorem on Linux, for a library whose calls all return. *)
Lemma script_call_counts_witness :
  exists tr : history,
    run returns_1_to_2 (script linux) [] = (Done tt, tr) /\
    count_calls solves tr = 1500%nat.
Proof.
  destruct (exit_free_completes returns_1_to_2 (script linux) []
              (exit_facts.script_supported_exit_free linux eq_refl))
    as ([] & tr & Hrun).
  { intros h c. unfold returns_1_to_2.
    repeat (destruct (_ =? _)%string; [eexists; reflexivity|]).
    eexists; reflexivity. }
  exists tr. split; [exact Hrun|].
  exact (proj1 (script_call_counts returns_1_to_2 linux tr Hrun)).
Defined.

End pyfin_count_facts.

(* ------------------------------------------------------------------ *)
(** ** pyfin_alt_risk.py: the frontiers of lines 107-111 and 151-158 *)
(* ------------------------------------------------------------------ *)

Module pyfin_sweep_facts.
Import pyfin_alt_risk pyfin_sweeps.

(** *** Stores into a vector and into a column of a matrix *)

Lemma stores_insert (vs : list float) :
  forall (idx : nat) (V : list float),
    (idx + length vs <= length V)%nat ->
    stores (fun i v V => <[i := v]> V) idx vs V
    = take idx V ++ vs ++ drop (idx + length vs) V.
Proof.
  induction vs as [|v vs IH]; intros idx V Hlen; cbn [stores length] in *.
  - rewrite Nat.add_0_r. cbn [app]. rewrite take_drop. reflexivity.
  - rewrite IH by (rewrite length_insert; lia).
    rewrite (take_S_r _ idx v) by (apply list_lookup_insert_eq; lia).
    rewrite take_insert_ge by lia.
    rewrite drop_insert_lt by lia.
    rewrite <- app_assoc. cbn [app].
    replace (S idx + length vs)%nat with (idx + S (length vs))%nat by lia.
    reflexivity.
Qed.

Lemma set2_shape (i j : nat) (v : float) (M : list (list float)) :
  map length (set2 i j v M) = map length M.
Proof.
  unfold set2. destruct (M !! i) as [row|] eqn:Hrow; [|reflexivity].
  apply list_eq. intros k. rewrite !list_lookup_fmap.
  destruct (Nat.eq_dec k i) as [->|Hne].
  - rewrite list_lookup_insert_eq by (apply lookup_lt_is_Some; eauto).
    rewrite Hrow. cbn. rewrite length_insert. reflexivity.
  - rewrite list_lookup_insert_ne by congruence. reflexivity.
Qed.

Lemma get2_set2_eq (i j : nat) (v : float) (M : list (list float)) :
  is_Some (get2 M i j) -> get2 (set2 i j v M) i j = Some v.
Proof.
  unfold get2, set2. destruct (M !! i) as [row|] eqn:Hrow; [|intros [? [=]]].
  intros Hj. rewrite list_lookup_insert_eq by (apply lookup_lt_is_Some; eauto).
  apply list_lookup_insert_eq, lookup_lt_is_Some, Hj.
Qed.

Lemma get2_set2_ne (i j i' j' : nat) (v : float) (M : list (list float)) :
  i' <> i \/ j' <> j -> get2 (set2 i j v M) i' j' = get2 M i' j'.
Proof.
  intros Hne. unfold get2, set2. destruct (M !! i) as [row|] eqn:Hrow; [|reflexivity].
  destruct (Nat.eq_dec i' i) as [->|Hi].
  - rewrite list_lookup_insert_eq by (apply lookup_lt_is_Some; eauto).
    rewrite Hrow. apply list_lookup_insert_ne. destruct Hne; congruence.
  - rewrite list_lookup_insert_ne by congruence. reflexivity.
Qed.

Lemma map_length_replicate (n : nat) (row : list float) :
  map length (replicate n row) = replicate n (length row).
Proof. induction n as [|n IH]; cbn; [reflexivity | rewrite IH; reflexivity]. Qed.

(** An entry of a matrix of [n] rows and [m] columns. *)
Lemma get2_in_shape (M : list (list float)) (n m i j : nat) :
  map length M = replicate n m -> (i < n)%nat -> (j < m)%nat ->
  is_Some (get2 M i j).
Proof.
  intros Hshape Hi Hj. unfold get2.
  assert (Hlen : length M = n).
  { rewrite <- (length_map length), Hshape, length_replicate. reflexivity. }
  destruct (lookup_lt_is_Some_2 M i) as [row Hrow]; [lia|].
  rewrite Hrow. apply lookup_lt_is_Some.
  assert (Hl : map length M !! i = Some (length row)).
  { rewrite list_lookup_fmap, Hrow. reflexivity. }
  rewrite Hshape in Hl. apply lookup_replicate in Hl as [<- _]. exact Hj.
Qed.

Lemma stores_set2_shape (j : nat) (vs : list float) :
  forall (idx : nat) (M : list (list float)),
    map length (stores (fun i v M => set2 i j v M) idx vs M) = map length M.
Proof.
  induction vs as [|v vs IH]; intros idx M; cbn [stores]; [reflexivity|].
  rewrite IH. apply set2_shape.
Qed.

Lemma stores_set2_other (j : nat) (vs : list float) :
  forall (idx : nat) (M : list (list float)) (i c : nat),
    c <> j \/ (i < idx)%nat \/ (idx + length vs <= i)%nat ->
    get2 (stores (fun i v M => set2 i j v M) idx vs M) i c = get2 M i c.
Proof.
  induction vs as [|v vs IH]; intros idx M i c Hout; cbn [stores length] in *;
    [reflexivity|].
  rewrite IH by lia. apply get2_set2_ne. lia.
Qed.

Lemma stores_set2_hit (j n m : nat) (vs : list float) :
  forall (idx : nat) (M : list (list float)) (k : nat) (v : float),
    map length M = replicate n m -> (j < m)%nat ->
    (idx + length vs <= n)%nat ->
    vs !! k = Some v ->
    get2 (stores (fun i v M => set2 i j v M) idx vs M) (idx + k) j = Some v.
Proof.
  induction vs as [|v0 vs IH]; intros idx M k v Hshape Hj Hlen Hk;
    cbn [stores length] in *; [discriminate|].
  destruct k as [|k]; cbn in Hk.
  - injection Hk as ->. rewrite Nat.add_0_r.
    rewrite stores_set2_other by lia.
    apply get2_set2_eq, (get2_in_shape M n m); [exact Hshape | lia | exact Hj].
  - replace (idx + S k)%nat with (S idx + k)%nat by lia.
    apply IH; [rewrite set2_shape; exact Hshape | exact Hj | lia | exact Hk].
Qed.

(** *** The loops *)

Section loops.

Variable lib : library.

Lemma run_stmt_eq {A : Type} l f a (k : unit -> Script A) h :
  run lib (bind (stmt l f a) k) h =
  match lib h (Call l f a) with
  | Returned v => run lib (k tt) (h ++ [Event (Call l f a) (Returned v)])
  | Raises e => (Raised e, h ++ [Event (Call l f a) (Raises e)])
  end.
Proof. reflexivity. Qed.

Lemma run_call_eq {A : Type} l f a (k : value -> Script A) h :
  run lib (bind (call_at l f a) k) h =
  match lib h (Call l f a) with
  | Returned v => run lib (k v) (h ++ [Event (Call l f a) (Returned v)])
  | Raises e => (Raised e, h ++ [Event (Call l f a) (Raises e)])
  end.
Proof. reflexivity. Qed.

(** A frontier loop that starts at the line [l], reads its risk through
    [risk] and stores it with [store]: one pass per target, in order. *)
Lemma frontier_loop_run {St : Type} (l : nat) (risk : string)
    (store : nat -> float -> St -> St) (xs : list float) :
  forall (idx : nat) (s : St) (h : history) s' h',
    run lib
      (for_enumerate idx xs (fun idx Target_Return V_Risk =>
         stmt l "Target_Return.value" [of_float Target_Return] ;;
         stmt (l + 1) "Opt_Portfolio.solve" [VStr "ECOS"] ;;
         r <- call_at (l + 2) risk [] ;;
         Ret (store idx (as_float r) V_Risk)) s) h = (Done s', h') ->
    exists answers : list (value * value * value),
      length answers = length xs /\
      h' = h ++ passes l risk xs answers /\
      s' = stores store idx (map risk_of answers) s.
Proof.
  induction xs as [|t xs IH]; intros idx s h s' h'; cbn [for_enumerate].
  - cbn. intros [= <- <-]. exists []. cbn. rewrite app_nil_r.
    repeat split; reflexivity.
  - rewrite run_bind, run_stmt_eq.
    destruct (lib h _) as [v1|]; [|discriminate].
    rewrite run_stmt_eq. destruct (lib _ _) as [v2|]; [|discriminate].
    rewrite run_call_eq. destruct (lib _ _) as [v3|]; [|discriminate].
    cbn [run]. intros Hrun.
    apply IH in Hrun as (answers & Hla & -> & ->).
    exists ((v1, v2, v3) :: answers). cbn [length map passes pass stores].
    split; [congruence|]. split; [|reflexivity].
    rewrite <- !app_assoc. reflexivity.
Qed.

Lemma passes_solves (l : nat) (risk : string) (xs : list float) :
  (risk =? "Opt_Portfolio.solve")%string = false ->
  forall answers : list (value * value * value),
    length answers = length xs ->
    count_calls solves (passes l risk xs answers) = length xs.
Proof.
  intros Hrisk.
  induction xs as [|t xs IH]; intros [|[[v1 v2] v3] answers] Hlen;
    try discriminate; cbn [passes]; [reflexivity|].
  rewrite count_calls_app, IH by (cbn [length] in Hlen; lia).
  unfold count_calls, pass, solves. cbn [List.filter ev_call callee].
  rewrite Hrisk. reflexivity.
Qed.

(** The loops of lines 154-158 from the column [jdx] on, over a matrix of
    [length xs] rows and [m] columns. *)
Lemma es_loop_run (xs : list float) (m : nat) (al : list R) :
  forall (jdx : nat) (M : list (list float)) (h : history) M' h',
    map length M = replicate (length xs) m ->
    (jdx + length al <= m)%nat ->
    run lib
      (for_enumerate jdx al (fun idx_col Alpha V_Risk =>
         stmt 154 "Alpha.value" [VReal Alpha] ;;
         stmt 155 "Alpha.value" [VReal Alpha] ;;
         for_enumerate 0 xs (fun idx_row Target_Return V_Risk =>
           stmt 156 "Target_Return.value" [of_float Target_Return] ;;
           stmt 157 "Opt_Portfolio.solve" [VStr "ECOS"] ;;
           risk <- call_at 158 "Risk_ES.value" [] ;;
           Ret (set2 idx_row idx_col (as_float risk) V_Risk)) V_Risk) M) h
      = (Done M', h') ->
    exists blocks : list (value * value * list (value * value * value)),
      length blocks = length al /\
      Forall (fun b => length (snd b) = length xs) blocks /\
      h' = h ++ es_blocks al xs blocks /\
      count_calls solves (es_blocks al xs blocks) = (length al * length xs)%nat /\
      map length M' = map length M /\
      (forall c i b a, blocks !! c = Some b -> snd b !! i = Some a ->
         get2 M' i (jdx + c) = Some (risk_of a)) /\
      (forall i c, (c < jdx)%nat \/ (jdx + length al <= c)%nat ->
         get2 M' i c = get2 M i c).
Proof.
  induction al as [|Alpha al IH]; intros jdx M h M' h' Hshape Hm;
    cbn [for_enumerate].
  - cbn. intros [= <- <-]. exists []. cbn. rewrite app_nil_r.
    split; [reflexivity|]. split; [constructor|]. split; [reflexivity|].
    split; [reflexivity|]. split; [reflexivity|].
    split; [intros c i b a Hb; rewrite lookup_nil in Hb; discriminate|].
    reflexivity.
  - cbn [length] in Hm. rewrite run_bind, run_stmt_eq.
    destruct (lib h _) as [v1|]; [|discriminate].
    rewrite run_stmt_eq. destruct (lib _ _) as [v2|]; [|discriminate].
    destruct (run lib (for_enumerate 0 xs _ M) _) as [[M1| |] h1] eqn:Hinner;
      [|discriminate..].
    intros Hrun.
    apply (frontier_loop_run 156 "Risk_ES.value" (fun i v M => set2 i jdx v M))
      in Hinner as (answers & Hla & -> & ->).
    apply IH in Hrun as (blocks & Hlb & Hall & -> & Hcount & Hshape' & Hhit & Hout);
      [|rewrite stores_set2_shape; exact Hshape | lia].
    exists ((v1, v2, answers) :: blocks). cbn [length es_blocks].
    split; [congruence|]. split; [constructor; [exact Hla | exact Hall]|].
    split; [rewrite <- !app_assoc; reflexivity|].
    split; [|split; [|split]].
    + rewrite !count_calls_app, Hcount, passes_solves by (reflexivity || exact Hla).
      unfold count_calls. cbn. lia.
    + rewrite Hshape'. apply stores_set2_shape.
    + intros [|c] i b a Hb Ha.
      * injection Hb as <-. cbn [snd] in Ha. rewrite Nat.add_0_r.
        rewrite Hout by lia.
        apply (stores_set2_hit jdx (length xs) m _ 0 M i);
          [exact Hshape | lia | rewrite length_map; cbn [Nat.add]; lia |].
        unfold risk_of. rewrite list_lookup_fmap, Ha. reflexivity.
      * replace (jdx + S c)%nat with (S jdx + c)%nat by lia.
        apply (Hhit c i b a Hb Ha).
    + intros i c Hc. rewrite Hout by lia. apply stores_set2_other. lia.
Qed.

End loops.

(** X13. The lower-semivariance frontier of lines 107-111.  When the cell
    runs to its end, [V_Target] is
    [np.linspace(Mu.min(), Mu.max(), num=250)], and the loop has made one
    pass per target, in order: the target is stored into
    [Target_Return.value], the solver is called, and the value that
    [np.sqrt(Risk_Semivariance.value)] returned is stored in
    [V_Risk[idx]].  So there are 250 solver calls, [V_Risk] has the 250
    entries that the passes read, and no entry keeps the zero of line
    108. *)
Theorem semivariance_sweep (lib : library) (h h' : history)
    (V_Target V_Risk : list float) :
  run lib In_7 h = (Done (V_Target, V_Risk), h') ->
  exists (lo hi grid zeros : value) (answers : list (value * value * value)),
    V_Target = np_linspace (as_float lo) (as_float hi) 250 /\
    length answers = 250%nat /\
    h' = h ++ [ Event (Call 107 "Mu.min" []) (Returned lo);
                Event (Call 107 "Mu.max" []) (Returned hi);
                Event (Call 107 "np.linspace" [lo; hi; VInt 250]) (Returned grid);
                Event (Call 108 "np.zeros" []) (Returned zeros) ]
           ++ passes 109 "np.sqrt" V_Target answers /\
    count_calls solves (passes 109 "np.sqrt" V_Target answers) = 250%nat /\
    V_Risk = map risk_of answers /\
    (forall idx : nat, (idx < 250)%nat ->
       exists a, answers !! idx = Some a /\ V_Risk !! idx = Some (risk_of a)).
Proof.
  intros Hrun. unfold In_7 in Hrun. rewrite run_call_eq in Hrun.
  destruct (lib h (Call 107 "Mu.min" [])) as [lo|]; [|discriminate].
  rewrite run_call_eq in Hrun.
  destruct (lib _ (Call 107 "Mu.max" [])) as [hi|]; [|discriminate].
  rewrite run_stmt_eq in Hrun.
  destruct (lib _ (Call 107 "np.linspace" _)) as [grid|]; [|discriminate].
  cbv zeta in Hrun. rewrite run_stmt_eq in Hrun.
  destruct (lib _ (Call 108 "np.zeros" _)) as [zeros|]; [|discriminate].
  rewrite run_bind in Hrun.
  set (VT := np_linspace (as_float lo) (as_float hi) 250) in *.
  destruct (run lib (for_enumerate _ _ _ _) _) as [[VR| |] h1] eqn:Hloop;
    [|discriminate..].
  cbn [run] in Hrun. injection Hrun as <- <- <-.
  pose proof (linspace_length (as_float lo) (as_float hi) 250) as HlenT.
  fold VT in HlenT.
  apply (frontier_loop_run lib 109 "np.sqrt" (fun i v V => <[i := v]> V))
    in Hloop as (answers & Hla & -> & ->).
  rewrite stores_insert
    by (unfold np_zeros; rewrite length_replicate, length_map; lia).
  assert (HVR : take 0 (np_zeros (length VT)) ++ map risk_of answers
                  ++ drop (0 + length (map risk_of answers)) (np_zeros (length VT))
                = map risk_of answers).
  { cbn [take Nat.add app]. rewrite drop_ge, app_nil_r; [reflexivity|].
    unfold np_zeros. rewrite length_replicate, length_map. lia. }
  rewrite HVR.
  exists lo, hi, grid, zeros, answers.
  split; [reflexivity|]. split; [congruence|].
  split; [rewrite <- !app_assoc; reflexivity|].
  split; [rewrite passes_solves by (reflexivity || exact Hla); exact HlenT|].
  split; [reflexivity|].
  intros idx Hidx.
  destruct (lookup_lt_is_Some_2 answers idx) as [a Ha]; [lia|].
  exists a. split; [exact Ha|]. rewrite list_lookup_fmap, Ha. reflexivity.
Qed.

(** The theorem for a library whose calls all return: the cell runs to its
    end and fills the 250 entries of [V_Risk]. *)
Lemma semivariance_sweep_witness :
  exists (V_Target V_Risk : list float) (h' : history),
    run returns_1_to_2 In_7 [] = (Done (V_Target, V_Risk), h') /\
    length V_Risk = 250%nat.
Proof.
  assert (Hfree : exit_free In_7) by (unfold In_7; repeat exit_free_step).
  destruct (exit_free_completes returns_1_to_2 In_7 [] Hfree)
    as ([VT VR] & h' & Hrun).
  { intros h c. unfold returns_1_to_2.
    repeat (destruct (_ =? _)%string; [eexists; reflexivity|]).
    eexists; reflexivity. }
  exists VT, VR, h'. split; [exact Hrun|].
  destruct (semivariance_sweep returns_1_to_2 [] h' VT VR Hrun)
    as (lo & hi & grid & zeros & answers & _ & Hla & _ & _ & -> & _).
  rewrite length_map. exact Hla.
Defined.

(** X14. The expected-shortfall frontier of lines 151-158.  When the cell
    runs to its end, the events after the set-up of lines 151-153 are, for
    each of the four levels of [V_Alpha] in order, two stores of the level
    into [Alpha.value] (the loop header of line 154 and the assignment of
    line 155) followed by one pass per target: 4 x 250 = 1000 solver calls.
    [V_Risk] keeps its 250 rows of 4 columns, and [V_Risk[idx_row, idx_col]]
    is the risk read in the pass for the target [idx_row] under the level
    [idx_col]: every entry is overwritten, none is written twice. *)
Theorem shortfall_sweep (lib : library) (h h' : history)
    (V_Target : list float) (V_Risk : list (list float)) :
  run lib In_10 h = (Done (V_Target, V_Risk), h') ->
  exists (arr lo hi grid zeros : value)
         (blocks : list (value * value * list (value * value * value))),
    V_Target = np_linspace (as_float lo) (as_float hi) 250 /\
    length blocks = 4%nat /\
    Forall (fun b => length (snd b) = 250%nat) blocks /\
    h' = h ++ [ Event (Call 151 "np.array" []) (Returned arr);
                Event (Call 152 "Mu.min" []) (Returned lo);
                Event (Call 152 "Mu.max" []) (Returned hi);
                Event (Call 152 "np.linspace" [lo; hi; VInt 250]) (Returned grid);
                Event (Call 153 "np.zeros" []) (Returned zeros) ]
           ++ es_blocks V_Alpha V_Target blocks /\
    count_calls solves (es_blocks V_Alpha V_Target blocks) = 1000%nat /\
    map length V_Risk = replicate 250 4%nat /\
    (forall idx_row idx_col : nat, (idx_row < 250)%nat -> (idx_col < 4)%nat ->
       exists b a, blocks !! idx_col = Some b /\ snd b !! idx_row = Some a /\
                   get2 V_Risk idx_row idx_col = Some (risk_of a)).
Proof.
  intros Hrun. unfold In_10 in Hrun. rewrite run_stmt_eq in Hrun.
  destruct (lib h (Call 151 "np.array" [])) as [arr|]; [|discriminate].
  rewrite run_call_eq in Hrun.
  destruct (lib _ (Call 152 "Mu.min" [])) as [lo|]; [|discriminate].
  rewrite run_call_eq in Hrun.
  destruct (lib _ (Call 152 "Mu.max" [])) as [hi|]; [|discriminate].
  rewrite run_stmt_eq in Hrun.
  destruct (lib _ (Call 152 "np.linspace" _)) as [grid|]; [|discriminate].
  cbv zeta in Hrun. rewrite run_stmt_eq in Hrun.
  destruct (lib _ (Call 153 "np.zeros" _)) as [zeros|]; [|discriminate].
  rewrite run_bind in Hrun.
  set (VT := np_linspace (as_float lo) (as_float hi) 250) in *.
  destruct (run lib (for_enumerate _ _ _ _) _) as [[VR| |] h1] eqn:Hloop;
    [|discriminate..].
  cbn [run] in Hrun. injection Hrun as <- <- <-.
  pose proof (linspace_length (as_float lo) (as_float hi) 250) as HlenT.
  fold VT in HlenT.
  apply (es_loop_run lib VT 4) in Hloop
    as (blocks & Hlb & Hall & -> & Hcount & Hshape & Hhit & _);
    [| rewrite map_length_replicate; unfold np_zeros;
       rewrite length_replicate; reflexivity
     | cbn; lia ].
  exists arr, lo, hi, grid, zeros, blocks.
  split; [reflexivity|]. split; [exact Hlb|].
  split; [rewrite <- HlenT; exact Hall|].
  split; [rewrite <- !app_assoc; reflexivity|].
  split; [rewrite Hcount, HlenT; reflexivity|].
  split.
  { rewrite Hshape, map_length_replicate. unfold np_zeros.
    rewrite length_replicate, HlenT. reflexivity. }
  intros idx_row idx_col Hrow Hcol.
  destruct (lookup_lt_is_Some_2 blocks idx_col) as [b Hb];
    [rewrite Hlb; exact Hcol|].
  assert (Hlen : length (snd b) = length VT).
  { rewrite Forall_forall in Hall. apply Hall.
    apply (list_elem_of_lookup_2 _ idx_col), Hb. }
  destruct (lookup_lt_is_Some_2 (snd b) idx_row) as [a Ha]; [lia|].
  exists b, a. split; [exact Hb|]. split; [exact Ha|].
  exact (Hhit idx_col idx_row b a Hb Ha).
Qed.

(** The theorem for a library whose calls all return: the cell runs to its
    end and fills the 250 x 4 entries of [V_Risk]. *)
Lemma shortfall_sweep_witness :
  exists (V_Target : list float) (V_Risk : list (list float)) (h' : history),
    run returns_1_to_2 In_10 [] = (Done (V_Target, V_Risk), h') /\
    map length V_Risk = replicate 250 4%nat.
Proof.
  assert (Hfree : exit_free In_10) by (unfold In_10; repeat exit_free_step).
  destruct (exit_free_completes returns_1_to_2 In_10 [] Hfree)
    as ([VT VR] & h' & Hrun).
  { intros h c. unfold returns_1_to_2.
    repeat (destruct (_ =? _)%string; [eexists; reflexivity|]).
    eexists; reflexivity. }
  exists VT, VR, h'. split; [exact Hrun|].
  destruct (shortfall_sweep returns_1_to_2 [] h' VT VR Hrun)
    as (arr & lo & hi & grid & zeros & blocks & _ & _ & _ & _ & _ & Hshape & _).
  exact Hshape.
Defined.

End pyfin_sweep_facts.

(* ------------------------------------------------------------------ *)
(** ** pyfin_alt_risk.py: the weights of lines 187-201 *)
(* ------------------------------------------------------------------ *)

Module risk_parity_facts.
Import risk_parity.

Lemma dot_nil_r (u : list R) : dot u [] = 0.
Proof. destruct u; reflexivity. Qed.















End risk_parity_facts.

(* ------------------------------------------------------------------ *)
(** ** compute_field.py: the mirror symmetry of the coil and of the pair *)
(* ------------------------------------------------------------------ *)

Module coil_mirror_facts.
Import compute_field compute_field_facts B_field_facts coil_frame coil_frame_facts.

Lemma fmul_fneg_r (a b : float) : fmul a (fneg b) = fneg (fmul a b).
Proof. destruct a, b; cbn; try reflexivity. f_equal. ring. Qed.

Section coil.

Variable ellipe ellipk : R -> float.
Variable R_ : R.

Lemma Bz_even (x y z : R) :
  Bz ellipe ellipk R_ x y (- z) = Bz ellipe ellipk R_ x y z.
Proof.
  unfold Bz, E, K, modulus, dist. cbv zeta.
  replace ((- z) ^ 2) with (z ^ 2) by ring. reflexivity.
Qed.

Lemma Brho_odd (x y z : R) :
  Brho ellipe ellipk R_ x y (- z) = fneg (Brho ellipe ellipk R_ x y z).
Proof.
  unfold Brho, E, K, modulus, dist. cbv zeta.
  replace ((- z) ^ 2) with (z ^ 2) by ring.
  destruct (Reqb (rho x y) 0); cbn [mask_set]; [cbn; f_equal; ring|].
  destruct (Reqb _ 0); cbn [mask_set]; [cbn; f_equal; ring|].
  match goal with
  | |- fmul (fdiv _ (Some ?D)) ?X = fneg (fmul (fdiv _ (Some ?D)) ?X) =>
      generalize X; generalize D
  end.
  intros D X. unfold fdiv. destruct (Req_dec_T D 0) as [H0|Hne]; [reflexivity|].
  destruct X as [v|]; cbn; [|reflexivity]. f_equal. field. exact Hne.
Qed.

(** The field in the coil frame at the mirror image of a point. *)
Lemma B_coil_mirror (x y z : R) :
  B_coil ellipe ellipk R_ x y (- z) = mirror (B_coil ellipe ellipk R_ x y z).
Proof.
  unfold B_coil, mirror. rewrite Brho_odd, Bz_even, !fmul_fneg_r. reflexivity.
Qed.

End coil.

(** X17. The field of one loop is mirror symmetric in the plane of the
    loop.  At the mirror image [(x, y, -z)] of a point of the coil frame,
    [B_field] computes the same axial component [Bz] and the opposite
    radial component [Brho], so that the field row is the mirror image of
    the row at [(x, y, z)], undefined where that one is.  In particular the
    radial component vanishes in the plane of the loop wherever it is
    defined. *)
Theorem coil_mirror (ellipe ellipk : R -> float) (R_ x y z : R) :
  Bz ellipe ellipk R_ x y (- z) = Bz ellipe ellipk R_ x y z /\
  Brho ellipe ellipk R_ x y (- z) = fneg (Brho ellipe ellipk R_ x y z) /\
  B_coil ellipe ellipk R_ x y (- z) = mirror (B_coil ellipe ellipk R_ x y z) /\
  (forall b : R, Brho ellipe ellipk R_ x y 0 = Some b -> b = 0).
Proof.
  split; [apply Bz_even|]. split; [apply Brho_odd|].
  split; [apply B_coil_mirror|].
  intros b Hb. pose proof (Brho_odd ellipe ellipk R_ x y 0) as H.
  rewrite Ropp_0, Hb in H. cbn in H. injection H as H. lra.
Qed.

(** The trans matrix of the coils of the script, whose normal is the third
    axis: a quarter turn about that axis. *)
Lemma trans_n_coils : trans n_coils = (V3 0 1 0, V3 (-1) 0 0, V3 0 0 1).
Proof.
  unfold trans, n_coils. rewrite base_vectors_unfold. cbv zeta.
  assert (H1 : sqrt (square_sum (V3 0 0 1)) = 1).
  { unfold square_sum. cbn [c0 c1 c2].
    replace (0 * 0 + 0 * 0 + 1 * 1) with 1 by ring. apply sqrt_1. }
  rewrite H1.
  assert (Hn : vdiv (V3 0 0 1) 1 = V3 0 0 1)
    by (apply vec3_eq; unfold vdiv; cbn [c0 c1 c2]; field).
  rewrite Hn. unfold perp. cbn [c0 c1 c2].
  rewrite Reqb_false by (rewrite Rabs_R0; lra).
  assert (H2 : sqrt (square_sum (V3 0 1 (- 0))) = 1).
  { unfold square_sum. cbn [c0 c1 c2].
    replace (0 * 0 + 1 * 1 + - 0 * - 0) with 1 by ring. apply sqrt_1. }
  rewrite H2.
  assert (Hl : vdiv (V3 0 1 (- 0)) 1 = V3 0 1 0)
    by (apply vec3_eq; unfold vdiv; cbn [c0 c1 c2]; field).
  rewrite Hl. do 2 f_equal. apply vec3_eq; unfold cross; cbn [c0 c1 c2]; ring.
Qed.

(** The only left inverse of that matrix is its transpose. *)
Lemma inv_trans_n_coils (X : mat3) :
  mat_mul X (trans n_coils) = identity3 ->
  X = (V3 0 (-1) 0, V3 1 0 0, V3 0 0 1).
Proof.
  rewrite trans_n_coils. destruct X as [[[a0 a1 a2] [b0 b1 b2]] [d0 d1 d2]].
  unfold mat_mul, row_dot, identity3. cbn [c0 c1 c2].
  intros H. injection H as H1 H2 H3 H4 H5 H6 H7 H8 H9.
  f_equal; [f_equal|]; apply vec3_eq; cbn [c0 c1 c2]; lra.
Qed.

Lemma frow_dot_mirror (b : fvec3) :
  frow_dot (mirror b) (trans n_coils) = mirror (frow_dot b (trans n_coils)).
Proof.
  rewrite trans_n_coils. destruct b as [[[bx|] [by_|]] [bz|]];
    unfold mirror, frow_dot; cbn; try reflexivity.
  f_equal; [f_equal|]; f_equal; ring.
Qed.

(** X18. The two coils of the script, with the normal [(0, 0, 1)] and the
    centres [(0, 0, z0)] and [(0, 0, -z0)], are mirror images in the xy
    plane, and so are the fields [B_field] returns for them: when
    [linalg.inv] returns an inverse of [trans], the field of the first coil
    at [(x, y, -z)] is the mirror image of the field of the second coil at
    [(x, y, z)], with the same third component and opposite first two.  So
    where the sum of line 138 is defined on the plane [z = 0] between the
    coils, it points along the axis and is twice the axial field of one
    coil. *)
Theorem helmholtz_mirror
    (linalg_inv : mat3 -> mat3) (ellipe ellipk : R -> float) (R_ z0 x y z : R) :
  mat_mul (linalg_inv (trans n_coils)) (trans n_coils) = identity3 ->
  let B1 := B_field_row linalg_inv ellipe ellipk R_ n_coils (V3 0 0 z0) in
  let B2 := B_field_row linalg_inv ellipe ellipk R_ n_coils (V3 0 0 (- z0)) in
  B1 (V3 x y (- z)) = mirror (B2 (V3 x y z)) /\
  (forall bx by_ bz : R,
     B2 (V3 x y 0) = (Some bx, Some by_, Some bz) ->
     fvadd (B1 (V3 x y 0)) (B2 (V3 x y 0)) = (Some 0, Some 0, Some (2 * bz))).
Proof.
  intros Hinv B1 B2.
  assert (Hmirror : forall z', B1 (V3 x y (- z')) = mirror (B2 (V3 x y z'))).
  { intros z'. unfold B1, B2, B_field_row, coil_frame.
    rewrite (inv_trans_n_coils _ Hinv).
    unfold row_dot, vsub. cbn [c0 c1 c2].
    rewrite <- frow_dot_mirror, <- B_coil_mirror. do 2 f_equal; ring. }
  split; [apply Hmirror|].
  intros bx by_ bz H2. pose proof (Hmirror 0) as H1.
  rewrite Ropp_0, H2 in H1. rewrite H1, H2. cbn.
  f_equal; [f_equal|]; f_equal; ring.
Qed.

(** The theorem with the transpose as the inverse, for the coils of the
    script at the corner [(0.15, 0.15, 0.15)] of the grid. *)
Lemma helmholtz_mirror_witness :
  let ellip := fun _ : R => Some (PI / 2) in
  let z0 := 0.1 in
  let z := 0.15 in
  B_field_row transpose ellip ellip 0.1 n_coils (V3 0 0 z0) (V3 0.15 0.15 (- z))
  = mirror (B_field_row transpose ellip ellip 0.1 n_coils (V3 0 0 (- z0))
              (V3 0.15 0.15 z)).
Proof.
  intros ellip z0 z.
  assert (Hn : ~ is_zero n_coils)
    by (unfold is_zero, n_coils; cbn [c0 c1 c2]; intros (_ & _ & H); lra).
  exact (proj1 (helmholtz_mirror transpose ellip ellip 0.1 z0 0.15 0.15 z
                  (proj2 (transpose_inverts_trans n_coils Hn)))).
Defined.

End coil_mirror_facts.

(* ------------------------------------------------------------------ *)
(** ** polarization_grating.py: the simulations of the sweep *)
(* ------------------------------------------------------------------ *)

Module grating_count_facts.
Import polarization_grating_script.

Ltac unfold_cells :=
  unfold script, In_1, In_2, In_3, In_4, pol_grating.

Lemma grating_runs (p : process) : calls_exactly (called "sim.run") 68 (script p).
Proof.
  eapply calls_exactly_eq; [unfold_cells; repeat calls_step | reflexivity].
Qed.

Lemma grating_simulations (p : process) :
  calls_exactly (called "mp.Simulation") 68 (script p).
Proof.
  eapply calls_exactly_eq; [unfold_cells; repeat calls_step | reflexivity].
Qed.

Lemma grating_resets (p : process) :
  calls_exactly (called "sim.reset_meep") 34 (script p).
Proof.
  eapply calls_exactly_eq; [unfold_cells; repeat calls_step | reflexivity].
Qed.

Lemma grating_prints (p : process) : calls_exactly (called "print") 170 (script p).
Proof.
  eapply calls_exactly_eq; [unfold_cells; repeat calls_step | reflexivity].
Qed.

Lemma grating_shows (p : process) : calls_exactly (called "plt.show") 1 (script p).
Proof.
  eapply calls_exactly_eq; [unfold_cells; repeat calls_step | reflexivity].
Qed.

(** X19. A run of [polarization_grating.py] that reaches the end of the
    script has built and run 68 simulations: for each of the 17
    thicknesses of [dd] and each of the two gratings, one run of the empty
    cell and, after a reset, one run with the grating.  It has printed
    [nmode] = 5 lines per grating and thickness, 170 in all, and shown one
    figure at the very end, whatever the calls returned. *)
Theorem grating_call_counts (lib : library) (p : process) (tr : history) :
  run lib (script p) [] = (Done tt, tr) ->
  count_calls (called "mp.Simulation") tr = 68%nat /\
  count_calls (called "sim.run") tr = 68%nat /\
  count_calls (called "sim.reset_meep") tr = 34%nat /\
  count_calls (called "print") tr = 170%nat /\
  count_calls (called "plt.show") tr = 1%nat.
Proof.
  intros Hrun.
  destruct (calls_exactly_run _ lib _ _ (grating_simulations p) _ _ _ Hrun)
    as (? & -> & H1).
  destruct (calls_exactly_run _ lib _ _ (grating_runs p) _ _ _ Hrun)
    as (? & [= <-] & H2).
  destruct (calls_exactly_run _ lib _ _ (grating_resets p) _ _ _ Hrun)
    as (? & [= <-] & H3).
  destruct (calls_exactly_run _ lib _ _ (grating_prints p) _ _ _ Hrun)
    as (? & [= <-] & H4).
  destruct (calls_exactly_run _ lib _ _ (grating_shows p) _ _ _ Hrun)
    as (? & [= <-] & H5).
  cbn [app]. repeat split; assumption.
Qed.

(** The theorem for a library whose calls all return. *)
Lemma grating_call_counts_witness :
  exists tr : history,
    run returns_1_to_2 (script linux) [] = (Done tt, tr) /\
    count_calls (called "sim.run") tr = 68%nat.
Proof.
  destruct (exit_free_completes returns_1_to_2 (script linux) []
              (script_facts.grating_exit_free linux))
    as ([] & tr & Hrun).
  { intros h c. unfold returns_1_to_2.
    repeat (destruct (_ =? _)%string; [eexists; reflexivity|]).
    eexists; reflexivity. }
  exists tr. split; [exact Hrun|].
  exact (proj1 (proj2 (grating_call_counts returns_1_to_2 linux tr Hrun))).
Defined.

End grating_count_facts.

(* ------------------------------------------------------------------ *)
(** ** solve-cw.py: the tolerance sweep and its verdict *)
(* ------------------------------------------------------------------ *)

Module solve_cw_facts.
Import solve_cw solve_cw_verdict.

Lemma run_bind_done (lib : library) {A B : Type}
    (m : Script A) (f : A -> Script B) h b h' :
  run lib (bind m f) h = (Done b, h') ->
  exists a h1, run lib m h = (Done a, h1) /\ run lib (f a) h1 = (Done b, h').
Proof.
  rewrite run_bind. destruct (run lib m h) as [[a|e|st] h1]; try discriminate.
  eauto.
Qed.

Ltac count_piece piece :=
  eapply calls_exactly_eq; [unfold piece; repeat calls_step | reflexivity].

(** What lines 15-101 call before the fields are shown. *)
Lemma before_fields_counts (lib : library) (h h' : history) :
  run lib (geometry_plot ;; tolerances ;; convergence) h = (Done tt, h') ->
  exists evs, h' = h ++ evs /\
    count_calls (called "sim.solve_cw") evs = 5%nat /\
    count_calls (called "LA.norm") evs = 4%nat /\
    count_calls (called "print") evs = 0%nat.
Proof.
  intros Hrun.
  assert (H1 : calls_exactly (called "sim.solve_cw") 5
                 (geometry_plot ;; tolerances ;; convergence))
    by (eapply calls_exactly_eq;
        [unfold geometry_plot, tolerances, convergence; repeat calls_step
        | reflexivity]).
  assert (H2 : calls_exactly (called "LA.norm") 4
                 (geometry_plot ;; tolerances ;; convergence))
    by (eapply calls_exactly_eq;
        [unfold geometry_plot, tolerances, convergence; repeat calls_step
        | reflexivity]).
  assert (H3 : calls_exactly (called "print") 0
                 (geometry_plot ;; tolerances ;; convergence))
    by (eapply calls_exactly_eq;
        [unfold geometry_plot, tolerances, convergence; repeat calls_step
        | reflexivity]).
  destruct (calls_exactly_run _ lib _ _ H1 _ _ _ Hrun) as (evs & -> & Hn1).
  destruct (calls_exactly_run _ lib _ _ H2 _ _ _ Hrun) as (evs2 & Heq2 & Hn2).
  destruct (calls_exactly_run _ lib _ _ H3 _ _ _ Hrun) as (evs3 & Heq3 & Hn3).
  apply app_inv_head in Heq2, Heq3. subst evs2 evs3.
  exists evs. repeat split; assumption.
Qed.

(** What lines 125-158 call after the verdict. *)
Lemma after_verdict_counts (lib : library) (h h' : history) :
  run lib (pulse_run ;; dft_fields) h = (Done tt, h') ->
  exists evs, h' = h ++ evs /\
    count_calls (called "sim.run") evs = 1%nat /\
    count_calls (called "plt.show") evs = 1%nat /\
    count_calls (called "print") evs = 0%nat.
Proof.
  intros Hrun.
  assert (H1 : calls_exactly (called "sim.run") 1 (pulse_run ;; dft_fields))
    by (eapply calls_exactly_eq;
        [unfold pulse_run, dft_fields; repeat calls_step | reflexivity]).
  assert (H2 : calls_exactly (called "plt.show") 1 (pulse_run ;; dft_fields))
    by (eapply calls_exactly_eq;
        [unfold pulse_run, dft_fields; repeat calls_step | reflexivity]).
  assert (H3 : calls_exactly (called "print") 0 (pulse_run ;; dft_fields))
    by (eapply calls_exactly_eq;
        [unfold pulse_run, dft_fields; repeat calls_step | reflexivity]).
  destruct (calls_exactly_run _ lib _ _ H1 _ _ _ Hrun) as (evs & -> & Hn1).
  destruct (calls_exactly_run _ lib _ _ H2 _ _ _ Hrun) as (evs2 & Heq2 & Hn2).
  destruct (calls_exactly_run _ lib _ _ H3 _ _ _ Hrun) as (evs3 & Heq3 & Hn3).
  apply app_inv_head in Heq2, Heq3. subst evs2 evs3.
  exists evs. repeat split; assumption.
Qed.

Lemma verdict_is_print (decreasing : value) :
  called "print" (verdict decreasing) = true.
Proof. unfold verdict. destruct (truthy decreasing); reflexivity. Qed.

(** The cell of lines 107-119: it shows the fields, asks [np.all] and
    prints the verdict. *)
Lemma cw_fields_run (lib : library) (h h' : history) :
  run lib cw_fields h = (Done tt, h') ->
  exists (evs : list event) (decreasing printed : value),
    h' = h ++ evs ++ [ Event (Call 116 "np.all" []) (Returned decreasing);
                       Event (verdict decreasing) (Returned printed) ] /\
    count_calls (called "sim.solve_cw") evs = 0%nat /\
    count_calls (called "LA.norm") evs = 0%nat /\
    count_calls (called "print") evs = 0%nat.
Proof.
  unfold cw_fields. intros Hrun.
  rewrite pyfin_sweep_facts.run_stmt_eq in Hrun.
  destruct (lib _ _) as [v1|]; [|discriminate Hrun].
  rewrite pyfin_sweep_facts.run_stmt_eq in Hrun.
  destruct (lib _ _) as [v2|]; [|discriminate Hrun].
  rewrite pyfin_sweep_facts.run_stmt_eq in Hrun.
  destruct (lib _ _) as [v3|]; [|discriminate Hrun].
  rewrite pyfin_sweep_facts.run_stmt_eq in Hrun.
  destruct (lib _ _) as [v4|]; [|discriminate Hrun].
  rewrite pyfin_sweep_facts.run_stmt_eq in Hrun.
  destruct (lib _ _) as [v5|]; [|discriminate Hrun].
  rewrite pyfin_sweep_facts.run_stmt_eq in Hrun.
  destruct (lib _ _) as [v6|]; [|discriminate Hrun].
  rewrite pyfin_sweep_facts.run_stmt_eq in Hrun.
  destruct (lib _ _) as [v7|]; [|discriminate Hrun].
  rewrite pyfin_sweep_facts.run_call_eq in Hrun.
  destruct (lib _ (Call 116 "np.all" [])) as [decreasing|]; [|discriminate Hrun].
  exists [ Event (Call 107 "sim.get_array" []) (Returned v1);
           Event (Call 108 "np.real" []) (Returned v2);
           Event (Call 110 "plt.figure" []) (Returned v3);
           Event (Call 111 "plt.imshow" []) (Returned v4);
           Event (Call 112 "plt.imshow" []) (Returned v5);
           Event (Call 113 "plt.axis" []) (Returned v6);
           Event (Call 114 "plt.show" []) (Returned v7) ], decreasing.
  unfold verdict. destruct (truthy decreasing); cbn [run stmt] in Hrun;
    (destruct (lib _ _) as [printed|]; [|discriminate Hrun]);
    injection Hrun as <-; exists printed;
    (split; [rewrite <- !app_assoc; reflexivity|]);
    (split; [reflexivity|]); split; reflexivity.
Qed.

(** X20. A run of [solve-cw.py] that reaches the end of the script has
    called the frequency-domain solver [num_tols] = 5 times and taken four
    error norms before it asks [np.all] whether the errors decrease.  It
    then prints exactly one verdict, the PASSED line when [np.all] returned
    a true value and the FAILED line otherwise, and in both cases goes on:
    a failed test neither raises nor exits, and the time-domain run of line
    145 and the last figure follow it. *)
Theorem verdict_printed (lib : library) (p : process) (tr : history) :
  run lib (script p) [] = (Done tt, tr) ->
  exists (pre post : history) (decreasing printed : value),
    tr = pre ++ [ Event (Call 116 "np.all" []) (Returned decreasing);
                  Event (verdict decreasing) (Returned printed) ] ++ post /\
    count_calls (called "sim.solve_cw") pre = 5%nat /\
    count_calls (called "LA.norm") pre = 4%nat /\
    count_calls (called "print") tr = 1%nat /\
    count_calls (called "sim.run") post = 1%nat /\
    count_calls (called "plt.show") post = 1%nat.
Proof.
  unfold script. intros Hrun.
  apply run_bind_done in Hrun as ([] & h1 & Hgp & Hrun).
  apply run_bind_done in Hrun as ([] & h2 & Htol & Hrun).
  apply run_bind_done in Hrun as ([] & h3 & Hconv & Hrun).
  apply run_bind_done in Hrun as ([] & h4 & Hcw & Hrun).
  assert (Hpre : run lib (geometry_plot ;; tolerances ;; convergence) []
                 = (Done tt, h3))
    by (rewrite run_bind, Hgp, run_bind, Htol; exact Hconv).
  apply before_fields_counts in Hpre as (evs1 & -> & Hs1 & Hn1 & Hp1).
  apply cw_fields_run in Hcw as (evs2 & decreasing & printed & -> & Hs2 & Hn2 & Hp2).
  apply after_verdict_counts in Hrun as (evs3 & -> & Hr3 & Hw3 & Hp3).
  exists (evs1 ++ evs2), evs3, decreasing, printed.
  split; [cbn [app]; rewrite <- !app_assoc; reflexivity|].
  split; [rewrite count_calls_app, Hs1, Hs2; reflexivity|].
  split; [rewrite count_calls_app, Hn1, Hn2; reflexivity|].
  split; [|split; assumption].
  cbn [app]. rewrite !count_calls_app, Hp1, Hp2, Hp3.
  unfold count_calls. cbn [List.filter ev_call].
  rewrite verdict_is_print. reflexivity.
Qed.

(** The theorem for a library all of whose calls return [None]: the script
    runs to its end and prints one verdict. *)
Lemma verdict_printed_witness :
  exists (tr pre post : history) (decreasing printed : value),
    run (fun _ _ => Returned VNone) (script linux) [] = (Done tt, tr) /\
    tr = pre ++ [ Event (Call 116 "np.all" []) (Returned decreasing);
                  Event (verdict decreasing) (Returned printed) ] ++ post /\
    count_calls (called "print") tr = 1%nat.
Proof.
  destruct (exit_free_completes (fun _ _ => Returned VNone) (script linux) []
              (script_facts.solve_cw_exit_free linux))
    as ([] & tr & Hrun).
  { intros h c. eexists; reflexivity. }
  destruct (verdict_printed _ linux tr Hrun)
    as (pre & post & decreasing & printed & Htr & _ & _ & Hprint & _).
  exists tr, pre, post, decreasing, printed.
  split; [exact Hrun|]. split; [exact Htr | exact Hprint].
Defined.

End solve_cw_facts.

(* ------------------------------------------------------------------ *)
(** ** cylinder_cross_section.py: the band of the source and the cell *)
(* ------------------------------------------------------------------ *)

Module cylinder_facts.
Import cylinder_geometry.




End cylinder_facts.

(* ------------------------------------------------------------------ *)
(** ** poisson_periodic_boundary_condition.py: the heating schedule *)
(* ------------------------------------------------------------------ *)

Module poisson_material_facts.
Import poisson_material.

Lemma heated_iff (step : Z) : heated step = true <-> (step < 5)%Z.
Proof.
  unfold heated, cylinder_material_func, filled, power_per_volume.
  cbn [String.eqb Ascii.eqb Bool.eqb]. cbv zeta. cbn [power replicate].
  destruct (Z.ltb_spec step 5) as [Hlt|Hge]; unfold Reqb.
  - destruct (Req_dec_T 100 0) as [H|_]; [lra|]. cbn. tauto.
  - destruct (Req_dec_T 0 0) as [_|H]; [|contradiction]. cbn.
    split; [discriminate | lia].
Qed.

Lemma heated_steps (n : nat) (k : nat) :
  List.filter heated (map Z.of_nat (seq k n))
  = map Z.of_nat (seq k (Nat.min n (5 - k))).
Proof.
  revert k. induction n as [|n IH]; intros k; [reflexivity|].
  cbn [seq map List.filter].
  destruct (heated (Z.of_nat k)) eqn:Hh.
  - apply heated_iff in Hh. rewrite IH.
    replace (Nat.min (S n) (5 - k)) with (S (Nat.min n (5 - S k))) by lia.
    reflexivity.
  - assert (Hk : ~ (Z.of_nat k < 5)%Z)
      by (rewrite <- heated_iff; congruence).
    rewrite IH.
    replace (Nat.min n (5 - S k)) with 0%nat by lia.
    replace (Nat.min (S n) (5 - k)) with 0%nat by lia.
    reflexivity.
Qed.

(** X22. What [cylinder_material_func] returns.  For a mode other than
    ['qp'], the default [None] included, it returns [None].  In the mode
    ['qp'] it returns three arrays with one entry per point of [coors]
    (none for no point): the capacity and the conductivity are 1
    everywhere, and the power is the same at every point, 100 while
    [ts.step < 5] and 0 from the step 5 on.  So over a run of [n] steps the
    cylinder is heated in the first five steps and no other: in 5 of the
    11 steps of the script, and in as many steps for any longer run,
    whatever the step size. *)
Theorem heating_schedule (step : Z) (n_points : nat) (mode : option string) :
  (mode <> Some "qp" -> cylinder_material_func step n_points mode = None) /\
  (exists m : material,
     cylinder_material_func step n_points (Some "qp") = Some m /\
     length (power m) = n_points /\
     length (capacity m) = n_points /\
     length (conductivity m) = n_points /\
     Forall (fun p => p = if (step <? 5)%Z then 100 else 0) (power m) /\
     Forall (fun c => c = 1) (capacity m) /\
     Forall (fun c => c = 1) (conductivity m)) /\
  (forall n : nat,
     length (List.filter heated (steps n)) = Nat.min n 5 /\
     List.filter heated (steps n) = steps (Nat.min n 5)) /\
  length (List.filter heated (steps n_step)) = 5%nat.
Proof.
  split; [|split; [|split]].
  - intros Hmode. unfold cylinder_material_func.
    destruct mode as [mode|]; [|reflexivity].
    destruct (String.eqb_spec mode "qp") as [->|_]; [contradiction | reflexivity].
  - unfold cylinder_material_func. cbn [String.eqb Ascii.eqb Bool.eqb]. cbv zeta.
    eexists. split; [reflexivity|]. cbn [power capacity conductivity].
    unfold filled, ones_times, power_per_volume, capacity_cylinder,
      conductivity_cylinder.
    split; [destruct (step <? 5)%Z; apply length_replicate|].
    split; [rewrite length_map; apply length_replicate|].
    split; [rewrite length_map; apply length_replicate|].
    split; [|split].
    + destruct (step <? 5)%Z; apply Forall_forall; intros p Hp;
        apply elem_of_replicate in Hp as [-> _]; reflexivity.
    + apply Forall_forall. intros c Hc.
      apply list_elem_of_fmap in Hc as (x & -> & Hx).
      apply elem_of_replicate in Hx as [-> _]. lra.
    + apply Forall_forall. intros c Hc.
      apply list_elem_of_fmap in Hc as (x & -> & Hx).
      apply elem_of_replicate in Hx as [-> _]. lra.
  - intros n. unfold steps. rewrite heated_steps, Nat.sub_0_r.
    split; [rewrite length_map, length_seq|]; reflexivity.
  - unfold steps. rewrite heated_steps. reflexivity.
Qed.

(** The theorem at the step 5 of the script, for four points and a mode
    that is not ['qp']. *)
Lemma heating_schedule_witness :
  cylinder_material_func 5 4 (Some "el_avg") = None.
Proof.
  apply (heating_schedule 5 4 (Some "el_avg")). discriminate.
Defined.

End poisson_material_facts.

(* ------------------------------------------------------------------ *)
(** ** multihole.py: the plate and its holes *)
(* ------------------------------------------------------------------ *)

Module multihole_drawing_facts.
Import multihole_drawing.

(** Four lines that go out and back by the same distances close a loop,
    wherever it starts. *)
Lemma rectangle_closes (x y a b : R) (holemode : bool) :
  exists l : loop,
    draw [goto x y holemode; draw_line_rad a; draw_line_ax b;
          draw_line_rad (- a); draw_line_ax (- b)] = [l] /\
    hole l = holemode /\ start l = (x, y) /\ closed l /\
    Forall (within (Rmin x (x + a)) (Rmax x (x + a))
                   (Rmin y (y + b)) (Rmax y (y + b))) (path l).
Proof.
  eexists. split; [reflexivity|]. cbn [hole start path app].
  split; [reflexivity|]. split; [reflexivity|]. split.
  - unfold closed. cbn [path start List.last]. split; [|discriminate].
    apply injective_projections; cbn [fst snd]; ring.
  - unfold within, Rmin, Rmax. cbn [path].
    do 4 (constructor;
          [cbn [fst snd]; destruct (Rle_dec x (x + a));
           destruct (Rle_dec y (y + b)); split; lra|]).
    constructor.
Qed.

(** X23. The drawing of [multihole.py].  The cursor calls of lines 25-56
    draw three loops of four lines each, and each loop is closed: its last
    line ends where [goto] started it.  The first loop is the plate, the
    rectangle of 8 by 5 from the origin; the other two are holes, squares of
    side 1 that lie strictly inside the plate and apart from each other, the
    first below the axial coordinate 2 and the second above 3. *)
Theorem drawing_loops :
  exists plate hole1 hole2 : loop,
    draw drawing = [plate; hole1; hole2] /\
    (hole plate = false /\ hole hole1 = true /\ hole hole2 = true) /\
    (closed plate /\ closed hole1 /\ closed hole2) /\
    (length (path plate) = 4%nat /\ length (path hole1) = 4%nat /\
     length (path hole2) = 4%nat) /\
    Forall (within 0 length_ 0 width) (path plate) /\
    Forall (inside 0 length_ 0 width) (path hole1) /\
    Forall (inside 0 length_ 0 width) (path hole2) /\
    Forall (fun p => snd p <= 2) (path hole1) /\
    Forall (fun p => 3 <= snd p) (path hole2).
Proof.
  do 3 eexists. split; [reflexivity|]. cbn [hole start path app].
  unfold closed, within, inside, length_, width, hole_length, hole_width.
  cbn [hole start path app List.last length].
  split; [repeat split|].
  split; [repeat split; try discriminate;
          apply injective_projections; cbn [fst snd]; lra|].
  split; [repeat split|].
  split; [do 4 (constructor; [cbn [fst snd]; split; lra|]); constructor|].
  split; [do 4 (constructor; [cbn [fst snd]; split; lra|]); constructor|].
  split; [do 4 (constructor; [cbn [fst snd]; split; lra|]); constructor|].
  split; do 4 (constructor; [cbn [fst snd]; lra|]); constructor.
Qed.

End multihole_drawing_facts.

(* ------------------------------------------------------------------ *)
(** ** The order of calls in a run *)
(* ------------------------------------------------------------------ *)

Section order_facts.

Variables Q P : call -> bool.

Lemma ordered_nil : ordered Q P [].
Proof. intros [|? pre] ev post Heq; discriminate. Qed.

Lemma ordered_last (c : call) (res : result) :
  P c = false -> ordered Q P [Event c res].
Proof.
  intros Hc [|? [|? pre]] ev post Heq HP; try discriminate.
  injection Heq as <- _. cbn in HP. congruence.
Qed.

Lemma ordered_guard (c : call) (v : value) (evs : list event) :
  Q c = true -> P c = false -> ordered Q P (Event c (Returned v) :: evs).
Proof.
  intros HQ HP [|e pre] ev post Heq Hev.
  - injection Heq as <- _. cbn in Hev. congruence.
  - injection Heq as <- _. apply Exists_cons_hd. split; [exact HQ | exact I].
Qed.

Lemma ordered_cons (c : call) (res : result) (evs : list event) :
  P c = false -> ordered Q P evs -> ordered Q P (Event c res :: evs).
Proof.
  intros HP Hord [|e pre] ev post Heq Hev.
  - injection Heq as <- _. cbn in Hev. congruence.
  - injection Heq as <- Heq. apply Exists_cons_tl, (Hord pre ev post Heq Hev).
Qed.

(** In every run of a script that keeps the order, complete or not, the
    events are in that order. *)
Lemma preceded_by_run (lib : library) {A : Type} (m : Script A) :
  preceded_by Q P m ->
  forall h o h', run lib m h = (o, h') ->
    exists evs, h' = h ++ evs /\ ordered Q P evs.
Proof.
  induction 1 as [a|c k HQ HP|c k HP _ IH|st]; intros h o h'; cbn [run].
  - intros [= <- <-]. exists []. rewrite app_nil_r. split; [reflexivity|].
    apply ordered_nil.
  - destruct (lib h c) as [v|e].
    + intros Hrun. destruct (run_extends lib _ _ _ _ Hrun) as [evs ->].
      exists (Event c (Returned v) :: evs). rewrite <- app_assoc.
      split; [reflexivity|]. apply ordered_guard; assumption.
    + intros [= <- <-]. exists [Event c (Raises e)].
      split; [reflexivity|]. apply ordered_last, HP.
  - destruct (lib h c) as [v|e].
    + intros Hrun. destruct (IH v _ _ _ Hrun) as (evs & -> & Hord).
      exists (Event c (Returned v) :: evs). rewrite <- app_assoc.
      split; [reflexivity|]. apply ordered_cons; assumption.
    + intros [= <- <-]. exists [Event c (Raises e)].
      split; [reflexivity|]. apply ordered_last, HP.
  - intros [= <- <-]. exists []. rewrite app_nil_r. split; [reflexivity|].
    apply ordered_nil.
Qed.

End order_facts.

Ltac order_step :=
  first [ apply preceded_by_guard; reflexivity
        | apply preceded_by_Ext; [reflexivity | intros]
        | apply preceded_by_Ret
        | apply preceded_by_exit ].

(* ------------------------------------------------------------------ *)
(** ** qt_3d_windows.py: the application comes first *)
(* ------------------------------------------------------------------ *)

Module qt_order_facts.
Import qt_3d_windows qt_order.

Ltac normal_form :=
  unfold script, imports, main_window, setupUi, retranslateUi,
    contained3dWindow, import, stmt, call_at;
  cbn [bind].

Lemma application_first (p : process) :
  preceded_by (called "QtWidgets.QApplication") makes_widget (script p).
Proof. normal_form. repeat order_step. Qed.

Lemma window_before_show (p : process) :
  preceded_by adds_3d_window (called "MainWindow.show") (script p).
Proof. normal_form. repeat order_step. Qed.

Lemma show_before_exec (p : process) :
  preceded_by (called "MainWindow.show") (called "app.exec_") (script p).
Proof. normal_form. repeat order_step. Qed.

(** X24. The order of the calls of [qt_3d_windows.py], in every run,
    whether it ends in [sys.exit] or in an exception.  No widget or window
    is constructed before [QtWidgets.QApplication] has returned;
    [MainWindow.show] is not called before the 3D window has been built and
    added to the layout at line 61, the statement below the one that the
    source marks as the source of the problem; and the event loop
    [app.exec_] is not entered before [MainWindow.show] has returned. *)
Theorem application_before_widgets (lib : library) (p : process) :
  ordered (called "QtWidgets.QApplication") makes_widget (trace_of lib (script p)) /\
  ordered adds_3d_window (called "MainWindow.show") (trace_of lib (script p)) /\
  ordered (called "MainWindow.show") (called "app.exec_") (trace_of lib (script p)).
Proof.
  pose proof (run_eta lib (script p)) as Hrun.
  split; [|split].
  - destruct (preceded_by_run _ _ lib _ (application_first p) _ _ _ Hrun)
      as (evs & -> & Hord). exact Hord.
  - destruct (preceded_by_run _ _ lib _ (window_before_show p) _ _ _ Hrun)
      as (evs & -> & Hord). exact Hord.
  - destruct (preceded_by_run _ _ lib _ (show_before_exec p) _ _ _ Hrun)
      as (evs & -> & Hord). exact Hord.
Qed.

End qt_order_facts.

(* ------------------------------------------------------------------ *)
(** ** polarization_grating.py: the efficiencies that are plotted *)
(* ------------------------------------------------------------------ *)

Module grating_efficiency_facts.
Import grating_efficiency.



End grating_efficiency_facts.
